(** * Normalized superposed epoch analysis ([sea_norm.sean])

    A shallow embedding of [src/sea_norm/sea_norm.py] and the properties of
    its single entry point [sean].

    Conventions of the embedding:
    - a Python call either returns or raises: [outcome];
    - a [float64] is a rational, or one of the three non-finite values
      ([fval]); rounding is not modelled, a division by zero produces the
      non-finite value NumPy produces;
    - a [DatetimeIndex] label is an integer number of nanoseconds;
    - a [DataFrame] is column-major: an index and named columns; label slices
      are those of an index ordered by time, and the properties that read
      them state that order;
    - an edge count passes through [np.int64], which refuses what does not
      fit in 64 bits;
    - the NumPy, pandas and SciPy functions [sean] calls are modelled from
      their documented behaviour in the modules [Np], [Pd] and [Scipy]. *)

From Stdlib Require Import ZArith QArith Qround List String Ascii Bool Lia Lqa.
From Stdlib Require Import Sorted DecimalString DecimalNat Floats.
Import ListNotations.

Local Open Scope Z_scope.
Local Open Scope Q_scope.
Local Open Scope string_scope.
Local Open Scope list_scope.

(** ** Python outcomes *)

(** What a [KeyError] reports: the label of a failed lookup [df[label]]; for
    a lookup by a list of labels, the requested labels that are not columns,
    each once, or the whole list when none of them is a column. *)
Inductive key_error : Type :=
| KeyLabel (label : string)
| KeyNotInIndex (not_found : list string)
| KeyNoneOf (key : list string).

Inductive exn : Type :=
| ZeroDivisionError
| IndexError
| OverflowError
| KeyError (key : key_error)
| ValueError (msg : string).

Inductive outcome (A : Type) : Type :=
| Ok (a : A)
| Raise (e : exn).

Arguments Ok {A} a.
Arguments Raise {A} e.

Definition bind {A B : Type} (m : outcome A) (k : A -> outcome B) : outcome B :=
  match m with
  | Ok a => k a
  | Raise e => Raise e
  end.

Notation "'let*' x ':=' m 'in' k" := (bind m (fun x => k))
  (at level 10, x pattern, m at level 100, k at level 200).

Definition raises {A : Type} (m : outcome A) : Prop := exists e, m = Raise e.

Fixpoint mapM {A B : Type} (f : A -> outcome B) (l : list A) : outcome (list B) :=
  match l with
  | [] => Ok []
  | a :: l' => let* b := f a in let* bs := mapM f l' in Ok (b :: bs)
  end.

(** ** NumPy *)

Module Np.

(** A [float64]: finite (a rational), [inf], [-inf] or [nan]. *)
Inductive fval : Type :=
| Fin (q : Q)
| PInf
| NInf
| NaN.


Definition is_nan (v : fval) : bool :=
  match v with NaN => true | _ => false end.

Definition Qis_zero (q : Q) : bool := (Qnum q =? 0)%Z.
Definition Qis_pos (q : Q) : bool := (0 <? Qnum q)%Z.

(** Division of two finite floats under NumPy's error state: [0/0] is [nan],
    [x/0] is [inf] or [-inf], nothing is raised. *)
Definition qdiv (a b : Q) : fval :=
  if Qis_zero b then
    if Qis_zero a then NaN else if Qis_pos a then PInf else NInf
  else Fin (a / b).

Definition fneg (v : fval) : fval :=
  match v with
  | Fin q => Fin (- q)
  | PInf => NInf
  | NInf => PInf
  | NaN => NaN
  end.

Definition fadd (u v : fval) : fval :=
  match u, v with
  | NaN, _ | _, NaN => NaN
  | Fin a, Fin b => Fin (a + b)
  | PInf, NInf | NInf, PInf => NaN
  | PInf, _ | _, PInf => PInf
  | NInf, _ | _, NInf => NInf
  end.

Definition fsub (u v : fval) : fval := fadd u (fneg v).

(** Product of a float and a finite factor. *)
Definition fscale (v : fval) (k : Q) : fval :=
  match v with
  | Fin a => Fin (a * k)
  | NaN => NaN
  | PInf => if Qis_zero k then NaN else if Qis_pos k then PInf else NInf
  | NInf => if Qis_zero k then NaN else if Qis_pos k then NInf else PInf
  end.

(** [u <= v] on floats; every comparison with [nan] is false. *)
Definition fle (u v : fval) : bool :=
  match u, v with
  | NaN, _ | _, NaN => false
  | NInf, _ | _, PInf => true
  | Fin a, Fin b => Qle_bool a b
  | _, _ => false
  end.

(** [np.linspace(start, stop, num)]: [num] evenly spaced samples, both ends
    included; a negative [num] is refused. *)
Definition linspace (start stop : Q) (num : Z) : outcome (list Q) :=
  if (num <? 0)%Z then Raise (ValueError "Number of samples must be non-negative")
  else if (num =? 1)%Z then Ok [start]
  else
    Ok (map (fun k : nat =>
               start + inject_Z (Z.of_nat k) * ((stop - start) / inject_Z (num - 1)))
            (seq 0 (Z.to_nat num))).

(** [np.arange(start, stop, step)]: [ceil((stop - start) / step)] values
    [start + k * step], the length taken without rounding. *)
Definition arange (start stop step : Q) : outcome (list Q) :=
  if Qis_zero step then Raise ZeroDivisionError
  else
    let len := Z.to_nat (Qceiling ((stop - start) / step)) in
    Ok (map (fun k : nat => start + inject_Z (Z.of_nat k) * step) (seq 0 len)).

Fixpoint Qmax_list (q : Q) (l : list Q) : Q :=
  match l with
  | [] => q
  | x :: l' => Qmax_list (if Qle_bool q x then x else q) l'
  end.

(** [a.max()]: the largest element; an empty array has none. *)
Definition amax (a : list Q) : outcome Q :=
  match a with
  | [] => Raise (ValueError "zero-size array to reduction operation maximum which has no identity")
  | x :: l => Ok (Qmax_list x l)
  end.

(** *** The reducers of the default statistic set *)

Definition drop_nan (l : list fval) : list fval :=
  filter (fun v => negb (is_nan v)) l.

Definition fsum (l : list fval) : fval := fold_left fadd l (Fin 0).

Definition count (l : list fval) : Q := inject_Z (Z.of_nat (List.length l)).

Fixpoint insert_sorted (v : fval) (l : list fval) : list fval :=
  match l with
  | [] => [v]
  | x :: l' => if fle v x then v :: l else x :: insert_sorted v l'
  end.

Definition sort (l : list fval) : list fval := fold_right insert_sorted [] l.

(** [np.nanmean]: mean of the entries that are not [nan]; [nan] when none. *)
Definition nanmean (l : list fval) : fval :=
  match drop_nan l with
  | [] => NaN
  | l' => fscale (fsum l') (/ count l')
  end.

(** NumPy's interpolation between two neighbours: [a + (b - a) * t], and
    [b - (b - a) * (1 - t)] from [t = 1/2] on. *)
Definition lerp (a b : fval) (t : Q) : fval :=
  let diff_b_a := fsub b a in
  if Qle_bool (1 # 2) t then fsub b (fscale diff_b_a (1 - t))
  else fadd a (fscale diff_b_a t).

(** [np.nanpercentile(l, q)], linear interpolation between the two closest
    ranks of the sorted entries that are not [nan]. *)
Definition nanpercentile (l : list fval) (q : Q) : fval :=
  match sort (drop_nan l) with
  | [] => NaN
  | s =>
      let pos := q / 100 * (count s - 1) in
      let lo := Z.to_nat (Qfloor pos) in
      let a := nth lo s NaN in
      let b := nth (Nat.min (S lo) (List.length s - 1)) s NaN in
      let g := pos - inject_Z (Qfloor pos) in
      lerp a b g
  end.

(** [np.nanmedian]: the middle entry, or the mean of the two middle ones. *)
Definition nanmedian (l : list fval) : fval :=
  match sort (drop_nan l) with
  | [] => NaN
  | s =>
      let n := List.length s in
      if Nat.even n
      then fscale (fadd (nth (n / 2 - 1) s NaN) (nth (n / 2) s NaN)) (1 # 2)
      else nth (n / 2) s NaN
  end.

End Np.

Import Np.

(** ** Python built-ins *)

(** [l[i]] for a non-negative position. *)
Definition py_index {A : Type} (l : list A) (i : nat) : outcome A :=
  match nth_error l i with
  | Some a => Ok a
  | None => Raise IndexError
  end.

(** [1 / n] on a Python int. *)
Definition py_inv (n : Z) : outcome Q :=
  if (n =? 0)%Z then Raise ZeroDivisionError else Ok (1 / inject_Z n).

(** [np.int64(n)] on a Python int: an int outside the 64-bit range is
    refused. *)
Definition np_int64 (n : Z) : outcome Z :=
  if ((- 2 ^ 63 <=? n) && (n <? 2 ^ 63))%Z then Ok n else Raise OverflowError.

(** [l[0:-1]] *)
Definition but_last {A : Type} (l : list A) : list A := removelast l.

(** [l[lo:hi]] for non-negative positions. *)
Definition py_slice {A : Type} (lo hi : nat) (l : list A) : list A :=
  firstn (hi - lo) (skipn lo l).

(** [str(n)] *)
Definition str_nat (n : nat) : string := NilEmpty.string_of_uint (Nat.to_uint n).

(** [f"{n:03d}"] *)
Definition fmt_03d (n : nat) : string :=
  let s := str_nat n in
  match String.length s with
  | 0%nat => "000" ++ s
  | 1%nat => "00" ++ s
  | 2%nat => "0" ++ s
  | _ => s
  end.

(** [list(s)] on a [str]: its characters. *)
Fixpoint chars (s : string) : list string :=
  match s with
  | EmptyString => []
  | String c s' => String c EmptyString :: chars s'
  end.

(** ** pandas *)

Module Pd.

Definition column : Type := (string * list fval)%type.

(** A [DataFrame] whose index holds timestamps (nanoseconds). *)
Record DataFrame : Type := mkDF {
  index : list Z;
  columns : list column
}.

Record Series : Type := mkSeries {
  s_index : list Z;
  s_values : list fval
}.

Definition names (df : DataFrame) : list string := map fst (columns df).

Fixpoint lookup (name : string) (cs : list column) : option (list fval) :=
  match cs with
  | [] => None
  | (n, v) :: cs' => if String.eqb n name then Some v else lookup name cs'
  end.

(** [df[name]] *)
Definition getitem (df : DataFrame) (name : string) : outcome (list fval) :=
  match lookup name (columns df) with
  | Some v => Ok v
  | None => Raise (KeyError (KeyLabel name))
  end.

Definition has_column (df : DataFrame) (name : string) : bool :=
  existsb (String.eqb name) (names df).

(** [Index.unique()]: each label once, at its first place *)
Fixpoint unique (l : list string) : list string :=
  match l with
  | [] => []
  | x :: l' => x :: filter (fun y => negb (String.eqb x y)) (unique l')
  end.

(** [df[[n1, n2, ...]]]: the listed columns, in the order of the list.  When
    some of the labels are not columns the lookup raises a [KeyError] that
    reports all of them. *)
Definition getitems (df : DataFrame) (ns : list string) : outcome DataFrame :=
  match filter (fun n => negb (has_column df n)) ns with
  | [] =>
      let* cs := mapM (fun n => let* v := getitem df n in Ok (n, v)) ns in
      Ok (mkDF (index df) cs)
  | missing =>
      if (List.length missing =? List.length ns)%nat
      then Raise (KeyError (KeyNoneOf ns))
      else Raise (KeyError (KeyNotInIndex (unique missing)))
  end.

(** Set a column: an existing label is overwritten in place, a new one is
    appended. *)
Fixpoint set_column (name : string) (v : list fval) (cs : list column) : list column :=
  match cs with
  | [] => [(name, v)]
  | (n, w) :: cs' =>
      if String.eqb n name then (n, v) :: cs' else (n, w) :: set_column name v cs'
  end.

(** [df.assign(name=v)] *)
Definition assign (df : DataFrame) (name : string) (v : list fval) : DataFrame :=
  mkDF (index df) (set_column name v (columns df)).

(** [s.to_frame(name)] *)
Definition to_frame (s : Series) (name : string) : DataFrame :=
  mkDF (s_index s) [(name, s_values s)].

(** [df.empty]: some axis has length 0. *)
Definition empty (df : DataFrame) : bool :=
  match index df, columns df with
  | [], _ | _, [] => true
  | _, _ => false
  end.

Fixpoint take_while {A : Type} (p : A -> bool) (l : list A) : list A :=
  match l with
  | [] => []
  | a :: l' => if p a then a :: take_while p l' else []
  end.

(** [index.searchsorted(t, side)] on a monotonic increasing index: the number
    of leading labels below [t] (left), or not above [t] (right). *)
Definition searchsorted_left (idx : list Z) (t : Z) : nat :=
  List.length (take_while (fun u => (u <? t)%Z) idx).

Definition searchsorted_right (idx : list Z) (t : Z) : nat :=
  List.length (take_while (fun u => (u <=? t)%Z) idx).

(** [df.loc[lo:hi]] on a monotonic increasing index: the rows from the first
    label not below [lo] up to and including the last label not above [hi].
    On an index that is not ordered pandas looks the two labels up instead,
    and raises [KeyError] for one that is absent; that lookup is not part of
    the model, whose windows are those of an ordered index. *)
Definition loc (df : DataFrame) (lo hi : Z) : DataFrame :=
  let l := searchsorted_left (index df) lo in
  let r := searchsorted_right (index df) hi in
  mkDF (py_slice l r (index df))
       (map (fun c : column => (fst c, py_slice l r (snd c))) (columns df)).

Definition column_or_nan (name : string) (df : DataFrame) : list fval :=
  match lookup name (columns df) with
  | Some v => v
  | None => map (fun _ => NaN) (index df)
  end.

(** [pd.concat(frames)] of frames that carry the same column labels: the
    rows of all frames in order.  Nothing to concatenate is an error. *)
Definition concat (frames : list DataFrame) : outcome DataFrame :=
  match frames with
  | [] => Raise (ValueError "No objects to concatenate")
  | f :: _ =>
      Ok (mkDF (flat_map index frames)
               (map (fun n => (n, flat_map (column_or_nan n) frames)) (names f)))
  end.

(** The table under construction ([SEAdat] before [set_index]): named columns
    of one common length.  [tbl[name] = v] *)
Definition setitem (tbl : list column) (name : string) (v : list fval)
  : outcome (list column) :=
  match tbl with
  | [] => Ok [(name, v)]
  | (_, w) :: _ =>
      if (List.length v =? List.length w)%nat then Ok (set_column name v tbl)
      else Raise (ValueError "Length of values does not match length of index")
  end.

Fixpoint remove_column (name : string) (cs : list column) : list column :=
  match cs with
  | [] => []
  | (n, w) :: cs' =>
      if String.eqb n name then cs' else (n, w) :: remove_column name cs'
  end.

(** A table indexed by a float column. *)
Record Table : Type := mkTable {
  t_index : list fval;
  t_columns : list column
}.

(** [tbl.set_index(name)] *)
Definition set_index (tbl : list column) (name : string) : outcome Table :=
  match lookup name tbl with
  | Some v => Ok (mkTable v (remove_column name tbl))
  | None => Raise (KeyError (KeyLabel name))
  end.

End Pd.

(** ** scipy.stats *)

Module Scipy.

(** A statistic is the string ["count"] or a callable on the values of one
    bin.  Each other string SciPy accepts names such a function and is entered
    as that function. *)
Inductive statistic : Type :=
| StatCount
| StatCallable (f : list fval -> fval).

Definition reduce (s : statistic) (l : list fval) : fval :=
  match s with
  | StatCount => Fin (Np.count l)
  | StatCallable f => f l
  end.

(** Bin [b] of [edges] is [edges[b] <= x < edges[b+1]], and the last bin
    includes its right edge.  A value that is not finite is in no bin.
    (SciPy compares with the right edge after rounding both to a few
    decimals; a value above the edge is in no bin here.) *)
Definition in_bin (edges : list Q) (b : nat) (x : fval) : bool :=
  match x, nth_error edges b, nth_error edges (S b) with
  | Fin q, Some lo, Some hi =>
      Qle_bool lo q &&
      (if (S (S b) =? List.length edges)%nat then Qle_bool q hi else negb (Qle_bool hi q))
  | _, _, _ => false
  end.

Definition nbins (edges : list Q) : nat := (List.length edges - 1)%nat.

(** The entries of [v] at the positions where [sel] holds. *)
Definition select (sel : list bool) (v : list fval) : list fval :=
  map snd (filter fst (combine sel v)).

Definition need_two_edges (edges : list Q) : outcome unit :=
  if (List.length edges <? 2)%nat
  then Raise (ValueError "zero-size array to reduction operation minimum which has no identity")
  else Ok tt.

(** [binned_statistic(x, values, statistic, bins=edges)[0]]: one row per
    sequence of [values], one entry per bin. *)
Definition binned_statistic (x : list fval) (values : list (list fval))
    (edges : list Q) (s : statistic) : outcome (list (list fval)) :=
  let* _ := need_two_edges edges in
  Ok (map (fun v =>
             map (fun b => reduce s (select (map (in_bin edges b) x) v))
                 (seq 0 (nbins edges)))
          values).

(** [binned_statistic_2d(x, y, values, statistic, bins=[x_edges, y_edges])[0]]:
    indexed by sequence of [values], bin of [x], bin of [y]. *)
Definition binned_statistic_2d (x y : list fval) (values : list (list fval))
    (x_edges y_edges : list Q) (s : statistic) : outcome (list (list (list fval))) :=
  let* _ := need_two_edges x_edges in
  let* _ := need_two_edges y_edges in
  Ok (map (fun v =>
             map (fun i =>
                    map (fun j =>
                           reduce s
                             (select (map (fun xy => in_bin x_edges i (fst xy)
                                                     && in_bin y_edges j (snd xy))
                                          (combine x y)) v))
                        (seq 0 (nbins y_edges)))
                 (seq 0 (nbins x_edges)))
          values).

End Scipy.

Import Pd Scipy.

(** ** [sean] *)

(** The arguments of [sean]. *)

Inductive data_arg : Type :=
| DataSeries (s : Series)
| DataTable (df : DataFrame).

(** [events]: the three sequences [t0], [t1], [t2]. *)
Record events_arg : Type := mkEvents {
  ev_starts : list Z;
  ev_epochs : list Z;
  ev_ends : list Z
}.

(** [cols]: [False], a column label or a list of labels. *)
Inductive cols_arg : Type :=
| ColsFalse
| ColsStr (s : string)
| ColsList (l : list string).

(** [seastats]: [False], a dict, a list or a tuple of reducers, or a NumPy
    array of two or more reducers. *)
Inductive seastats_arg : Type :=
| StatsFalse
| StatsDict (d : list (string * statistic))
| StatsOther (l : list statistic)
| StatsArray (a b : statistic) (rest : list statistic).

(** [y_meta]: [False] ([None]) for a 1D analysis, else the description of
    the second dimension. *)
Record y_rtn : Type := mkY {
  y_min : Q;
  y_max : Q;
  y_bin : Q;
  y_edges : list Q
}.

Record meta : Type := mkMeta {
  sea_cols : list string;
  stats : list (string * statistic);
  y_meta : option y_rtn
}.

(** What a call returns, with what it printed.  [pooled] holds [p1data] and
    [p2data] when [return_data] is set. *)
Record sea_return : Type := mkReturn {
  SEAdat : Table;
  sea_meta : meta;
  pooled : option (DataFrame * DataFrame);
  printed : list string
}.

(** Truth values of the optional arguments. *)

Definition cols_truthy (c : cols_arg) : bool :=
  match c with
  | ColsFalse | ColsStr EmptyString | ColsList [] => false
  | _ => true
  end.

Definition y_col_truthy (y : option string) : bool :=
  match y with
  | None | Some EmptyString => false
  | _ => true
  end.

Definition y_dimensions_truthy (y : option (list Q)) : bool :=
  match y with
  | None | Some [] => false
  | _ => true
  end.

(** [list(cols)], also what [for x in cols] and [cols[i]] run over. *)
Definition cols_items (c : cols_arg) : list string :=
  match c with
  | ColsFalse => []
  | ColsStr s => chars s
  | ColsList l => l
  end.

(** Lines 145-170: the frame to analyse, and [cols] and [y_col] as the rest
    of the function sees them.  A frame indexed with a list is a frame, so
    the inner [isinstance] test never holds. *)
Definition select_data (data : data_arg) (cols : cols_arg)
    (y_col : option string) (y_dimensions : option (list Q))
  : outcome (DataFrame * cols_arg * option string) :=
  match data with
  | DataSeries s => Ok (to_frame s "data", ColsStr "data", y_col)
  | DataTable df =>
      if cols_truthy cols then
        let col_dat :=
          cols_items cols ++
          (if y_col_truthy y_col && y_dimensions_truthy y_dimensions
           then match y_col with Some y => [y] | None => [] end
           else []) in
        let* se_data := getitems df col_dat in
        Ok (se_data, cols, y_col)
      else Ok (df, ColsList (names df), None)
  end.

(** Lines 172-188. *)
Definition default_stats : list (string * statistic) :=
  [ ("mean", StatCallable Np.nanmean);
    ("median", StatCallable Np.nanmedian);
    ("lowq", StatCallable (fun stat => Np.nanpercentile stat 25));
    ("upq", StatCallable (fun stat => Np.nanpercentile stat 75));
    ("cnt", StatCount) ].

(** Line 176 first takes the truth value of [seastats]: an empty dict, list
    or tuple is false, and an array of two or more elements has none. *)
Definition stats_truth (seastats : seastats_arg) : outcome bool :=
  match seastats with
  | StatsFalse => Ok false
  | StatsDict d => Ok (match d with [] => false | _ => true end)
  | StatsOther l => Ok (match l with [] => false | _ => true end)
  | StatsArray _ _ _ =>
      Raise (ValueError "The truth value of an array with more than one element is ambiguous. Use a.any() or a.all()")
  end.

(** Lines 176-188, the truth value taken: a dict that is not empty is used,
    anything else gives the default statistics. *)
Definition resolve_stats (seastats : seastats_arg) : list (string * statistic) :=
  match seastats with
  | StatsDict (kv :: d) => kv :: d
  | _ => default_stats
  end.

(** Lines 222-231: one phase of one event with its normalized time. *)

Definition total_seconds (ns : Z) : Q := inject_Z ns / inject_Z 1000000000.

Definition normalize (idx : list Z) : outcome (list fval) :=
  let* first := py_index idx 0 in
  let t_norm := map (fun t => total_seconds (t - first)) idx in
  let* p_min := py_index t_norm 0 in
  let* p_max := py_index t_norm (List.length t_norm - 1) in
  Ok (map (fun t => qdiv (t - p_min) (p_max - p_min)) t_norm).

Definition normalized_phase (phase : DataFrame) : outcome DataFrame :=
  let* t_norm := normalize (index phase) in
  Ok (assign phase "t_norm" t_norm).

(** Lines 193-231: the loop over the events. *)

Record loop_state : Type := mkLoop {
  phase1_dfs : list DataFrame;
  phase2_dfs : list DataFrame;
  stdout : list string
}.

Definition phase1_of (se_data : DataFrame) (start epoch : Z) : DataFrame :=
  loc se_data start epoch.

Definition phase2_of (se_data : DataFrame) (epoch end_ : Z) : DataFrame :=
  loc se_data epoch end_.

(** The flag [skip_event] after lines 211-215. *)
Definition skip_event (phase1 phase2 : DataFrame) : bool :=
  empty phase1 || empty phase2.

Definition no_data_message (event : nat) : string :=
  "There is no data for event " ++ str_nat event.

Definition loop_body (se_data : DataFrame) (ev : events_arg) (event : nat)
    (st : loop_state) : outcome loop_state :=
  let* start := py_index (ev_starts ev) event in
  let* epoch := py_index (ev_epochs ev) event in
  let* end_ := py_index (ev_ends ev) event in
  let phase1 := phase1_of se_data start epoch in
  let phase2 := phase2_of se_data epoch end_ in
  if skip_event phase1 phase2 then
    Ok (mkLoop (phase1_dfs st) (phase2_dfs st) (stdout st ++ [no_data_message event]))
  else
    let* n1 := normalized_phase phase1 in
    let* n2 := normalized_phase phase2 in
    Ok (mkLoop (phase1_dfs st ++ [n1]) (phase2_dfs st ++ [n2]) (stdout st)).

Fixpoint for_each {S : Type} (body : nat -> S -> outcome S) (l : list nat) (st : S)
  : outcome S :=
  match l with
  | [] => Ok st
  | i :: l' => let* st' := body i st in for_each body l' st'
  end.

Definition event_loop (se_data : DataFrame) (ev : events_arg) : outcome loop_state :=
  for_each (loop_body se_data ev) (seq 0 (List.length (ev_starts ev))) (mkLoop [] [] []).

(** Lines 242-246 and 261-263: the bins of one phase and the time axis. *)

Definition t_norm_axis (x1bins x2bins : list Q) (x1_spacing x2_spacing : Q)
  : outcome (list Q) :=
  let* top := Np.amax x1bins in
  Ok (map (fun b => (b - top - x1_spacing) / x1_spacing) x1bins
      ++ map (fun b => b / x2_spacing) x2bins).

(** The axis as a function of [x_dimensions] alone. *)
Definition time_axis (x_dimensions : Z * Z) : outcome (list Q) :=
  let* x1_spacing := py_inv (fst x_dimensions) in
  let* x2_spacing := py_inv (snd x_dimensions) in
  let* x1_edges := Np.linspace 0 1 (fst x_dimensions) in
  let* x2_edges := Np.linspace 0 1 (snd x_dimensions) in
  t_norm_axis (but_last x1_edges) (but_last x2_edges) x1_spacing x2_spacing.

(** Lines 253-259: the second dimension. [None] is [sea2d = False]. *)
Definition y_grid (y_col : option string) (y_dimensions : option (list Q))
  : outcome (option (string * y_rtn)) :=
  if y_col_truthy y_col && y_dimensions_truthy y_dimensions then
    match y_col, y_dimensions with
    | Some y, Some [ymin; ymax; y_spacing] =>
        let* edges := Np.arange ymin (ymax + y_spacing) y_spacing in
        Ok (Some (y, mkY ymin ymax y_spacing edges))
    | _, _ => Raise (ValueError "not enough or too many values to unpack (expected 3)")
    end
  else Ok None.

(** The labels of the result columns (lines 301 and 322). *)
Definition label_1d (c s_name : string) : string := c ++ "_" ++ s_name.

Definition label_2d (c s_name : string) (j : nat) : string :=
  c ++ "_" ++ s_name ++ "_" ++ fmt_03d j.

(** Lines 305-322: the columns of one statistic, 1D. *)

Fixpoint fill_1d (tbl : list column) (s_name : string)
    (rows : list (list fval * list fval * string)) : outcome (list column) :=
  match rows with
  | [] => Ok tbl
  | (p1_col, p2_col, c) :: rows' =>
      let* tbl' := setitem tbl (label_1d c s_name) (p1_col ++ p2_col) in
      fill_1d tbl' s_name rows'
  end.

Definition stat_1d (p1data p2data : DataFrame) (ph1list ph2list : list (list fval))
    (x1_edges x2_edges : list Q) (cols : list string)
    (tbl : list column) (s : string * statistic) : outcome (list column) :=
  let* t1 := getitem p1data "t_norm" in
  let* p1stat := binned_statistic t1 ph1list x1_edges (snd s) in
  let* t2 := getitem p2data "t_norm" in
  let* p2stat := binned_statistic t2 ph2list x2_edges (snd s) in
  fill_1d tbl (fst s) (combine (combine p1stat p2stat) cols).

(** Lines 281-303: the columns of one statistic, 2D.  [p1stat] has the shape
    (number of sequences in [ph1list], bins of [x1_edges], bins of [y_edges]). *)

(** [a[i, :, j]] *)
Definition plane (a : list (list (list fval))) (i j : nat) : outcome (list fval) :=
  let* m := py_index a i in
  mapM (fun row => py_index row j) m.

Fixpoint fill_2d (tbl : list column) (s_name : string) (cols : list string)
    (p1stat p2stat : list (list (list fval))) (ij : list (nat * nat))
  : outcome (list column) :=
  match ij with
  | [] => Ok tbl
  | (i, j) :: ij' =>
      let* c := py_index cols i in
      let* a := plane p1stat i j in
      let* b := plane p2stat i j in
      let* tbl' := setitem tbl (label_2d c s_name j) (a ++ b) in
      fill_2d tbl' s_name cols p1stat p2stat ij'
  end.

Definition stat_2d (p1data p2data : DataFrame) (ph1list ph2list : list (list fval))
    (x1_edges x2_edges : list Q) (cols : list string) (y_col : string) (y_edges : list Q)
    (tbl : list column) (s : string * statistic) : outcome (list column) :=
  let* t1 := getitem p1data "t_norm" in
  let* y1 := getitem p1data y_col in
  let* p1stat := binned_statistic_2d t1 y1 ph1list x1_edges y_edges (snd s) in
  let* t2 := getitem p2data "t_norm" in
  let* y2 := getitem p2data y_col in
  let* p2stat := binned_statistic_2d t2 y2 ph2list x2_edges y_edges (snd s) in
  fill_2d tbl (fst s) cols p1stat p2stat
    (flat_map (fun i => map (fun j => (i, j)) (seq 0 (nbins y_edges)))
              (seq 0 (List.length ph1list))).

Fixpoint fold_stats (f : list column -> string * statistic -> outcome (list column))
    (tbl : list column) (l : list (string * statistic)) : outcome (list column) :=
  match l with
  | [] => Ok tbl
  | s :: l' => let* tbl' := f tbl s in fold_stats f tbl' l'
  end.

(** [cols] at line 327-328. *)
Definition cols_as_list (c : cols_arg) : list string :=
  match c with
  | ColsFalse => []
  | ColsStr s => [s]
  | ColsList l => l
  end.

Definition sean (data : data_arg) (events : events_arg) (x_dimensions : Z * Z)
    (cols : cols_arg) (seastats : seastats_arg) (y_col : option string)
    (y_dimensions : option (list Q)) (return_data : bool) : outcome sea_return :=
  let* x1_spacing := py_inv (fst x_dimensions) in
  let* x2_spacing := py_inv (snd x_dimensions) in
  let* x1_bin := np_int64 (fst x_dimensions) in
  let* x2_bin := np_int64 (snd x_dimensions) in
  let* (se_data, cols, y_col) := select_data data cols y_col y_dimensions in
  let* _ := stats_truth seastats in
  let stat_vals := resolve_stats seastats in
  let* st := event_loop se_data events in
  let* p1data := concat (phase1_dfs st) in
  let* p2data := concat (phase2_dfs st) in
  let* x1_edges := Np.linspace 0 1 x1_bin in
  let* x2_edges := Np.linspace 0 1 x2_bin in
  let x1bins := but_last x1_edges in
  let x2bins := but_last x2_edges in
  let* sea2d := y_grid y_col y_dimensions in
  let* t_norm := t_norm_axis x1bins x2bins x1_spacing x2_spacing in
  let* tbl := setitem [] "t_norm" (map Fin t_norm) in
  let* ph1list := mapM (getitem p1data) (cols_items cols) in
  let* ph2list := mapM (getitem p2data) (cols_items cols) in
  let* tbl :=
    fold_stats
      (match sea2d with
       | Some (y, yr) =>
           stat_2d p1data p2data ph1list ph2list x1_edges x2_edges
                   (cols_items cols) y (y_edges yr)
       | None =>
           stat_1d p1data p2data ph1list ph2list x1_edges x2_edges (cols_items cols)
       end)
      tbl stat_vals in
  let* table := set_index tbl "t_norm" in
  Ok (mkReturn table
        (mkMeta (cols_as_list cols) stat_vals (option_map snd sea2d))
        (if return_data then Some (p1data, p2data) else None)
        (stdout st)).

(** ** The time axis in binary64

    Lines 140, 242-246 and 261-263 once more, on IEEE 754 binary64 numbers,
    to evaluate the axis of a call bit for bit.  [np.linspace(0, 1, num)] is
    computed as NumPy does: [k * (1 / (num - 1))], the last sample set to 1. *)

Module Binary64.

Definition of_nat (n : nat) : float := PrimFloat.of_uint63 (Uint63.of_Z (Z.of_nat n)).

Definition linspace01 (num : nat) : list float :=
  match num with
  | O => []
  | S O => [0%float]
  | S div =>
      let step := (1 / of_nat div)%float in
      map (fun k => (of_nat k * step + 0)%float) (seq 0 div) ++ [1%float]
  end.

Definition fmax (a b : float) : float := if PrimFloat.leb a b then b else a.

Definition max_of (a : list float) : option float :=
  match a with
  | [] => None
  | x :: l => Some (fold_left fmax l x)
  end.

Definition time_axis (x1 x2 : nat) : option (list float) :=
  match x1, x2 with
  | O, _ | _, O => None
  | _, _ =>
      let x1_spacing := (1 / of_nat x1)%float in
      let x2_spacing := (1 / of_nat x2)%float in
      let x1bins := but_last (linspace01 x1) in
      let x2bins := but_last (linspace01 x2) in
      match max_of x1bins with
      | None => None
      | Some top =>
          Some (map (fun b => ((b - top - x1_spacing) / x1_spacing)%float) x1bins
                ++ map (fun b => (b / x2_spacing)%float) x2bins)
      end
  end.

End Binary64.

(** * Vocabulary of the properties *)

(** The left edges of the bins of [np.linspace(0, 1, n)]. *)
Definition bin_starts (n : Z) : list Q :=
  map (fun k : nat => 0 + inject_Z (Z.of_nat k) * ((1 - 0) / inject_Z (n - 1)))
      (seq 0 (Z.to_nat n - 1)).

(** The labels of [df.loc[lo:hi]]. *)
Definition labels_between (idx : list Z) (lo hi : Z) : list Z :=
  py_slice (searchsorted_left idx lo) (searchsorted_right idx hi) idx.

(** [normalize] without its error case, which a non-empty phase never takes. *)
Definition t_norm_values (idx : list Z) : list fval :=
  match normalize idx with
  | Ok v => v
  | Raise _ => []
  end.

Definition elapsed (first t : Z) : Q := total_seconds (t - first).

(** The frame stored for a phase. *)
Definition frame_of (phase : DataFrame) : DataFrame :=
  assign phase "t_norm" (t_norm_values (index phase)).

(** The epochs and the windows of event [i]. *)
Definition start_of (ev : events_arg) (i : nat) : Z := nth i (ev_starts ev) 0%Z.
Definition epoch_of (ev : events_arg) (i : nat) : Z := nth i (ev_epochs ev) 0%Z.
Definition end_of (ev : events_arg) (i : nat) : Z := nth i (ev_ends ev) 0%Z.

Definition window1 (se_data : DataFrame) (ev : events_arg) (i : nat) : DataFrame :=
  phase1_of se_data (start_of ev i) (epoch_of ev i).

Definition window2 (se_data : DataFrame) (ev : events_arg) (i : nat) : DataFrame :=
  phase2_of se_data (epoch_of ev i) (end_of ev i).

Definition skipped (se_data : DataFrame) (ev : events_arg) (i : nat) : bool :=
  skip_event (window1 se_data ev i) (window2 se_data ev i).

Definition survives (se_data : DataFrame) (ev : events_arg) (i : nat) : bool :=
  negb (skipped se_data ev i).

(** Every event has its three epochs. *)
Definition events_complete (ev : events_arg) : Prop :=
  (List.length (ev_starts ev) <= List.length (ev_epochs ev))%nat
  /\ (List.length (ev_starts ev) <= List.length (ev_ends ev))%nat.

Definition in_range (ev : events_arg) (i : nat) : Prop :=
  (i < List.length (ev_starts ev))%nat
  /\ (i < List.length (ev_epochs ev))%nat
  /\ (i < List.length (ev_ends ev))%nat.

(** The state after the events [l], in closed form. *)
Definition after_events (se_data : DataFrame) (ev : events_arg) (l : list nat)
    (st : loop_state) : loop_state :=
  mkLoop (phase1_dfs st
          ++ map (fun i => frame_of (window1 se_data ev i)) (filter (survives se_data ev) l))
         (phase2_dfs st
          ++ map (fun i => frame_of (window2 se_data ev i)) (filter (survives se_data ev) l))
         (stdout st ++ map no_data_message (filter (skipped se_data ev) l)).

(** [range(len(starts))] *)
Definition event_ids (ev : events_arg) : list nat := seq 0 (List.length (ev_starts ev)).

(** A table under construction: columns of one length, [t_norm] among them. *)
Definition tbl_inv (N : nat) (tbl : list column) : Prop :=
  Forall (fun c : column => List.length (snd c) = N) tbl /\ In "t_norm" (map fst tbl).

(** The table after the assignments [entries], in order. *)
Definition write_all (entries tbl : list column) : list column :=
  fold_left (fun t (e : column) => set_column (fst e) (snd e) t) entries tbl.

Definition entry_1d (s_name : string) (row : list fval * list fval * string) : column :=
  (label_1d (snd row) s_name, fst (fst row) ++ snd (fst row)).

Definition entries_1d (s_name : string) (p1stat p2stat : list (list fval))
    (cols : list string) : list column :=
  map (entry_1d s_name) (combine (combine p1stat p2stat) cols).

(** An array of shape [(k, nx, ny)]. *)
Definition shaped (k nx ny : nat) (a : list (list (list fval))) : Prop :=
  List.length a = k
  /\ Forall (fun m => List.length m = nx
                      /\ Forall (fun row : list fval => List.length row = ny) m) a.

(** The labels one run of the statistics may write. *)
Definition stat_label (cols : list string) (stat_names : list string) (l : string) : Prop :=
  exists c s, In c cols /\ In s stat_names
              /\ (l = label_1d c s \/ exists j, l = label_2d c s j).

(** Event [i] has rows in both of its windows. *)
Definition has_data (idx : list Z) (ev : events_arg) (i : nat) : bool :=
  match labels_between idx (start_of ev i) (epoch_of ev i),
        labels_between idx (epoch_of ev i) (end_of ev i) with
  | _ :: _, _ :: _ => true
  | _, _ => false
  end.

(** The columns a call analyses. *)
Definition analysed_cols (df : DataFrame) (cols : cols_arg) : list string :=
  if cols_truthy cols then cols_items cols else names df.

(** The mode of a call on a table: [true] for a 2D analysis. *)
Definition two_d (cols : cols_arg) (y_col : option string)
    (y_dimensions : option (list Q)) : bool :=
  cols_truthy cols && (y_col_truthy y_col && y_dimensions_truthy y_dimensions).

(** A table as pandas builds it: at least one column, distinct labels, and
    columns as long as the index. *)
Definition well_formed (df : DataFrame) : Prop :=
  columns df <> []
  /\ NoDup (names df)
  /\ Forall (fun c : column => List.length (snd c) = List.length (index df)) (columns df).

(** A valid call on a table: edge counts of at least 2 that fit in 64 bits,
    complete events of which one at least has data, distinct columns that
    exist, for a 2D analysis a second dimension that is not one of them with
    a grid [ymin < ymax] of positive spacing, and an index ordered by time. *)
Definition valid_input (df : DataFrame) (ev : events_arg) (x_dimensions : Z * Z)
    (cols : cols_arg) (y_col : option string) (y_dimensions : option (list Q)) : Prop :=
  (2 <= fst x_dimensions < 2 ^ 63)%Z /\ (2 <= snd x_dimensions < 2 ^ 63)%Z
  /\ events_complete ev
  /\ well_formed df
  /\ (exists i, (i < List.length (ev_starts ev))%nat /\ has_data (index df) ev i = true)
  /\ (cols_truthy cols = true ->
      NoDup (cols_items cols) /\ Forall (fun c => In c (names df)) (cols_items cols))
  /\ (two_d cols y_col y_dimensions = true ->
      exists y ymin ymax y_spacing,
        y_col = Some y /\ In y (names df) /\ ~ In y (cols_items cols)
        /\ y_dimensions = Some [ymin; ymax; y_spacing]
        /\ 0 < y_spacing /\ ymin < ymax)
  /\ StronglySorted Z.le (index df).

(** [lo <= t <= hi] *)
Definition between (lo hi t : Z) : bool := (lo <=? t)%Z && (t <=? hi)%Z.

(** [v[m]] for a boolean mask [m]. *)
Definition mask_select {A : Type} (m : list bool) (v : list A) : list A :=
  map snd (filter fst (combine m v)).


Fixpoint Qmin_list (q : Q) (l : list Q) : Q :=
  match l with
  | [] => q
  | x :: l' => Qmin_list (if Qle_bool q x then q else x) l'
  end.

(** [a.min()] *)
Definition amin (a : list Q) : outcome Q :=
  match a with
  | [] => Raise (ValueError "zero-size array to reduction operation minimum which has no identity")
  | x :: l => Ok (Qmin_list x l)
  end.

(** The normalized time as the specification words it: elapsed seconds since
    the first row, rescaled by their minimum and maximum. *)
Definition normalize_spec (idx : list Z) : outcome (list fval) :=
  let* first := py_index idx 0 in
  let el := map (elapsed first) idx in
  let* lo := amin el in
  let* hi := Np.amax el in
  Ok (map (fun e => qdiv (e - lo) (hi - lo)) el).

Definition in_unit_interval (v : fval) : Prop :=
  match v with
  | Fin q => 0 <= q <= 1
  | _ => False
  end.

Definition is_series (data : data_arg) : bool :=
  match data with DataSeries _ => true | DataTable _ => false end.

Definition data_index (data : data_arg) : list Z :=
  match data with
  | DataSeries s => s_index s
  | DataTable df => index df
  end.

Definition is_integer (q : Q) : Prop := exists z : Z, q == inject_Z z.

(** A phase of positive duration: its first label is before its last. *)
Definition positive_duration (idx : list Z) : Prop := (hd 0 idx < last idx 0)%Z.





(** The labels [data[col_dat]] asks for (lines 153-155). *)
Definition col_dat (cols : cols_arg) (y_col : option string)
    (y_dimensions : option (list Q)) : list string :=
  cols_items cols ++
  (if y_col_truthy y_col && y_dimensions_truthy y_dimensions
   then match y_col with Some y => [y] | None => [] end
   else []).

(** The labels of [ns] that are not columns of [df]. *)
Definition missing_labels (df : DataFrame) (ns : list string) : list string :=
  filter (fun n => negb (has_column df n)) ns.

(** What the [KeyError] of [df[ns]] reports. *)
Definition missing_report (df : DataFrame) (ns : list string) : key_error :=
  if (List.length (missing_labels df ns) =? List.length ns)%nat
  then KeyNoneOf ns
  else KeyNotInIndex (unique (missing_labels df ns)).

(** The events that are not skipped. *)
Definition survivors (se : DataFrame) (ev : events_arg) : list nat :=
  filter (survives se ev) (event_ids ev).

Definition without_pooled (r : sea_return) : sea_return :=
  mkReturn (SEAdat r) (sea_meta r) None (printed r).

(** The statistic [s] of column [c] of the pooled frame [p] in each bin of
    [edges]. *)
Definition bin_stats (p : DataFrame) (c : string) (edges : list Q) (s : statistic)
  : list fval :=
  map (fun b =>
         reduce s (select (map (in_bin edges b) (column_or_nan "t_norm" p))
                          (column_or_nan c p)))
      (seq 0 (nbins edges)).

(** The columns of a 1D result: for each statistic, for each analysed column,
    phase 1 then phase 2. *)
Definition columns_1d (p1 p2 : DataFrame) (e1 e2 : list Q) (cs : list string)
    (stat_vals : list (string * statistic)) : list column :=
  flat_map (fun s : string * statistic =>
              map (fun c => (label_1d c (fst s),
                             bin_stats p1 c e1 (snd s) ++ bin_stats p2 c e2 (snd s)))
                  cs)
           stat_vals.

(** The labels of the columns of a 1D result. *)
Definition labels_1d (cs : list string) (stat_vals : list (string * statistic))
  : list string :=
  flat_map (fun s : string * statistic => map (fun c => label_1d c (fst s)) cs) stat_vals.

(** The statistic [s] of column [c] of the pooled frame [p] in each bin of
    [x_edges], within bin [j] of [y_edges] along the column [y]. *)
Definition cell_stats (p : DataFrame) (c y : string) (x_edges y_edges : list Q)
    (s : statistic) (j : nat) : list fval :=
  map (fun i =>
         reduce s
           (select (map (fun xy => in_bin x_edges i (fst xy) && in_bin y_edges j (snd xy))
                        (combine (column_or_nan "t_norm" p) (column_or_nan y p)))
                   (column_or_nan c p)))
      (seq 0 (nbins x_edges)).

(** The columns of a 2D result: for each statistic, for each analysed column,
    for each bin of the second dimension, phase 1 then phase 2. *)
Definition columns_2d (p1 p2 : DataFrame) (e1 e2 ye : list Q) (y : string)
    (cs : list string) (stat_vals : list (string * statistic)) : list column :=
  flat_map (fun s : string * statistic =>
              flat_map (fun c =>
                          map (fun j => (label_2d c (fst s) j,
                                         cell_stats p1 c y e1 ye (snd s) j
                                         ++ cell_stats p2 c y e2 ye (snd s) j))
                              (seq 0 (nbins ye)))
                       cs)
           stat_vals.

(** The labels of the columns of a 2D result with [ny] bins of the second
    dimension. *)
Definition labels_2d (cs : list string) (stat_vals : list (string * statistic))
    (ny : nat) : list string :=
  flat_map (fun s : string * statistic =>
              flat_map (fun c => map (label_2d c (fst s)) (seq 0 ny)) cs)
           stat_vals.

Definition entry_2d (s_name : string) (cs : list string)
    (a b : list (list (list fval))) (ij : nat * nat) : column :=
  (label_2d (nth (fst ij) cs "") s_name (snd ij),
   map (fun row => nth (snd ij) row NaN) (nth (fst ij) a [])
   ++ map (fun row => nth (snd ij) row NaN) (nth (fst ij) b [])).

(** [u <= v] holds on floats. *)
Definition fval_le (u v : fval) : Prop := fle u v = true.

(** The share of the span between the first and the last label of a phase
    that has elapsed at the label [t]. *)
Definition elapsed_share (first last_ t : Z) : Q :=
  inject_Z (t - first) / inject_Z (last_ - first).

(** The positions [time_axis] computes, in closed form: phase 1 counted from
    the epoch backwards, phase 2 forwards. *)
Definition axis_positions (n1 n2 : Z) : list Q :=
  map (fun k : nat =>
         - (1) - inject_Z (n1 - 2 - Z.of_nat k) * (inject_Z n1 / inject_Z (n1 - 1)))
      (seq 0 (Z.to_nat n1 - 1))
  ++ map (fun k : nat => inject_Z (Z.of_nat k) * (inject_Z n2 / inject_Z (n2 - 1)))
         (seq 0 (Z.to_nat n2 - 1)).

(** The result [r] with [sea_cols] replaced. *)
Definition with_sea_cols (c : list string) (r : sea_return) : sea_return :=
  mkReturn (SEAdat r) (mkMeta c (stats (sea_meta r)) (y_meta (sea_meta r)))
           (pooled r) (printed r).

(** The number of bins of [edges] that hold [x]. *)
Definition hits (edges : list Q) (x : fval) : nat :=
  List.length (filter (fun b => in_bin edges b x) (seq 0 (nbins edges))).

(** The number of samples of column [c] of the pooled frame [p] in each bin
    of [edges]. *)
Definition bin_sizes (p : DataFrame) (c : string) (edges : list Q) : list nat :=
  map (fun b => List.length (select (map (in_bin edges b) (column_or_nan "t_norm" p))
                                    (column_or_nan c p)))
      (seq 0 (nbins edges)).

(** Columns as long as the index. *)
Definition rect (df : DataFrame) : Prop :=
  Forall (fun c : column => List.length (snd c) = List.length (index df)) (columns df).

(** ** A worked example *)

(** A table of seven rows, one nanosecond apart, and two events. *)
Definition demo_table : DataFrame :=
  mkDF [0; 1; 2; 3; 4; 5; 6]%Z
       [ ("v", [Fin 10; Fin 11; Fin 12; Fin 13; Fin 14; Fin 15; Fin 16]);
         ("L", [Fin 1; Fin 2; Fin 3; Fin 4; Fin 5; Fin 6; Fin 7]) ].

Definition demo_events : events_arg := mkEvents [0; 3]%Z [2; 5]%Z [4; 6]%Z.

(** The statistic set [{"cnt": "count"}]. *)
Definition count_only : list (string * statistic) := [("cnt", StatCount)].


(** What the 1D call on the example returns, with the pooled frames. *)
Definition demo_return_1d : sea_return :=
  Eval vm_compute in
    match sean (DataTable demo_table) demo_events (3, 3)%Z (ColsList ["v"])
               (StatsDict count_only) None None true with
    | Ok r => r
    | Raise _ => mkReturn (mkTable [] []) (mkMeta [] [] None) None []
    end.

(** What the 2D call on the example returns, with the pooled frames. *)
Definition demo_return_2d : sea_return :=
  Eval vm_compute in
    match sean (DataTable demo_table) demo_events (3, 3)%Z (ColsList ["v"])
               (StatsDict count_only) (Some "L") (Some [0; 10; 5]) true with
    | Ok r => r
    | Raise _ => mkReturn (mkTable [] []) (mkMeta [] [] None) None []
    end.

(** A series with the values of column [v] of the example. *)
Definition demo_series : Series :=
  mkSeries [0; 1; 2; 3; 4; 5; 6]%Z
           [Fin 10; Fin 11; Fin 12; Fin 13; Fin 14; Fin 15; Fin 16].

(** The example with its first column labelled [t]. *)
Definition demo_table_t : DataFrame :=
  mkDF [0; 1; 2; 3; 4; 5; 6]%Z
       [ ("t", [Fin 10; Fin 11; Fin 12; Fin 13; Fin 14; Fin 15; Fin 16]);
         ("L", [Fin 1; Fin 2; Fin 3; Fin 4; Fin 5; Fin 6; Fin 7]) ].

(** The statistic set [{"norm": "count"}]. *)
Definition norm_count : list (string * statistic) := [("norm", StatCount)].

(** Two events, the second beyond the last row of the example. *)
Definition gap_events : events_arg := mkEvents [0; 10]%Z [2; 12]%Z [4; 14]%Z.

(** Two events, the second with its epoch before its start. *)
Definition reversed_events : events_arg := mkEvents [0; 4]%Z [2; 2]%Z [4; 6]%Z.

(** A grid of the second dimension given by integers small enough for
    [np.arange] to compute its edges without rounding. *)
Definition integer_grid (y_dimensions : option (list Q)) : Prop :=
  match y_dimensions with
  | Some l => Forall (fun q => exists z, q = inject_Z z /\ (Z.abs z <= 2 ^ 31)%Z) l
  | None => True
  end.

(** The columns the statistics write, in the order they are written. *)
Definition written_columns (g : option (string * y_rtn)) (p1 p2 : DataFrame)
    (e1 e2 : list Q) (cs : list string) (stat_vals : list (string * statistic))
  : list column :=
  match g with
  | Some (y, yr) => columns_2d p1 p2 e1 e2 (y_edges yr) y cs stat_vals
  | None => columns_1d p1 p2 e1 e2 cs stat_vals
  end.

(** * Properties *)

(** ** Outcomes *)

Lemma bind_ok {A B : Type} (m : outcome A) (k : A -> outcome B) (b : B) :
  bind m k = Ok b -> exists a, m = Ok a /\ k a = Ok b.
Proof.
  destruct m as [a|e]; simpl; intros H; [exists a; auto | discriminate].
Qed.

Lemma bind_raise {A B : Type} (m : outcome A) (k : A -> outcome B) :
  raises m -> raises (bind m k).
Proof.
  intros [e ->]. exists e. reflexivity.
Qed.

Lemma bind_raises_after {A B : Type} (m : outcome A) (k : A -> outcome B) :
  (forall a, m = Ok a -> raises (k a)) -> raises (bind m k).
Proof.
  destruct m as [a|e]; simpl; intros H; [apply H; reflexivity | exists e; reflexivity].
Qed.

Ltac inv_bind H :=
  let a := fresh "a" in
  let Ha := fresh "E" in
  apply bind_ok in H; destruct H as (a & Ha & H).

(** ** The time axis *)

Lemma Qmax_list_spec (l : list Q) : forall q,
  (Qmax_list q l = q \/ In (Qmax_list q l) l)
  /\ q <= Qmax_list q l
  /\ Forall (fun x => x <= Qmax_list q l) l.
Proof.
  induction l as [|x l IH]; intros q; simpl.
  - repeat split; [left; reflexivity | apply Qle_refl | constructor].
  - destruct (Qle_bool q x) eqn:E.
    + destruct (IH x) as (Hin & Hle & Hall).
      apply Qle_bool_iff in E.
      repeat split.
      * right. destruct Hin as [-> | Hin]; [left; reflexivity | right; exact Hin].
      * eapply Qle_trans; eassumption.
      * constructor; assumption.
    + destruct (IH q) as (Hin & Hle & Hall).
      assert (x <= q) as Hxq.
      { destruct (Qlt_le_dec q x) as [Hlt | Hge]; [|exact Hge].
        apply Qlt_le_weak, Qle_bool_iff in Hlt. congruence. }
      repeat split.
      * destruct Hin as [-> | Hin]; [left; reflexivity | right; right; exact Hin].
      * exact Hle.
      * constructor; [eapply Qle_trans; eassumption | exact Hall].
Qed.

Lemma amax_spec (a : list Q) :
  a <> [] -> exists top, Np.amax a = Ok top /\ In top a /\ Forall (fun x => x <= top) a.
Proof.
  destruct a as [|x l]; [congruence|]. intros _.
  exists (Qmax_list x l). simpl.
  destruct (Qmax_list_spec l x) as (Hin & Hle & Hall).
  repeat split.
  - destruct Hin as [-> | Hin]; [left; reflexivity | right; exact Hin].
  - constructor; assumption.
Qed.

Lemma but_last_map_seq {A : Type} (f : nat -> A) (m : nat) :
  but_last (map f (seq 0 (S m))) = map f (seq 0 m).
Proof.
  unfold but_last. rewrite seq_S, map_app. simpl. apply removelast_last.
Qed.

Lemma linspace_edges (n : Z) :
  (2 <= n)%Z ->
  exists e, Np.linspace 0 1 n = Ok e
            /\ but_last e = bin_starts n
            /\ List.length e = Z.to_nat n.
Proof.
  intros Hn. unfold Np.linspace.
  destruct (n <? 0)%Z eqn:E1; [apply Z.ltb_lt in E1; lia|].
  destruct (n =? 1)%Z eqn:E2; [apply Z.eqb_eq in E2; lia|].
  eexists. split; [reflexivity|]. split.
  - unfold bin_starts.
    replace (Z.to_nat n) with (S (Z.to_nat n - 1)) by lia.
    rewrite but_last_map_seq.
    replace (S (Z.to_nat n - 1) - 1)%nat with (Z.to_nat n - 1)%nat by lia.
    reflexivity.
  - rewrite length_map, length_seq. reflexivity.
Qed.

Lemma bin_starts_length (n : Z) : List.length (bin_starts n) = (Z.to_nat n - 1)%nat.
Proof. unfold bin_starts. rewrite length_map, length_seq. reflexivity. Qed.

Lemma sorted_seq_map (g : nat -> Q) :
  (forall i j, (i < j)%nat -> g i < g j) ->
  forall m a, StronglySorted Qlt (map g (seq a m)).
Proof.
  intros Hg. induction m as [|m IH]; intros a; simpl; constructor.
  - apply IH.
  - apply Forall_forall. intros q Hq. apply in_map_iff in Hq.
    destruct Hq as (j & <- & Hj). apply in_seq in Hj. apply Hg. lia.
Qed.

Lemma sorted_app (l1 l2 : list Q) :
  StronglySorted Qlt l1 -> StronglySorted Qlt l2 ->
  (forall x y, In x l1 -> In y l2 -> x < y) ->
  StronglySorted Qlt (l1 ++ l2).
Proof.
  induction l1 as [|x l1 IH]; simpl; intros H1 H2 H; [exact H2|].
  inversion H1; subst. constructor.
  - apply IH; auto.
  - apply Forall_app. split; [assumption|].
    apply Forall_forall. intros y Hy. apply H; auto.
Qed.

Lemma np_int64_ok (n : Z) : (- 2 ^ 63 <= n < 2 ^ 63)%Z -> np_int64 n = Ok n.
Proof.
  intros (H1 & H2). unfold np_int64.
  assert ((- 2 ^ 63 <=? n)%Z = true) as -> by (apply Z.leb_le; exact H1).
  assert ((n <? 2 ^ 63)%Z = true) as -> by (apply Z.ltb_lt; exact H2).
  reflexivity.
Qed.

Lemma np_int64_inv (n m : Z) : np_int64 n = Ok m -> m = n /\ (- 2 ^ 63 <= n < 2 ^ 63)%Z.
Proof.
  unfold np_int64.
  destruct (- 2 ^ 63 <=? n)%Z eqn:E1; [|discriminate].
  destruct (n <? 2 ^ 63)%Z eqn:E2; [|discriminate].
  intros [= <-]. apply Z.leb_le in E1. apply Z.ltb_lt in E2. auto.
Qed.

Lemma stats_truth_ok (seastats : seastats_arg) :
  (forall a b rest, seastats <> StatsArray a b rest) ->
  exists t, stats_truth seastats = Ok t.
Proof.
  intros H. destruct seastats as [|d|l|a b rest]; simpl; eauto.
  exfalso. apply (H a b rest). reflexivity.
Qed.

Lemma py_inv_ok (n : Z) :
  (2 <= n)%Z -> py_inv n = Ok (1 / inject_Z n) /\ 0 < 1 / inject_Z n.
Proof.
  intros Hn. unfold py_inv.
  destruct (n =? 0)%Z eqn:E; [apply Z.eqb_eq in E; lia|].
  split; [reflexivity|].
  apply Qlt_shift_div_l; [|lra].
  change 0 with (inject_Z 0). rewrite <- Zlt_Qlt. lia.
Qed.

Lemma bin_start_step (n : Z) : (2 <= n)%Z -> 0 < (1 - 0) / inject_Z (n - 1).
Proof.
  intros Hn. apply Qlt_shift_div_l; [|lra].
  change 0 with (inject_Z 0). rewrite <- Zlt_Qlt. lia.
Qed.

Lemma bin_start_mono (n : Z) (i j : nat) :
  (2 <= n)%Z -> (i < j)%nat ->
  0 + inject_Z (Z.of_nat i) * ((1 - 0) / inject_Z (n - 1))
  < 0 + inject_Z (Z.of_nat j) * ((1 - 0) / inject_Z (n - 1)).
Proof.
  intros Hn Hij. pose proof (bin_start_step n Hn) as Hs.
  assert (inject_Z (Z.of_nat i) < inject_Z (Z.of_nat j)) as H.
  { rewrite <- Zlt_Qlt. lia. }
  apply (Qmult_lt_compat_r _ _ _ Hs) in H. lra.
Qed.

(** What [time_axis] computes, for edge counts of at least 2. *)
Lemma time_axis_ok (n1 n2 : Z) :
  (2 <= n1)%Z -> (2 <= n2)%Z ->
  exists top,
    In top (bin_starts n1)
    /\ Forall (fun b => b <= top) (bin_starts n1)
    /\ time_axis (n1, n2)
       = Ok (map (fun b => (b - top - 1 / inject_Z n1) / (1 / inject_Z n1)) (bin_starts n1)
             ++ map (fun b => b / (1 / inject_Z n2)) (bin_starts n2)).
Proof.
  intros H1 H2. unfold time_axis. simpl fst; simpl snd.
  destruct (py_inv_ok n1 H1) as (-> & _).
  destruct (py_inv_ok n2 H2) as (-> & _).
  destruct (linspace_edges n1 H1) as (e1 & -> & Hb1 & _).
  destruct (linspace_edges n2 H2) as (e2 & -> & Hb2 & _).
  cbn [bind]. rewrite Hb1, Hb2. unfold t_norm_axis.
  destruct (amax_spec (bin_starts n1)) as (top & -> & Hin & Hall).
  { intros E. apply (f_equal (@List.length Q)) in E.
    rewrite bin_starts_length in E. simpl in E. lia. }
  exists top. repeat split; assumption.
Qed.

Lemma bin_starts_nonneg (n : Z) (b : Q) :
  (2 <= n)%Z -> In b (bin_starts n) -> 0 <= b.
Proof.
  intros Hn Hb. unfold bin_starts in Hb. apply in_map_iff in Hb.
  destruct Hb as (k & <- & _).
  pose proof (bin_start_step n Hn) as Hs.
  assert (0 <= inject_Z (Z.of_nat k)) as Hk.
  { change 0 with (inject_Z 0). rewrite <- Zle_Qle. lia. }
  pose proof (Qmult_le_0_compat _ _ Hk (Qlt_le_weak _ _ Hs)). lra.
Qed.

Lemma bin_starts_head (n : Z) :
  (2 <= n)%Z -> exists q rest, bin_starts n = q :: rest /\ q == 0.
Proof.
  intros Hn. unfold bin_starts.
  replace (Z.to_nat n - 1)%nat with (S (Z.to_nat n - 2)) by lia.
  simpl. eexists. eexists. split; [reflexivity|].
  change (inject_Z 0) with 0. lra.
Qed.

(** The axis of [time_axis] is strictly increasing; its phase-1 part is
    negative, its phase-2 part starts at 0. *)
Lemma time_axis_ordered (n1 n2 : Z) :
  (2 <= n1)%Z -> (2 <= n2)%Z ->
  exists a1 a2,
    time_axis (n1, n2) = Ok (a1 ++ a2)
    /\ List.length a1 = Z.to_nat (n1 - 1)
    /\ List.length a2 = Z.to_nat (n2 - 1)
    /\ StronglySorted Qlt (a1 ++ a2)
    /\ Forall (fun q => q < 0) a1
    /\ Forall (fun q => 0 <= q) a2
    /\ (exists q rest, a2 = q :: rest /\ q == 0).
Proof.
  intros H1 H2.
  destruct (time_axis_ok n1 n2 H1 H2) as (top & Hin & Htop & ->).
  destruct (py_inv_ok n1 H1) as (_ & Hs1).
  destruct (py_inv_ok n2 H2) as (_ & Hs2).
  set (s1 := 1 / inject_Z n1) in *. set (s2 := 1 / inject_Z n2) in *.
  assert (Forall (fun q => q < 0) (map (fun b => (b - top - s1) / s1) (bin_starts n1))) as Hneg.
  { apply Forall_forall. intros q Hq. apply in_map_iff in Hq.
    destruct Hq as (b & <- & Hb).
    rewrite Forall_forall in Htop. specialize (Htop b Hb).
    apply Qlt_shift_div_r; [exact Hs1|]. lra. }
  assert (Forall (fun q => 0 <= q) (map (fun b => b / s2) (bin_starts n2))) as Hpos.
  { apply Forall_forall. intros q Hq. apply in_map_iff in Hq.
    destruct Hq as (b & <- & Hb).
    apply Qle_shift_div_l; [exact Hs2|].
    pose proof (bin_starts_nonneg n2 b H2 Hb). lra. }
  eexists. eexists. split; [reflexivity|].
  repeat rewrite length_map. repeat rewrite bin_starts_length.
  split; [lia|]. split; [lia|]. split; [|split; [exact Hneg|split; [exact Hpos|]]].
  - apply sorted_app.
    + unfold bin_starts. rewrite map_map. apply sorted_seq_map.
      intros i j Hij. pose proof (bin_start_mono n1 i j H1 Hij) as Hm.
      unfold Qdiv at 1 3. apply Qmult_lt_compat_r; [apply Qinv_lt_0_compat; exact Hs1|].
      lra.
    + unfold bin_starts. rewrite map_map. apply sorted_seq_map.
      intros i j Hij. pose proof (bin_start_mono n2 i j H2 Hij) as Hm.
      unfold Qdiv at 1 3. apply Qmult_lt_compat_r; [apply Qinv_lt_0_compat; exact Hs2|].
      exact Hm.
    + intros x y Hx Hy. rewrite Forall_forall in Hneg, Hpos.
      specialize (Hneg x Hx). specialize (Hpos y Hy). lra.
  - destruct (bin_starts_head n2 H2) as (q & rest & -> & Hq).
    simpl. eexists. eexists. split; [reflexivity|].
    rewrite Hq. unfold Qdiv. lra.
Qed.

(** ** Frames *)

Lemma lookup_set_column_same (name : string) (v : list fval) (cs : list column) :
  lookup name (set_column name v cs) = Some v.
Proof.
  induction cs as [|[n w] cs IH]; simpl.
  - rewrite String.eqb_refl. reflexivity.
  - destruct (String.eqb n name) eqn:E; simpl; rewrite E; [reflexivity | exact IH].
Qed.

Lemma lookup_set_column_other (name n : string) (v : list fval) (cs : list column) :
  n <> name -> lookup n (set_column name v cs) = lookup n cs.
Proof.
  intros Hn. induction cs as [|[m w] cs IH]; simpl.
  - destruct (String.eqb name n) eqn:E; [apply String.eqb_eq in E; congruence | reflexivity].
  - destruct (String.eqb m name) eqn:E; simpl.
    + apply String.eqb_eq in E. subst m.
      destruct (String.eqb name n) eqn:E'; [apply String.eqb_eq in E'; congruence | reflexivity].
    + destruct (String.eqb m n); [reflexivity | exact IH].
Qed.

Lemma lookup_in (name : string) (cs : list column) :
  In name (map fst cs) -> exists v, lookup name cs = Some v.
Proof.
  induction cs as [|[n w] cs IH]; simpl; [tauto|].
  intros [-> | Hin].
  - rewrite String.eqb_refl. eauto.
  - destruct (String.eqb n name); eauto.
Qed.

Lemma lookup_some_in (name : string) (cs : list column) (v : list fval) :
  lookup name cs = Some v -> In (name, v) cs.
Proof.
  induction cs as [|[n w] cs IH]; simpl; [discriminate|].
  destruct (String.eqb n name) eqn:E.
  - apply String.eqb_eq in E. subst. intros [= ->]. left. reflexivity.
  - intros H. right. auto.
Qed.

Lemma set_column_names (name n : string) (v : list fval) (cs : list column) :
  In n (map fst (set_column name v cs)) <-> n = name \/ In n (map fst cs).
Proof.
  induction cs as [|[m w] cs IH]; simpl.
  - intuition congruence.
  - destruct (String.eqb m name) eqn:E; simpl.
    + apply String.eqb_eq in E. subst m. intuition congruence.
    + rewrite IH. intuition congruence.
Qed.

Lemma loc_names (df : DataFrame) (lo hi : Z) : names (loc df lo hi) = names df.
Proof.
  unfold names, loc. simpl. rewrite map_map. reflexivity.
Qed.

Lemma loc_index (df : DataFrame) (lo hi : Z) :
  index (loc df lo hi) = labels_between (index df) lo hi.
Proof. reflexivity. Qed.

Lemma empty_false (df : DataFrame) :
  empty df = false <-> index df <> [] /\ columns df <> [].
Proof.
  unfold empty. destruct (index df), (columns df); split; intros H;
    try discriminate; try (destruct H; congruence); try reflexivity.
  split; discriminate.
Qed.

(** ** Normalized time *)

Lemma nth_error_last {A : Type} (l : list A) (d : A) :
  l <> [] -> nth_error l (List.length l - 1) = Some (last l d).
Proof.
  induction l as [|a l IH]; [congruence|]. intros _.
  destruct l as [|b l]; [reflexivity|].
  replace (List.length (a :: b :: l) - 1)%nat with (S (List.length (b :: l) - 1))
    by (simpl; lia).
  cbn [nth_error]. change (last (a :: b :: l) d) with (last (b :: l) d). rewrite IH by discriminate. reflexivity.
Qed.

Lemma last_map {A B : Type} (f : A -> B) (l : list A) (d : A) (d' : B) :
  l <> [] -> last (map f l) d' = f (last l d).
Proof.
  induction l as [|a l IH]; [congruence|]. intros _.
  destruct l as [|b l]; [reflexivity|].
  change (last (map f (a :: b :: l)) d') with (last (map f (b :: l)) d').
  change (last (a :: b :: l) d) with (last (b :: l) d).
  apply IH. discriminate.
Qed.

Lemma normalize_cons (first : Z) (rest : list Z) :
  normalize (first :: rest)
  = Ok (map (fun t => qdiv (elapsed first t - elapsed first first)
                           (elapsed first (last (first :: rest) first) - elapsed first first))
            (first :: rest)).
Proof.
  unfold normalize. cbn [py_index nth_error bind].
  set (el := map (fun t => total_seconds (t - first)) (first :: rest)).
  assert (py_index el 0 = Ok (elapsed first first)) as -> by reflexivity.
  cbn [bind]. unfold py_index.
  rewrite (nth_error_last el 0) by (unfold el; discriminate).
  cbn [bind]. f_equal. unfold el.
  rewrite (last_map _ (first :: rest) first 0) by discriminate.
  rewrite map_map. reflexivity.
Qed.

Lemma normalize_nonempty (idx : list Z) :
  idx <> [] -> normalize idx = Ok (t_norm_values idx).
Proof.
  destruct idx as [|first rest]; [congruence|]. intros _.
  unfold t_norm_values. rewrite normalize_cons. reflexivity.
Qed.

Lemma t_norm_values_length (idx : list Z) :
  List.length (t_norm_values idx) = List.length idx.
Proof.
  destruct idx as [|first rest]; [reflexivity|].
  unfold t_norm_values. rewrite normalize_cons. apply length_map.
Qed.

Lemma normalized_phase_ok (phase : DataFrame) :
  empty phase = false -> normalized_phase phase = Ok (frame_of phase).
Proof.
  intros H. apply empty_false in H. destruct H as (Hi & _).
  unfold normalized_phase. rewrite normalize_nonempty by exact Hi. reflexivity.
Qed.

(** ** The loop over the events *)

Lemma py_index_nth (l : list Z) (i : nat) :
  (i < List.length l)%nat -> py_index l i = Ok (nth i l 0%Z).
Proof.
  intros H. unfold py_index. rewrite (nth_error_nth' l 0%Z H). reflexivity.
Qed.

Lemma loop_body_skipped (se_data : DataFrame) (ev : events_arg) (i : nat)
    (st : loop_state) :
  in_range ev i -> skipped se_data ev i = true ->
  loop_body se_data ev i st
  = Ok (mkLoop (phase1_dfs st) (phase2_dfs st) (stdout st ++ [no_data_message i])).
Proof.
  intros (H1 & H2 & H3) Hs. unfold loop_body.
  rewrite !py_index_nth by assumption. cbn [bind].
  unfold skipped, window1, window2, start_of, epoch_of, end_of in Hs.
  rewrite Hs. reflexivity.
Qed.

Lemma loop_body_survives (se_data : DataFrame) (ev : events_arg) (i : nat)
    (st : loop_state) :
  in_range ev i -> skipped se_data ev i = false ->
  loop_body se_data ev i st
  = Ok (mkLoop (phase1_dfs st ++ [frame_of (window1 se_data ev i)])
               (phase2_dfs st ++ [frame_of (window2 se_data ev i)])
               (stdout st)).
Proof.
  intros (H1 & H2 & H3) Hs. unfold loop_body.
  rewrite !py_index_nth by assumption. cbn [bind].
  unfold skipped, window1, window2, start_of, epoch_of, end_of in Hs.
  rewrite Hs.
  unfold skip_event in Hs. apply orb_false_iff in Hs. destruct Hs as (E1 & E2).
  rewrite (normalized_phase_ok _ E1), (normalized_phase_ok _ E2). reflexivity.
Qed.

Lemma for_each_events (se_data : DataFrame) (ev : events_arg) (l : list nat) :
  Forall (in_range ev) l ->
  forall st, for_each (loop_body se_data ev) l st = Ok (after_events se_data ev l st).
Proof.
  induction l as [|i l IH]; intros Hl st.
  - unfold after_events. simpl. rewrite !app_nil_r. destruct st; reflexivity.
  - inversion Hl as [|? ? Hi Hl']; subst. cbn [for_each].
    unfold after_events. cbn [filter].
    assert (survives se_data ev i = negb (skipped se_data ev i)) as Hs by reflexivity.
    rewrite Hs.
    destruct (skipped se_data ev i) eqn:E; cbn [negb].
    + rewrite (loop_body_skipped se_data ev i st Hi E). cbn [bind].
      rewrite (IH Hl'). unfold after_events. cbn [phase1_dfs phase2_dfs stdout map].
      rewrite <- app_assoc. reflexivity.
    + rewrite (loop_body_survives se_data ev i st Hi E). cbn [bind].
      rewrite (IH Hl'). unfold after_events. cbn [phase1_dfs phase2_dfs stdout map].
      rewrite <- !app_assoc. reflexivity.
Qed.

Lemma event_ids_in_range (ev : events_arg) :
  events_complete ev -> Forall (in_range ev) (event_ids ev).
Proof.
  intros (H1 & H2). apply Forall_forall. intros i Hi.
  apply in_seq in Hi. unfold in_range. lia.
Qed.

Lemma event_loop_ok (se_data : DataFrame) (ev : events_arg) :
  events_complete ev ->
  event_loop se_data ev
  = Ok (after_events se_data ev (event_ids ev) (mkLoop [] [] [])).
Proof.
  intros H. unfold event_loop. apply for_each_events, event_ids_in_range, H.
Qed.

(** ** The result table *)

Lemma mapM_ok {A B : Type} (f : A -> outcome B) (l : list A) :
  Forall (fun a => exists b, f a = Ok b) l ->
  exists bs, mapM f l = Ok bs /\ Forall2 (fun a b => f a = Ok b) l bs.
Proof.
  induction 1 as [|a l (b & Hb) Hl (bs & Hbs & H2)]; simpl.
  - exists []. split; [reflexivity | constructor].
  - rewrite Hb, Hbs. simpl. exists (b :: bs). split; [reflexivity|].
    constructor; assumption.
Qed.

Lemma mapM_inv {A B : Type} (f : A -> outcome B) (l : list A) (bs : list B) :
  mapM f l = Ok bs -> Forall2 (fun a b => f a = Ok b) l bs.
Proof.
  revert bs. induction l as [|a l IH]; simpl; intros bs H.
  - injection H as <-. constructor.
  - inv_bind H. inv_bind H. injection H as <-. constructor; auto.
Qed.

Lemma set_column_forall (P : column -> Prop) (name : string) (v : list fval)
    (cs : list column) :
  Forall P cs -> P (name, v) -> Forall P (set_column name v cs).
Proof.
  intros H Hv. induction H as [|[n w] cs Hc Hcs IH]; simpl.
  - constructor; [exact Hv | constructor].
  - destruct (String.eqb n name) eqn:E.
    + apply String.eqb_eq in E. subst n. constructor; assumption.
    + constructor; assumption.
Qed.

Lemma set_column_inv (N : nat) (tbl : list column) (name : string) (v : list fval) :
  tbl_inv N tbl -> List.length v = N -> tbl_inv N (set_column name v tbl).
Proof.
  intros (Hall & Hin) Hv. split.
  - apply set_column_forall; assumption.
  - apply set_column_names. right. exact Hin.
Qed.

Lemma setitem_ok (N : nat) (tbl : list column) (name : string) (v : list fval) :
  tbl_inv N tbl -> List.length v = N -> setitem tbl name v = Ok (set_column name v tbl).
Proof.
  intros (Hall & Hin) Hv. unfold setitem.
  destruct tbl as [|[n w] tbl]; [destruct Hin|].
  inversion Hall as [|? ? Hw _]; subst. simpl in Hw.
  rewrite Hw, Nat.eqb_refl. reflexivity.
Qed.

Lemma write_all_inv (N : nat) (entries : list column) :
  Forall (fun e : column => List.length (snd e) = N) entries ->
  forall tbl, tbl_inv N tbl -> tbl_inv N (write_all entries tbl).
Proof.
  induction 1 as [|e entries He _ IH]; intros tbl Ht; simpl; [exact Ht|].
  apply IH. apply set_column_inv; assumption.
Qed.

Lemma write_all_lookup (name : string) (entries : list column) :
  ~ In name (map fst entries) ->
  forall tbl, lookup name (write_all entries tbl) = lookup name tbl.
Proof.
  induction entries as [|e entries IH]; intros Hn tbl; simpl; [reflexivity|].
  simpl in Hn. rewrite IH by tauto.
  apply lookup_set_column_other. intros ->. tauto.
Qed.

Lemma write_all_app (e1 e2 tbl : list column) :
  write_all (e1 ++ e2) tbl = write_all e2 (write_all e1 tbl).
Proof. unfold write_all. apply fold_left_app. Qed.

(** *** 1D *)

Lemma fill_1d_ok (N : nat) (s_name : string)
    (rows : list (list fval * list fval * string)) :
  Forall (fun row => List.length (fst (fst row) ++ snd (fst row)) = N) rows ->
  forall tbl, tbl_inv N tbl ->
  fill_1d tbl s_name rows = Ok (write_all (map (entry_1d s_name) rows) tbl).
Proof.
  induction 1 as [|[[a b] c] rows Hr _ IH]; intros tbl Ht; simpl; [reflexivity|].
  simpl in Hr. rewrite (setitem_ok N) by assumption. cbn [bind].
  rewrite IH by (apply set_column_inv; assumption). reflexivity.
Qed.

Lemma binned_statistic_ok (x : list fval) (values : list (list fval))
    (edges : list Q) (s : statistic) :
  (2 <= List.length edges)%nat ->
  exists stat, binned_statistic x values edges s = Ok stat
               /\ List.length stat = List.length values
               /\ Forall (fun row => List.length row = nbins edges) stat.
Proof.
  intros He. unfold binned_statistic, need_two_edges.
  destruct (List.length edges <? 2)%nat eqn:E; [apply Nat.ltb_lt in E; lia|].
  cbn [bind]. eexists. split; [reflexivity|]. split.
  - apply length_map.
  - apply Forall_forall. intros row Hrow. apply in_map_iff in Hrow.
    destruct Hrow as (v & <- & _). rewrite length_map, length_seq. reflexivity.
Qed.

Lemma entries_1d_labels (s_name : string) (p1stat p2stat : list (list fval))
    (cols : list string) (l : string) :
  In l (map fst (entries_1d s_name p1stat p2stat cols)) ->
  exists c, In c cols /\ l = label_1d c s_name.
Proof.
  unfold entries_1d. rewrite map_map. intros H. apply in_map_iff in H.
  destruct H as ([[a b] c] & <- & Hin). apply in_combine_r in Hin.
  exists c. split; [exact Hin | reflexivity].
Qed.

Lemma stat_1d_ok (N n1 n2 : nat) (p1data p2data : DataFrame)
    (ph1list ph2list : list (list fval)) (x1_edges x2_edges : list Q)
    (cols : list string) (tbl : list column) (s : string * statistic) :
  In "t_norm" (names p1data) -> In "t_norm" (names p2data) ->
  (2 <= List.length x1_edges)%nat -> (2 <= List.length x2_edges)%nat ->
  (nbins x1_edges + nbins x2_edges = N)%nat ->
  tbl_inv N tbl ->
  exists entries,
    stat_1d p1data p2data ph1list ph2list x1_edges x2_edges cols tbl s
    = Ok (write_all entries tbl)
    /\ Forall (fun e : column => List.length (snd e) = N) entries
    /\ (forall l, In l (map fst entries) -> exists c, In c cols /\ l = label_1d c (fst s)).
Proof.
  intros Ht1 Ht2 He1 He2 HN Ht. unfold stat_1d, getitem.
  destruct (lookup_in _ _ Ht1) as (t1 & ->).
  destruct (lookup_in _ _ Ht2) as (t2 & ->). cbn [bind].
  destruct (binned_statistic_ok t1 ph1list x1_edges (snd s) He1) as (p1stat & -> & _ & H1).
  destruct (binned_statistic_ok t2 ph2list x2_edges (snd s) He2) as (p2stat & -> & _ & H2).
  cbn [bind].
  exists (entries_1d (fst s) p1stat p2stat cols).
  assert (Forall (fun row : list fval * list fval * string =>
                    List.length (fst (fst row) ++ snd (fst row)) = N)
                 (combine (combine p1stat p2stat) cols)) as Hrows.
  { apply Forall_forall. intros [[a b] c] Hin. simpl.
    apply in_combine_l in Hin.
    pose proof (in_combine_l _ _ _ _ Hin) as Ha.
    pose proof (in_combine_r _ _ _ _ Hin) as Hb.
    rewrite Forall_forall in H1, H2.
    rewrite length_app, (H1 a Ha), (H2 b Hb). exact HN. }
  split; [apply (fill_1d_ok N); assumption|]. split.
  - unfold entries_1d. apply Forall_forall. intros e He.
    apply in_map_iff in He. destruct He as (row & <- & Hrow).
    rewrite Forall_forall in Hrows. apply (Hrows row Hrow).
  - apply entries_1d_labels.
Qed.

(** *** 2D *)

Lemma binned_statistic_2d_ok (x y : list fval) (values : list (list fval))
    (x_edges y_edges : list Q) (s : statistic) :
  (2 <= List.length x_edges)%nat -> (2 <= List.length y_edges)%nat ->
  exists stat, binned_statistic_2d x y values x_edges y_edges s = Ok stat
               /\ shaped (List.length values) (nbins x_edges) (nbins y_edges) stat.
Proof.
  intros Hx Hy. unfold binned_statistic_2d, need_two_edges.
  destruct (List.length x_edges <? 2)%nat eqn:E1; [apply Nat.ltb_lt in E1; lia|].
  destruct (List.length y_edges <? 2)%nat eqn:E2; [apply Nat.ltb_lt in E2; lia|].
  cbn [bind]. eexists. split; [reflexivity|]. split.
  - apply length_map.
  - apply Forall_forall. intros m Hm. apply in_map_iff in Hm.
    destruct Hm as (v & <- & _). rewrite length_map, length_seq. split; [reflexivity|].
    apply Forall_forall. intros row Hrow. apply in_map_iff in Hrow.
    destruct Hrow as (i & <- & _). rewrite length_map, length_seq. reflexivity.
Qed.

Lemma plane_ok (k nx ny : nat) (a : list (list (list fval))) (i j : nat) :
  shaped k nx ny a -> (i < k)%nat -> (j < ny)%nat ->
  exists l, plane a i j = Ok l /\ List.length l = nx.
Proof.
  intros (Hk & Ha) Hi Hj. unfold plane, py_index.
  destruct (nth_error a i) as [m|] eqn:E.
  2:{ apply nth_error_None in E. lia. }
  cbn [bind]. apply nth_error_In in E.
  rewrite Forall_forall in Ha. destruct (Ha m E) as (Hm & Hrows).
  destruct (mapM_ok (fun row : list fval =>
                       match nth_error row j with
                       | Some a0 => Ok a0
                       | None => Raise IndexError
                       end) m) as (l & -> & H2).
  - apply Forall_forall. intros row Hrow.
    rewrite Forall_forall in Hrows. specialize (Hrows row Hrow).
    destruct (nth_error row j) eqn:E'; [eauto|].
    apply nth_error_None in E'. lia.
  - exists l. split; [reflexivity|].
    apply Forall2_length in H2. lia.
Qed.

Lemma fill_2d_ok (N k nx1 nx2 ny : nat) (s_name : string) (cols : list string)
    (p1stat p2stat : list (list (list fval))) (ij : list (nat * nat)) :
  shaped k nx1 ny p1stat -> shaped k nx2 ny p2stat ->
  (k <= List.length cols)%nat -> (nx1 + nx2 = N)%nat ->
  Forall (fun p => (fst p < k)%nat /\ (snd p < ny)%nat) ij ->
  exists entries,
    Forall (fun e : column => List.length (snd e) = N) entries
    /\ (forall l, In l (map fst entries) ->
                  exists c j, In c cols /\ l = label_2d c s_name j)
    /\ forall tbl, tbl_inv N tbl ->
         fill_2d tbl s_name cols p1stat p2stat ij = Ok (write_all entries tbl).
Proof.
  intros H1 H2 Hk HN. induction 1 as [|[i j] ij (Hi & Hj) _ (entries & Hlen & Hlab & IH)].
  - exists []. split; [constructor|]. split; [intros l []|]. reflexivity.
  - simpl in Hi, Hj.
    destruct (nth_error cols i) as [c|] eqn:Ec.
    2:{ apply nth_error_None in Ec. lia. }
    destruct (plane_ok _ _ _ _ i j H1 Hi Hj) as (a & Ea & Hla).
    destruct (plane_ok _ _ _ _ i j H2 Hi Hj) as (b & Eb & Hlb).
    exists ((label_2d c s_name j, a ++ b) :: entries). split; [|split].
    + constructor; [|exact Hlen]. simpl. rewrite length_app. lia.
    + intros l [<- | Hl]; [|auto]. exists c, j. split; [|reflexivity].
      eapply nth_error_In; eassumption.
    + intros tbl Ht. cbn [fill_2d]. unfold py_index at 1. rewrite Ec. cbn [bind].
      rewrite Ea, Eb. cbn [bind].
      assert (List.length (a ++ b) = N) as Hab by (rewrite length_app; lia).
      rewrite (setitem_ok N) by assumption. cbn [bind].
      rewrite IH by (apply set_column_inv; assumption). reflexivity.
Qed.

Lemma stat_2d_ok (N : nat) (p1data p2data : DataFrame)
    (ph1list ph2list : list (list fval)) (x1_edges x2_edges : list Q)
    (cols : list string) (y_col : string) (y_edges : list Q)
    (tbl : list column) (s : string * statistic) :
  In "t_norm" (names p1data) -> In "t_norm" (names p2data) ->
  In y_col (names p1data) -> In y_col (names p2data) ->
  (2 <= List.length x1_edges)%nat -> (2 <= List.length x2_edges)%nat ->
  (2 <= List.length y_edges)%nat ->
  List.length ph1list = List.length cols -> List.length ph2list = List.length cols ->
  (nbins x1_edges + nbins x2_edges = N)%nat ->
  tbl_inv N tbl ->
  exists entries,
    stat_2d p1data p2data ph1list ph2list x1_edges x2_edges cols y_col y_edges tbl s
    = Ok (write_all entries tbl)
    /\ Forall (fun e : column => List.length (snd e) = N) entries
    /\ (forall l, In l (map fst entries) ->
                  exists c j, In c cols /\ l = label_2d c (fst s) j).
Proof.
  intros Ht1 Ht2 Hy1 Hy2 He1 He2 Hey Hl1 Hl2 HN Ht. unfold stat_2d, getitem.
  destruct (lookup_in _ _ Ht1) as (t1 & ->).
  destruct (lookup_in _ _ Ht2) as (t2 & ->).
  destruct (lookup_in _ _ Hy1) as (y1 & ->).
  destruct (lookup_in _ _ Hy2) as (y2 & ->). cbn [bind].
  destruct (binned_statistic_2d_ok t1 y1 ph1list x1_edges y_edges (snd s) He1 Hey)
    as (p1stat & -> & H1).
  destruct (binned_statistic_2d_ok t2 y2 ph2list x2_edges y_edges (snd s) He2 Hey)
    as (p2stat & -> & H2).
  cbn [bind]. rewrite Hl2, <- Hl1 in H2.
  destruct (fill_2d_ok N (List.length ph1list) (nbins x1_edges) (nbins x2_edges)
              (nbins y_edges) (fst s) cols p1stat p2stat
              (flat_map (fun i => map (fun j => (i, j)) (seq 0 (nbins y_edges)))
                        (seq 0 (List.length ph1list))) H1 H2)
    as (entries & Hlen & Hlab & Hfill); [lia | exact HN | |].
  - apply Forall_forall. intros [i j] Hij. apply in_flat_map in Hij.
    destruct Hij as (i' & Hi' & Hj). apply in_map_iff in Hj.
    destruct Hj as (j' & [= <- <-] & Hj'). apply in_seq in Hi', Hj'. simpl. lia.
  - exists entries. split; [apply Hfill; exact Ht|]. split; assumption.
Qed.

Lemma fold_stats_ok (N : nat) (cols : list string)
    (f : list column -> string * statistic -> outcome (list column))
    (stat_vals : list (string * statistic)) :
  (forall tbl s, tbl_inv N tbl ->
     exists entries,
       f tbl s = Ok (write_all entries tbl)
       /\ Forall (fun e : column => List.length (snd e) = N) entries
       /\ (forall l, In l (map fst entries) -> stat_label cols [fst s] l)) ->
  forall tbl, tbl_inv N tbl ->
  exists entries,
    fold_stats f tbl stat_vals = Ok (write_all entries tbl)
    /\ Forall (fun e : column => List.length (snd e) = N) entries
    /\ (forall l, In l (map fst entries) -> stat_label cols (map fst stat_vals) l).
Proof.
  intros Hf. induction stat_vals as [|s stat_vals IH]; intros tbl Ht.
  - exists []. split; [reflexivity|]. split; [constructor | intros l []].
  - destruct (Hf tbl s Ht) as (e1 & E1 & Hlen1 & Hlab1).
    destruct (IH (write_all e1 tbl)) as (e2 & E2 & Hlen2 & Hlab2).
    { apply write_all_inv; assumption. }
    exists (e1 ++ e2). cbn [fold_stats]. rewrite E1. cbn [bind]. rewrite E2.
    split; [rewrite write_all_app; reflexivity|]. split.
    + apply Forall_app. split; assumption.
    + intros l Hl. rewrite map_app in Hl. apply in_app_or in Hl.
      destruct Hl as [Hl | Hl].
      * destruct (Hlab1 l Hl) as (c & s' & Hc & [<- | []] & Hs).
        exists c, (fst s). split; [exact Hc|]. split; [left; reflexivity | exact Hs].
      * destruct (Hlab2 l Hl) as (c & s' & Hc & Hs' & Hs).
        exists c, s'. split; [exact Hc|]. split; [right; exact Hs' | exact Hs].
Qed.

(** ** Calls that return *)

Lemma has_column_spec (df : DataFrame) (n : string) :
  has_column df n = true <-> In n (names df).
Proof.
  unfold has_column. rewrite existsb_exists. split.
  - intros (x & Hx & E). apply String.eqb_eq in E. subst x. exact Hx.
  - intros H. exists n. split; [exact H | apply String.eqb_refl].
Qed.

Lemma getitems_present (df : DataFrame) (ns : list string) :
  Forall (fun c => In c (names df)) ns ->
  getitems df ns
  = let* cs := mapM (fun n => let* v := getitem df n in Ok (n, v)) ns in
    Ok (mkDF (index df) cs).
Proof.
  intros H. unfold getitems.
  assert (filter (fun n => negb (has_column df n)) ns = []) as ->; [|reflexivity].
  induction H as [|n ns Hn _ IH]; [reflexivity|]. cbn [filter].
  apply has_column_spec in Hn. rewrite Hn. exact IH.
Qed.

Lemma getitems_inv (df : DataFrame) (ns : list string) (x : DataFrame) :
  getitems df ns = Ok x ->
  exists cs, mapM (fun n => let* v := getitem df n in Ok (n, v)) ns = Ok cs
             /\ x = mkDF (index df) cs.
Proof.
  unfold getitems. destruct (filter _ ns) as [|m missing].
  - intros H. apply bind_ok in H. destruct H as (cs & Hcs & H).
    injection H as <-. exists cs. split; [exact Hcs | reflexivity].
  - destruct (_ =? _)%nat; discriminate.
Qed.

Lemma getitems_ok (df : DataFrame) (ns : list string) :
  Forall (fun c => In c (names df)) ns ->
  exists cs, getitems df ns = Ok (mkDF (index df) cs) /\ map fst cs = ns.
Proof.
  intros H. rewrite (getitems_present df ns H).
  assert (exists cs, mapM (fun n => let* v := getitem df n in Ok (n, v)) ns = Ok cs
                     /\ map fst cs = ns) as (cs & -> & Hcs).
  { induction H as [|n ns Hn _ (cs & E & Hcs)]; simpl.
    - exists []. split; reflexivity.
    - unfold getitem at 1. destruct (lookup_in _ _ Hn) as (v & ->). cbn [bind].
      rewrite E. cbn [bind]. exists ((n, v) :: cs). simpl. rewrite Hcs.
      split; reflexivity. }
  exists cs. split; [reflexivity | exact Hcs].
Qed.

Lemma cols_items_nonempty (cols : cols_arg) :
  cols_truthy cols = true -> cols_items cols <> [].
Proof.
  destruct cols as [|s|l]; simpl; [discriminate | |].
  - destruct s; [discriminate|]. intros _. simpl. discriminate.
  - destruct l; [discriminate|]. intros _. discriminate.
Qed.

Lemma arange_two_edges (ymin ymax y_spacing : Q) :
  0 < y_spacing -> ymin < ymax ->
  exists edges, Np.arange ymin (ymax + y_spacing) y_spacing = Ok edges
                /\ (2 <= List.length edges)%nat.
Proof.
  intros Hs Hy. unfold Np.arange.
  assert (Qis_zero y_spacing = false) as ->.
  { unfold Qis_zero. apply Z.eqb_neq. destruct y_spacing as [n d].
    unfold Qlt in Hs. simpl in *. lia. }
  eexists. split; [reflexivity|].
  rewrite length_map, length_seq.
  set (x := (ymax + y_spacing - ymin) / y_spacing).
  assert (1 < x) as Hx.
  { unfold x. apply Qlt_shift_div_l; [exact Hs|]. lra. }
  pose proof (Qle_ceiling x) as Hc.
  assert (inject_Z 1 < inject_Z (Qceiling x)) as Hlt.
  { change (inject_Z 1) with 1. lra. }
  rewrite <- Zlt_Qlt in Hlt. lia.
Qed.

Lemma select_data_ok (df : DataFrame) (ev : events_arg) (xd : Z * Z)
    (cols : cols_arg) (y_col : option string) (yd : option (list Q)) :
  valid_input df ev xd cols y_col yd ->
  exists se cols' y',
    select_data (DataTable df) cols y_col yd = Ok (se, cols', y')
    /\ index se = index df
    /\ columns se <> []
    /\ cols_items cols' = analysed_cols df cols
    /\ Forall (fun c => In c (names se)) (cols_items cols')
    /\ (two_d cols y_col yd = false -> y_grid y' yd = Ok None)
    /\ (two_d cols y_col yd = true ->
        exists y yr, y_grid y' yd = Ok (Some (y, yr))
                     /\ In y (names se) /\ (2 <= List.length (y_edges yr))%nat).
Proof.
  intros (_ & _ & _ & (Hcols & _) & _ & Hpresent & H2d & _).
  unfold select_data, two_d, analysed_cols in *.
  destruct (cols_truthy cols) eqn:Ec; cbn [andb] in *.
  - destruct (Hpresent eq_refl) as (_ & Hpresent').
    clear Hpresent. rename Hpresent' into Hpresent.
    destruct (y_col_truthy y_col && y_dimensions_truthy yd) eqn:Ey.
    + destruct (H2d eq_refl) as (y & ymin & ymax & sp & -> & Hy & _ & -> & Hsp & Hlt).
      destruct (getitems_ok df (cols_items cols ++ [y])) as (cs & -> & Hcs).
      { apply Forall_app. split; [exact Hpresent|]. constructor; [exact Hy | constructor]. }
      cbn [bind]. exists (mkDF (index df) cs), cols, (Some y).
      split; [reflexivity|]. split; [reflexivity|]. split.
      { simpl. intros ->. simpl in Hcs. symmetry in Hcs. apply app_eq_nil in Hcs.
        destruct Hcs; discriminate. }
      split; [reflexivity|]. split.
      { unfold names. simpl. rewrite Hcs. apply Forall_forall. intros c Hc.
        apply in_or_app. left. exact Hc. }
      split; [discriminate|]. intros _.
      destruct (arange_two_edges ymin ymax sp Hsp Hlt) as (edges & He & Hlen).
      exists y, (mkY ymin ymax sp edges). unfold y_grid. rewrite Ey, He. cbn [bind].
      split; [reflexivity|]. split; [|exact Hlen].
      unfold names. simpl. rewrite Hcs. apply in_or_app. right. left. reflexivity.
    + destruct (getitems_ok df (cols_items cols ++ [])) as (cs & -> & Hcs).
      { rewrite app_nil_r. exact Hpresent. }
      cbn [bind]. exists (mkDF (index df) cs), cols, y_col.
      split; [reflexivity|]. split; [reflexivity|]. split.
      { simpl. intros ->. simpl in Hcs. rewrite app_nil_r in Hcs. symmetry in Hcs.
        revert Hcs. apply cols_items_nonempty. exact Ec. }
      split; [reflexivity|]. split.
      { unfold names. simpl. rewrite Hcs, app_nil_r. apply Forall_forall. auto. }
      split; [|discriminate]. intros _. unfold y_grid. rewrite Ey. reflexivity.
  - exists df, (ColsList (names df)), None.
    split; [reflexivity|]. split; [reflexivity|]. split; [exact Hcols|].
    split; [reflexivity|]. split; [apply Forall_forall; auto|].
    split; [reflexivity | discriminate].
Qed.

Lemma loc_empty (se : DataFrame) (lo hi : Z) :
  columns se <> [] ->
  empty (loc se lo hi) = match labels_between (index se) lo hi with [] => true | _ => false end.
Proof.
  intros Hc. unfold empty. rewrite loc_index.
  destruct (labels_between (index se) lo hi); [reflexivity|].
  unfold loc. simpl. destruct (columns se); [congruence | reflexivity].
Qed.

Lemma skipped_has_data (se : DataFrame) (ev : events_arg) (i : nat) :
  columns se <> [] -> skipped se ev i = negb (has_data (index se) ev i).
Proof.
  intros Hc. unfold skipped, skip_event, window1, window2, phase1_of, phase2_of, has_data.
  rewrite !loc_empty by exact Hc.
  destruct (labels_between (index se) (start_of ev i) (epoch_of ev i));
    destruct (labels_between (index se) (epoch_of ev i) (end_of ev i)); reflexivity.
Qed.

Lemma frame_of_names (w : DataFrame) (n : string) :
  In n (names (frame_of w)) <-> n = "t_norm" \/ In n (names w).
Proof. unfold frame_of, assign, names. simpl. apply set_column_names. Qed.

Lemma concat_cons (f : DataFrame) (frames : list DataFrame) :
  exists p, concat (f :: frames) = Ok p
            /\ names p = names f
            /\ index p = flat_map index (f :: frames)
            /\ forall n, In n (names f) ->
                 lookup n (columns p) = Some (flat_map (column_or_nan n) (f :: frames)).
Proof.
  unfold concat. eexists. split; [reflexivity|]. split; [|split; [reflexivity|]].
  - unfold names at 1. simpl. rewrite map_map. simpl. apply map_id.
  - intros n Hn. simpl columns. induction (names f) as [|m ms IH]; [destruct Hn|].
    simpl. destruct (String.eqb m n) eqn:E.
    + apply String.eqb_eq in E. subst m. reflexivity.
    + destruct Hn as [-> | Hn]; [rewrite String.eqb_refl in E; discriminate|].
      apply IH. exact Hn.
Qed.

(** The pooled frames of a call of which one event at least has data. *)
Lemma pooled_ok (se : DataFrame) (ev : events_arg) :
  events_complete ev -> columns se <> [] ->
  (exists i, (i < List.length (ev_starts ev))%nat /\ has_data (index se) ev i = true) ->
  exists st p1 p2,
    event_loop se ev = Ok st
    /\ concat (phase1_dfs st) = Ok p1 /\ concat (phase2_dfs st) = Ok p2
    /\ (forall n, n = "t_norm" \/ In n (names se) -> In n (names p1))
    /\ (forall n, n = "t_norm" \/ In n (names se) -> In n (names p2))
    /\ stdout st = map no_data_message (filter (skipped se ev) (event_ids ev)).
Proof.
  intros Hev Hc (i & Hi & Hd).
  rewrite (event_loop_ok se ev Hev).
  assert (In i (filter (survives se ev) (event_ids ev))) as Hin.
  { apply filter_In. split.
    - unfold event_ids. apply in_seq. lia.
    - unfold survives. rewrite skipped_has_data by exact Hc. rewrite Hd. reflexivity. }
  unfold after_events. cbn [phase1_dfs phase2_dfs stdout app].
  destruct (filter (survives se ev) (event_ids ev)) as [|i0 rest]; [destruct Hin|].
  cbn [map].
  destruct (concat_cons (frame_of (window1 se ev i0))
                        (map (fun i => frame_of (window1 se ev i)) rest))
    as (p1 & E1 & N1 & _).
  destruct (concat_cons (frame_of (window2 se ev i0))
                        (map (fun i => frame_of (window2 se ev i)) rest))
    as (p2 & E2 & N2 & _).
  eexists. exists p1, p2. split; [reflexivity|].
  cbn [phase1_dfs phase2_dfs]. split; [exact E1|]. split; [exact E2|].
  split; [|split; [|reflexivity]]; intros n Hn.
  - rewrite N1. apply frame_of_names. unfold window1, phase1_of. rewrite loc_names. exact Hn.
  - rewrite N2. apply frame_of_names. unfold window2, phase2_of. rewrite loc_names. exact Hn.
Qed.

Lemma getitem_all (p : DataFrame) (cols : list string) :
  Forall (fun c => In c (names p)) cols ->
  exists l, mapM (getitem p) cols = Ok l /\ List.length l = List.length cols.
Proof.
  intros H. destruct (mapM_ok (getitem p) cols) as (l & E & H2).
  - revert H. apply Forall_impl. intros c Hc. unfold getitem.
    destruct (lookup_in _ _ Hc) as (v & ->). eauto.
  - exists l. split; [exact E|]. apply Forall2_length in H2. lia.
Qed.

Lemma set_index_ok (N : nat) (tbl : list column) :
  tbl_inv N tbl ->
  exists v, lookup "t_norm" tbl = Some v
            /\ set_index tbl "t_norm" = Ok (mkTable v (remove_column "t_norm" tbl))
            /\ List.length v = N
            /\ Forall (fun c : column => List.length (snd c) = N) (remove_column "t_norm" tbl).
Proof.
  intros (Hall & Hin). destruct (lookup_in _ _ Hin) as (v & Hv).
  exists v. split; [exact Hv|]. unfold set_index. rewrite Hv. split; [reflexivity|]. split.
  - apply lookup_some_in in Hv. rewrite Forall_forall in Hall. apply (Hall _ Hv).
  - clear Hin Hv. induction Hall as [|[n w] tbl Hw Hrest IH]; simpl; [constructor|].
    destruct (String.eqb n "t_norm"); [exact Hrest | constructor; assumption].
Qed.

(** A valid call returns; its table has one row per position of the time
    axis, which is its index unless a statistic column took the label
    [t_norm]. *)
Lemma sean_ok (df : DataFrame) (ev : events_arg) (xd : Z * Z) (cols : cols_arg)
    (seastats : seastats_arg) (y_col : option string) (yd : option (list Q))
    (return_data : bool) :
  valid_input df ev xd cols y_col yd ->
  (forall a b rest, seastats <> StatsArray a b rest) ->
  exists r axis,
    sean (DataTable df) ev xd cols seastats y_col yd return_data = Ok r
    /\ time_axis xd = Ok axis
    /\ List.length (t_index (SEAdat r)) = List.length axis
    /\ Forall (fun c : column => List.length (snd c) = List.length axis)
              (t_columns (SEAdat r))
    /\ ((forall l, stat_label (analysed_cols df cols)
                              (map fst (resolve_stats seastats)) l -> l <> "t_norm") ->
        t_index (SEAdat r) = map Fin axis)
    /\ stats (sea_meta r) = resolve_stats seastats
    /\ (y_meta (sea_meta r) <> None <-> two_d cols y_col yd = true)
    /\ printed r = map no_data_message
                      (filter (fun i => negb (has_data (index df) ev i)) (event_ids ev)).
Proof.
  intros Hv Hstats.
  destruct (select_data_ok df ev xd cols y_col yd Hv)
    as (se & cols' & y' & Esel & Hidx & Hcs & Hitems & Hin & H1d & H2d).
  destruct Hv as ((Hn1 & Hu1) & (Hn2 & Hu2) & Hev & _ & Hdata & _ & _).
  destruct xd as [n1 n2]. simpl fst in *; simpl snd in *.
  destruct (time_axis_ordered n1 n2 Hn1 Hn2) as (a1 & a2 & Eax & La1 & La2 & _).
  pose proof Eax as Eax'. unfold time_axis in Eax'. simpl fst in Eax'; simpl snd in Eax'.
  unfold sean. simpl fst; simpl snd.
  destruct (py_inv_ok n1 Hn1) as (E1 & _). destruct (py_inv_ok n2 Hn2) as (E2 & _).
  rewrite E1, E2 in Eax' |- *. cbn [bind] in Eax' |- *.
  rewrite (np_int64_ok n1), (np_int64_ok n2) by lia. cbn [bind].
  rewrite Esel. cbn [bind].
  destruct (stats_truth_ok seastats Hstats) as (truthy & ->). cbn [bind].
  rewrite <- Hidx in Hdata.
  destruct (pooled_ok se ev Hev Hcs Hdata)
    as (st & p1 & p2 & Eloop & Ec1 & Ec2 & Hp1 & Hp2 & Hout).
  rewrite Eloop. cbn [bind]. rewrite Ec1. cbn [bind]. rewrite Ec2. cbn [bind].
  destruct (linspace_edges n1 Hn1) as (e1 & Ee1 & Hb1 & Hl1).
  destruct (linspace_edges n2 Hn2) as (e2 & Ee2 & Hb2 & Hl2).
  rewrite Ee1, Ee2 in Eax' |- *. cbn [bind] in Eax' |- *.
  assert (Forall (fun c => In c (names p1)) (cols_items cols')) as Hc1.
  { revert Hin. apply Forall_impl. intros c Hc. apply Hp1. right. exact Hc. }
  assert (Forall (fun c => In c (names p2)) (cols_items cols')) as Hc2.
  { revert Hin. apply Forall_impl. intros c Hc. apply Hp2. right. exact Hc. }
  destruct (getitem_all p1 _ Hc1) as (ph1 & Eph1 & Lph1).
  destruct (getitem_all p2 _ Hc2) as (ph2 & Eph2 & Lph2).
  set (N := List.length (a1 ++ a2)).
  assert (nbins e1 + nbins e2 = N)%nat as HN.
  { unfold N, nbins. rewrite length_app, La1, La2, Hl1, Hl2. lia. }
  assert (tbl_inv N [("t_norm", map Fin (a1 ++ a2))]) as Ht0.
  { split; [|left; reflexivity]. constructor; [|constructor].
    simpl. apply length_map. }
  assert (2 <= List.length e1)%nat as He1 by lia.
  assert (2 <= List.length e2)%nat as He2 by lia.
  assert (exists g entries,
             y_grid y' yd = Ok g
             /\ (g <> None <-> two_d cols y_col yd = true)
             /\ fold_stats
                  (match g with
                   | Some (y, yr) =>
                       stat_2d p1 p2 ph1 ph2 e1 e2 (cols_items cols') y (y_edges yr)
                   | None => stat_1d p1 p2 ph1 ph2 e1 e2 (cols_items cols')
                   end)
                  [("t_norm", map Fin (a1 ++ a2))] (resolve_stats seastats)
                = Ok (write_all entries [("t_norm", map Fin (a1 ++ a2))])
             /\ Forall (fun e : column => List.length (snd e) = N) entries
             /\ (forall l, In l (map fst entries) ->
                   stat_label (cols_items cols') (map fst (resolve_stats seastats)) l))
    as (g & entries & Eg & Hg & Efold & Hlen & Hlab).
  { destruct (two_d cols y_col yd) eqn:E2d.
    - destruct (H2d eq_refl) as (y & yr & Eg & Hy & Hye).
      destruct (fold_stats_ok N (cols_items cols')
                  (stat_2d p1 p2 ph1 ph2 e1 e2 (cols_items cols') y (y_edges yr))
                  (resolve_stats seastats)) with (tbl := [("t_norm", map Fin (a1 ++ a2))])
        as (entries & Ef & Hlen & Hlab); [|exact Ht0|].
      + intros tbl s Ht.
        destruct (stat_2d_ok N p1 p2 ph1 ph2 e1 e2 (cols_items cols') y (y_edges yr) tbl s)
          as (en & Een & Hlen & Hlab); auto.
        exists en. split; [exact Een|]. split; [exact Hlen|].
        intros l Hl. destruct (Hlab l Hl) as (c & j & Hc & ->).
        exists c, (fst s). split; [exact Hc|]. split; [left; reflexivity|].
        right. exists j. reflexivity.
      + exists (Some (y, yr)), entries. split; [exact Eg|]. split; [|auto].
        split; [reflexivity | discriminate].
    - specialize (H1d eq_refl).
      destruct (fold_stats_ok N (cols_items cols')
                  (stat_1d p1 p2 ph1 ph2 e1 e2 (cols_items cols'))
                  (resolve_stats seastats)) with (tbl := [("t_norm", map Fin (a1 ++ a2))])
        as (entries & Ef & Hlen & Hlab); [|exact Ht0|].
      + intros tbl s Ht.
        destruct (stat_1d_ok N (nbins e1) (nbins e2) p1 p2 ph1 ph2 e1 e2
                             (cols_items cols') tbl s)
          as (en & Een & Hlen & Hlab); auto.
        exists en. split; [exact Een|]. split; [exact Hlen|].
        intros l Hl. destruct (Hlab l Hl) as (c & Hc & ->).
        exists c, (fst s). split; [exact Hc|]. split; [left; reflexivity|].
        left. reflexivity.
      + exists None, entries. split; [exact H1d|]. split; [|auto].
        split; [congruence | discriminate]. }
  rewrite Eg. cbn [bind]. rewrite Eax'. cbn [bind].
  unfold setitem at 1. cbn [bind]. rewrite Eph1, Eph2. cbn [bind].
  rewrite Efold. cbn [bind].
  destruct (set_index_ok N (write_all entries [("t_norm", map Fin (a1 ++ a2))]))
    as (v & Hlook & -> & Hlv & Hrest).
  { apply write_all_inv; assumption. }
  cbn [bind]. eexists. exists (a1 ++ a2). split; [reflexivity|].
  split; [exact Eax|]. cbn [SEAdat t_index t_columns sea_meta stats y_meta printed].
  split; [exact Hlv|]. split; [exact Hrest|]. split; [|split; [reflexivity|split]].
  - intros Hfree. rewrite write_all_lookup in Hlook.
    + simpl in Hlook. congruence.
    + intros Hl. apply Hlab in Hl. rewrite Hitems in Hl. apply (Hfree _ Hl). reflexivity.
  - rewrite <- Hg. destruct g as [[y yr]|]; simpl; split; congruence.
  - rewrite Hout. f_equal. apply filter_ext. intros i.
    rewrite skipped_has_data by exact Hcs. rewrite Hidx. reflexivity.
Qed.

(** ** Phase windows *)

Lemma mask_select_nil_r {A : Type} (m : list bool) : mask_select m (@nil A) = [].
Proof. unfold mask_select. rewrite combine_nil. reflexivity. Qed.

Lemma mask_select_cons {A : Type} (b : bool) (m : list bool) (a : A) (v : list A) :
  mask_select (b :: m) (a :: v) = if b then a :: mask_select m v else mask_select m v.
Proof. unfold mask_select. simpl. destruct b; reflexivity. Qed.

Lemma mask_select_none {A : Type} (p : Z -> bool) (idx : list Z) :
  Forall (fun t => p t = false) idx ->
  forall v : list A, mask_select (map p idx) v = [].
Proof.
  induction 1 as [|t idx Ht _ IH]; intros v; [reflexivity|].
  destruct v as [|a v]; [apply mask_select_nil_r|].
  simpl map. rewrite mask_select_cons, Ht. apply IH.
Qed.

Lemma mask_select_self (p : Z -> bool) (idx : list Z) :
  mask_select (map p idx) idx = filter p idx.
Proof.
  induction idx as [|t idx IH]; [reflexivity|].
  simpl map. rewrite mask_select_cons. simpl. rewrite IH. reflexivity.
Qed.

Lemma py_slice_nil {A : Type} (l r : nat) : py_slice l r (@nil A) = [].
Proof. unfold py_slice. rewrite skipn_nil. apply firstn_nil. Qed.

Lemma firstn_mask {A : Type} (lo hi : Z) (idx : list Z) :
  StronglySorted Z.le idx -> Forall (fun t => (lo <= t)%Z) idx ->
  forall v : list A,
    firstn (searchsorted_right idx hi) v = mask_select (map (between lo hi) idx) v.
Proof.
  induction 1 as [|t idx Hs IH Ht]; intros Hlo v; [reflexivity|].
  inversion Hlo as [|? ? Hlt Hlo']; subst.
  destruct v as [|a v]; [rewrite mask_select_nil_r; apply firstn_nil|].
  simpl map. rewrite mask_select_cons. unfold searchsorted_right, between. simpl.
  destruct (t <=? hi)%Z eqn:E.
  - assert ((lo <=? t)%Z = true) as -> by (apply Z.leb_le; exact Hlt).
    simpl. f_equal. apply IH. exact Hlo'.
  - rewrite andb_false_r. simpl. symmetry. apply mask_select_none.
    revert Ht. apply Forall_impl. intros u Hu. apply Z.leb_gt in E.
    apply andb_false_iff. right. apply Z.leb_gt. lia.
Qed.

(** On an increasing index the positional slice of [loc] selects the rows of
    the closed interval. *)
Lemma slice_mask {A : Type} (lo hi : Z) (idx : list Z) :
  StronglySorted Z.le idx ->
  forall v : list A,
    py_slice (searchsorted_left idx lo) (searchsorted_right idx hi) v
    = mask_select (map (between lo hi) idx) v.
Proof.
  induction 1 as [|t idx Hs IH Ht]; intros v.
  - unfold py_slice. simpl. reflexivity.
  - destruct v as [|a v]; [rewrite mask_select_nil_r; apply py_slice_nil|].
    simpl map. rewrite mask_select_cons.
    destruct (t <? lo)%Z eqn:E.
    + assert (between lo hi t = false) as ->.
      { unfold between. apply Z.ltb_lt in E. apply andb_false_iff. left.
        apply Z.leb_gt. exact E. }
      unfold searchsorted_left. simpl. rewrite E. simpl.
      destruct (t <=? hi)%Z eqn:E'.
      * unfold searchsorted_right. simpl. rewrite E'. simpl. apply IH.
      * unfold searchsorted_right. simpl. rewrite E'. simpl.
        unfold py_slice. simpl. symmetry. apply mask_select_none.
        revert Ht. apply Forall_impl. intros u Hu. apply Z.leb_gt in E'.
        apply andb_false_iff. right. apply Z.leb_gt. lia.
    + assert (searchsorted_left (t :: idx) lo = 0%nat) as ->.
      { unfold searchsorted_left. simpl. rewrite E. reflexivity. }
      unfold py_slice. rewrite Nat.sub_0_r. cbn [skipn].
      rewrite (firstn_mask lo hi (t :: idx)).
      * simpl map. rewrite mask_select_cons. reflexivity.
      * constructor; assumption.
      * apply Z.ltb_ge in E. constructor; [exact E|].
        revert Ht. apply Forall_impl. intros u Hu. lia.
Qed.


Lemma labels_between_filter (idx : list Z) (lo hi : Z) :
  StronglySorted Z.le idx -> labels_between idx lo hi = filter (between lo hi) idx.
Proof.
  intros Hs. unfold labels_between. rewrite (slice_mask lo hi idx Hs).
  apply mask_select_self.
Qed.



Lemma sorted_filter (p : Z -> bool) (l : list Z) :
  StronglySorted Z.le l -> StronglySorted Z.le (filter p l).
Proof.
  induction 1 as [|a l Hs IH Ha]; simpl; [constructor|].
  destruct (p a); [|exact IH]. constructor; [exact IH|].
  apply Forall_forall. intros x Hx. apply filter_In in Hx.
  rewrite Forall_forall in Ha. apply Ha. tauto.
Qed.

Lemma sorted_last (l : list Z) (d : Z) :
  StronglySorted Z.le l -> Forall (fun t => (t <= last l d)%Z) l.
Proof.
  induction 1 as [|a l Hs IH Ha]; [constructor|].
  destruct l as [|b l].
  - constructor; [simpl; lia | constructor].
  - change (last (a :: b :: l) d) with (last (b :: l) d). constructor; [|exact IH].
    inversion Ha as [|? ? Hab _]; subst. inversion IH; subst. lia.
Qed.



(** ** Normalization *)

Lemma elapsed_mono (first a b : Z) : (a <= b)%Z -> elapsed first a <= elapsed first b.
Proof.
  intros H. unfold elapsed, total_seconds, Qdiv.
  apply Qmult_le_compat_r.
  - rewrite <- Zle_Qle. lia.
  - apply Qlt_le_weak, Qinv_lt_0_compat. reflexivity.
Qed.

Lemma elapsed_lt (first a b : Z) : (a < b)%Z -> elapsed first a < elapsed first b.
Proof.
  intros H. unfold elapsed, total_seconds, Qdiv.
  apply Qmult_lt_compat_r.
  - apply Qinv_lt_0_compat. reflexivity.
  - rewrite <- Zlt_Qlt. lia.
Qed.

Lemma Qmin_list_sorted (first : Z) (l : list Z) (a : Z) :
  Forall (fun t => (a <= t)%Z) l ->
  Qmin_list (elapsed first a) (map (elapsed first) l) = elapsed first a.
Proof.
  induction 1 as [|t l Ht _ IH]; [reflexivity|]. simpl.
  assert (Qle_bool (elapsed first a) (elapsed first t) = true) as ->.
  { apply Qle_bool_iff, elapsed_mono, Ht. }
  exact IH.
Qed.

Lemma Qmax_list_sorted (first : Z) (l : list Z) :
  StronglySorted Z.le l ->
  forall a, Forall (fun t => (a <= t)%Z) l ->
  Qmax_list (elapsed first a) (map (elapsed first) l) = elapsed first (last (a :: l) first).
Proof.
  induction 1 as [|t l Hs IH Ht]; intros a Ha; [reflexivity|].
  inversion Ha as [|? ? Hat _]; subst. simpl map. simpl Qmax_list.
  assert (Qle_bool (elapsed first a) (elapsed first t) = true) as ->.
  { apply Qle_bool_iff, elapsed_mono, Hat. }
  rewrite (IH t Ht). reflexivity.
Qed.

(** On increasing labels [normalize] is the rescaling by minimum and
    maximum. *)
Lemma normalize_refines (idx : list Z) :
  StronglySorted Z.le idx -> normalize idx = normalize_spec idx.
Proof.
  intros Hs. destruct idx as [|first rest]; [reflexivity|].
  rewrite normalize_cons. unfold normalize_spec. cbn [py_index nth_error bind].
  inversion Hs as [|? ? Hs' Hfirst]; subst.
  cbn [map amin Np.amax bind].
  rewrite (Qmin_list_sorted first rest first Hfirst).
  rewrite (Qmax_list_sorted first rest Hs' first Hfirst).
  rewrite map_map. reflexivity.
Qed.

Lemma Qpos_not_zero (q : Q) : 0 < q -> Qis_zero q = false.
Proof.
  intros H. unfold Qis_zero. apply Z.eqb_neq. unfold Qlt in H. simpl in H. lia.
Qed.


Lemma last_default {A : Type} (l : list A) (d d' : A) :
  l <> [] -> last l d = last l d'.
Proof.
  induction l as [|a l IH]; [congruence|]. intros _.
  destruct l as [|b l]; [reflexivity|].
  change (last (a :: b :: l) d) with (last (b :: l) d).
  change (last (a :: b :: l) d') with (last (b :: l) d').
  apply IH. discriminate.
Qed.

(** A phase of positive duration: every normalized time is in [[0, 1]]. *)
Lemma normalize_unit (idx : list Z) :
  StronglySorted Z.le idx ->
  (hd 0%Z idx < last idx 0%Z)%Z ->
  Forall in_unit_interval (t_norm_values idx).
Proof.
  intros Hs Hlt. destruct idx as [|first rest]; [simpl in Hlt; lia|].
  unfold t_norm_values. rewrite normalize_cons.
  pose proof (sorted_last _ first Hs) as Hlast.
  inversion Hs as [|? ? _ Hfirst]; subst.
  assert (last (first :: rest) 0%Z = last (first :: rest) first) as El
    by (apply last_default; discriminate).
  rewrite El in Hlt. simpl hd in Hlt.
  set (lst := last (first :: rest) first) in *.
  pose proof (elapsed_lt first first lst Hlt) as Hpos.
  apply Forall_forall. intros v Hv. apply in_map_iff in Hv.
  destruct Hv as (t & <- & Ht).
  unfold qdiv. rewrite Qpos_not_zero by lra. simpl.
  assert (first <= t)%Z as H1.
  { destruct Ht as [<- | Ht]; [lia|]. rewrite Forall_forall in Hfirst. auto. }
  assert (t <= lst)%Z as H2.
  { rewrite Forall_forall in Hlast. apply Hlast. exact Ht. }
  pose proof (elapsed_mono first _ _ H1). pose proof (elapsed_mono first _ _ H2).
  split.
  - apply Qle_shift_div_l; lra.
  - apply Qle_shift_div_r; lra.
Qed.


(** ** What a returned result records *)

Lemma sean_inv (data : data_arg) (ev : events_arg) (xd : Z * Z) (cols : cols_arg)
    (seastats : seastats_arg) (y_col : option string) (yd : option (list Q))
    (return_data : bool) (r : sea_return) :
  sean data ev xd cols seastats y_col yd return_data = Ok r ->
  exists se cols' y' g,
    select_data data cols y_col yd = Ok (se, cols', y')
    /\ y_grid y' yd = Ok g
    /\ sea_meta r = mkMeta (cols_as_list cols') (resolve_stats seastats) (option_map snd g).
Proof.
  unfold sean. intros H.
  do 4 (apply bind_ok in H; destruct H as (? & _ & H)).
  apply bind_ok in H. destruct H as ([[se cols'] y'] & Hsel & H).
  do 6 (apply bind_ok in H; destruct H as (? & _ & H)).
  apply bind_ok in H. destruct H as (g & Hg & H).
  do 6 (apply bind_ok in H; destruct H as (? & _ & H)).
  injection H as <-. exists se, cols', y', g.
  split; [exact Hsel|]. split; [exact Hg | reflexivity].
Qed.

Lemma y_grid_some (y' : option string) (yd : option (list Q)) (g : option (string * y_rtn)) :
  y_grid y' yd = Ok g ->
  (g <> None <-> y_col_truthy y' && y_dimensions_truthy yd = true).
Proof.
  unfold y_grid. destruct (y_col_truthy y' && y_dimensions_truthy yd).
  - destruct y' as [y|]; [|discriminate].
    destruct yd as [[|ymin [|ymax [|sp [|]]]]|]; try discriminate.
    intros H. inv_bind H. injection H as <-. split; [reflexivity | discriminate].
  - intros [= <-]. split; [congruence | discriminate].
Qed.

Lemma select_data_y (data : data_arg) (cols : cols_arg) (y_col : option string)
    (yd : option (list Q)) (se : DataFrame) (cols' : cols_arg) (y' : option string) :
  select_data data cols y_col yd = Ok (se, cols', y') ->
  y' = if is_series data || cols_truthy cols then y_col else None.
Proof.
  unfold select_data. destruct data as [s|df]; simpl.
  - intros [= _ _ <-]. reflexivity.
  - destruct (cols_truthy cols).
    + intros H. inv_bind H. injection H as _ _ <-. reflexivity.
    + intros [= _ _ <-]. reflexivity.
Qed.

Lemma bind_ext {A B : Type} (m : outcome A) (k1 k2 : A -> outcome B) :
  (forall a, k1 a = k2 a) -> bind m k1 = bind m k2.
Proof. intros H. destruct m; simpl; [apply H | reflexivity]. Qed.

(** A call with at most one of [y_col] and [y_dimensions] is the call with
    neither. *)
Lemma sean_one_y (data : data_arg) (ev : events_arg) (xd : Z * Z) (cols : cols_arg)
    (seastats : seastats_arg) (y_col : option string) (yd : option (list Q))
    (return_data : bool) :
  y_col_truthy y_col && y_dimensions_truthy yd = false ->
  sean data ev xd cols seastats y_col yd return_data
  = sean data ev xd cols seastats None None return_data.
Proof.
  intros Hy. unfold sean.
  apply bind_ext; intros x1_spacing. apply bind_ext; intros x2_spacing.
  apply bind_ext; intros x1_bin. apply bind_ext; intros x2_bin.
  assert (y_grid y_col yd = Ok None) as Hg1 by (unfold y_grid; rewrite Hy; reflexivity).
  assert (y_grid None None = Ok None) as Hg3 by reflexivity.
  unfold select_data. destruct data as [s|df].
  - cbn [bind]. repeat (apply bind_ext; intros ?). rewrite Hg1, Hg3. reflexivity.
  - destruct (cols_truthy cols).
    + rewrite Hy. cbn [y_col_truthy y_dimensions_truthy andb].
      destruct (getitems df (cols_items cols ++ [])) as [se|e]; [|reflexivity].
      cbn [bind]. repeat (apply bind_ext; intros ?). rewrite Hg1, Hg3. reflexivity.
    + cbn [bind]. repeat (apply bind_ext; intros ?). reflexivity.
Qed.

(** ** Events without data *)

Lemma select_data_index (data : data_arg) (cols : cols_arg) (y_col : option string)
    (yd : option (list Q)) (se : DataFrame) (cols' : cols_arg) (y' : option string) :
  select_data data cols y_col yd = Ok (se, cols', y') -> index se = data_index data.
Proof.
  unfold select_data. destruct data as [s|df]; simpl.
  - intros [= <- _ _]. reflexivity.
  - destruct (cols_truthy cols).
    + intros H. inv_bind H. injection H as <- _ _.
      apply getitems_inv in E. destruct E as (cs & _ & ->). reflexivity.
    + intros [= <- _ _]. reflexivity.
Qed.

Lemma py_index_some (l : list Z) (i : nat) (a : Z) :
  py_index l i = Ok a -> a = nth i l 0%Z.
Proof.
  unfold py_index. destruct (nth_error l i) eqn:E; [|discriminate].
  intros [= <-]. symmetry. apply nth_error_nth. exact E.
Qed.

Lemma no_data_skipped (se : DataFrame) (ev : events_arg) (i : nat) :
  has_data (index se) ev i = false -> skipped se ev i = true.
Proof.
  unfold has_data, skipped, skip_event, window1, window2, phase1_of, phase2_of, empty.
  rewrite !loc_index.
  destruct (labels_between (index se) (start_of ev i) (epoch_of ev i)); [reflexivity|].
  destruct (labels_between (index se) (epoch_of ev i) (end_of ev i)); [|discriminate].
  intros _. apply orb_true_r.
Qed.

Lemma for_each_no_frames (se : DataFrame) (ev : events_arg) (l : list nat) :
  Forall (fun i => has_data (index se) ev i = false) l ->
  forall st st',
    phase1_dfs st = [] ->
    for_each (loop_body se ev) l st = Ok st' -> phase1_dfs st' = [].
Proof.
  induction 1 as [|i l Hi _ IH]; intros st st' Hst H.
  - injection H as <-. exact Hst.
  - cbn [for_each] in H. inv_bind H. apply (IH a st'); [|exact H].
    unfold loop_body in E. inv_bind E. inv_bind E. inv_bind E.
    apply py_index_some in E0, E1, E2. subst.
    apply no_data_skipped in Hi.
    unfold skipped, window1, window2, start_of, epoch_of, end_of in Hi.
    rewrite Hi in E. injection E as <-. exact Hst.
Qed.

(** ** Pooled frames *)

Lemma concat_frames (W : nat -> DataFrame) (l : list nat) (p : DataFrame) :
  concat (map (fun i => frame_of (W i)) l) = Ok p ->
  getitem p "t_norm" = Ok (flat_map (fun i => t_norm_values (index (W i))) l)
  /\ index p = flat_map (fun i => index (W i)) l.
Proof.
  destruct l as [|i0 rest]; [discriminate|]. cbn [map].
  destruct (concat_cons (frame_of (W i0)) (map (fun i => frame_of (W i)) rest))
    as (p' & E & _ & Hidx & Hcol).
  rewrite E. intros [= <-]. split.
  - unfold getitem. rewrite Hcol by (apply frame_of_names; left; reflexivity).
    f_equal. change (frame_of (W i0) :: map (fun i => frame_of (W i)) rest)
      with (map (fun i => frame_of (W i)) (i0 :: rest)).
    generalize (i0 :: rest). intros l. induction l as [|i l IH]; [reflexivity|].
    simpl. rewrite IH. f_equal.
    unfold column_or_nan, frame_of, assign. simpl.
    rewrite lookup_set_column_same. reflexivity.
  - rewrite Hidx.
    change (frame_of (W i0) :: map (fun i => frame_of (W i)) rest)
      with (map (fun i => frame_of (W i)) (i0 :: rest)).
    generalize (i0 :: rest). intros l. induction l as [|i l IH]; [reflexivity|].
    simpl. rewrite IH. reflexivity.
Qed.

Lemma flat_map_segment {A : Type} (f : nat -> list A) (l : list nat) (i : nat) :
  In i l -> exists a b, flat_map f l = a ++ f i ++ b.
Proof.
  intros H. apply in_split in H. destruct H as (l1 & l2 & ->).
  exists (flat_map f l1), (flat_map f l2).
  rewrite flat_map_app. reflexivity.
Qed.

Lemma window_sorted (se : DataFrame) (lo hi : Z) :
  StronglySorted Z.le (index se) -> StronglySorted Z.le (index (loc se lo hi)).
Proof.
  intros Hs. rewrite loc_index, labels_between_filter by exact Hs.
  apply sorted_filter. exact Hs.
Qed.

Lemma normalize_spec_window (w : DataFrame) :
  StronglySorted Z.le (index w) -> empty w = false ->
  normalize_spec (index w) = Ok (t_norm_values (index w)).
Proof.
  intros Hs He. apply empty_false in He. destruct He as (Hi & _).
  rewrite <- normalize_refines by exact Hs. apply normalize_nonempty. exact Hi.
Qed.

(** ** Samples outside every bin *)






(** ** A series as [data] *)

Lemma lookup_none (name : string) (cs : list column) :
  ~ In name (map fst cs) -> lookup name cs = None.
Proof.
  induction cs as [|[n w] cs IH]; simpl; [reflexivity|]. intros H.
  destruct (String.eqb n name) eqn:E.
  - apply String.eqb_eq in E. tauto.
  - apply IH. tauto.
Qed.

Lemma series_frames (s : Series) (ev : events_arg) (l : list nat) :
  forall st st',
    Forall (fun f => names f = ["data"; "t_norm"]) (phase1_dfs st) ->
    for_each (loop_body (to_frame s "data") ev) l st = Ok st' ->
    Forall (fun f => names f = ["data"; "t_norm"]) (phase1_dfs st').
Proof.
  induction l as [|i l IH]; intros st st' Hst H.
  - injection H as <-. exact Hst.
  - cbn [for_each] in H. inv_bind H. apply (IH a st'); [|exact H].
    unfold loop_body in E. inv_bind E. inv_bind E. inv_bind E.
    destruct (skip_event _ _).
    + injection E as <-. exact Hst.
    + inv_bind E. inv_bind E. injection E as <-. cbn [phase1_dfs].
      apply Forall_app. split; [exact Hst|]. constructor; [|constructor].
      unfold normalized_phase in E3. inv_bind E3. injection E3 as <-. reflexivity.
Qed.

(** ** Calls that raise *)

Lemma getitems_missing (df : DataFrame) (ns : list string) :
  missing_labels df ns <> [] ->
  getitems df ns = Raise (KeyError (missing_report df ns)).
Proof.
  unfold getitems, missing_report, missing_labels. intros H.
  destruct (filter (fun n => negb (has_column df n)) ns) as [|m l]; [congruence|].
  destruct (_ =? _)%nat; reflexivity.
Qed.

Lemma missing_labels_spec (df : DataFrame) (ns : list string) (c : string) :
  In c (missing_labels df ns) <-> In c ns /\ ~ In c (names df).
Proof.
  unfold missing_labels. rewrite filter_In, negb_true_iff.
  rewrite <- has_column_spec. destruct (has_column df c); split; intros (H1 & H2);
    split; congruence.
Qed.

Lemma missing_labels_some (df : DataFrame) (ns : list string) :
  ~ Forall (fun c => In c (names df)) ns -> missing_labels df ns <> [].
Proof.
  intros H Hnil. apply H. apply Forall_forall. intros c Hc.
  destruct (has_column df c) eqn:E; [apply has_column_spec; exact E|].
  assert (In c (missing_labels df ns)) as Hin.
  { apply missing_labels_spec. split; [exact Hc|].
    intros Hn. apply has_column_spec in Hn. congruence. }
  rewrite Hnil in Hin. destruct Hin.
Qed.

Lemma py_inv_nonzero (n : Z) : n <> 0%Z -> py_inv n = Ok (1 / inject_Z n).
Proof.
  intros H. unfold py_inv. destruct (n =? 0)%Z eqn:E; [|reflexivity].
  apply Z.eqb_eq in E. congruence.
Qed.

Lemma for_each_index_error (se : DataFrame) (ev : events_arg) (m : nat) :
  forall k st,
    (k + m = List.length (ev_starts ev))%nat ->
    (exists i, (k <= i < k + m)%nat /\ ~ in_range ev i) ->
    for_each (loop_body se ev) (seq k m) st = Raise IndexError.
Proof.
  induction m as [|m IH]; intros k st Hk (i & Hi & Hbad); [lia|].
  cbn [seq for_each].
  destruct (Nat.lt_ge_cases k (List.length (ev_epochs ev))) as [He | He].
  - destruct (Nat.lt_ge_cases k (List.length (ev_ends ev))) as [Hn | Hn].
    + assert (in_range ev k) as Hr by (unfold in_range; lia).
      assert (i <> k) as Hik by (intros ->; tauto).
      assert (for_each (loop_body se ev) (seq (S k) m)
                (match loop_body se ev k st with Ok s => s | Raise _ => st end)
              = Raise IndexError) as Hrest.
      { apply IH; [lia|]. exists i. split; [lia | exact Hbad]. }
      destruct (skipped se ev k) eqn:Es.
      * rewrite (loop_body_skipped se ev k st Hr Es) in *. exact Hrest.
      * rewrite (loop_body_survives se ev k st Hr Es) in *. exact Hrest.
    + unfold loop_body. rewrite !py_index_nth by lia. cbn [bind].
      unfold py_index.
      assert (nth_error (ev_ends ev) k = None) as -> by (apply nth_error_None; lia).
      reflexivity.
  - unfold loop_body. rewrite py_index_nth by lia. cbn [bind].
    unfold py_index at 1.
    assert (nth_error (ev_epochs ev) k = None) as -> by (apply nth_error_None; lia).
    reflexivity.
Qed.

(** ** The steps of a call that returns *)

Lemma sean_steps (data : data_arg) (ev : events_arg) (xd : Z * Z) (cols : cols_arg)
    (seastats : seastats_arg) (y_col : option string) (yd : option (list Q))
    (return_data : bool) (r : sea_return) :
  sean data ev xd cols seastats y_col yd return_data = Ok r ->
  exists s1 s2 se cols' y' st p1 p2 e1 e2 g ax ph1 ph2 tbl table,
    py_inv (fst xd) = Ok s1 /\ py_inv (snd xd) = Ok s2
    /\ select_data data cols y_col yd = Ok (se, cols', y')
    /\ event_loop se ev = Ok st
    /\ concat (phase1_dfs st) = Ok p1 /\ concat (phase2_dfs st) = Ok p2
    /\ Np.linspace 0 1 (fst xd) = Ok e1 /\ Np.linspace 0 1 (snd xd) = Ok e2
    /\ y_grid y' yd = Ok g
    /\ t_norm_axis (but_last e1) (but_last e2) s1 s2 = Ok ax
    /\ mapM (getitem p1) (cols_items cols') = Ok ph1
    /\ mapM (getitem p2) (cols_items cols') = Ok ph2
    /\ fold_stats
         (match g with
          | Some (y, yr) =>
              stat_2d p1 p2 ph1 ph2 e1 e2 (cols_items cols') y (y_edges yr)
          | None => stat_1d p1 p2 ph1 ph2 e1 e2 (cols_items cols')
          end)
         [("t_norm", map Fin ax)] (resolve_stats seastats) = Ok tbl
    /\ set_index tbl "t_norm" = Ok table
    /\ r = mkReturn table
             (mkMeta (cols_as_list cols') (resolve_stats seastats) (option_map snd g))
             (if return_data then Some (p1, p2) else None)
             (stdout st).
Proof.
  unfold sean. intros H.
  apply bind_ok in H. destruct H as (s1 & H1 & H).
  apply bind_ok in H. destruct H as (s2 & H2 & H).
  apply bind_ok in H. destruct H as (b1 & Hb1 & H).
  apply np_int64_inv in Hb1. destruct Hb1 as (-> & _).
  apply bind_ok in H. destruct H as (b2 & Hb2 & H).
  apply np_int64_inv in Hb2. destruct Hb2 as (-> & _).
  apply bind_ok in H. destruct H as ([[se cols'] y'] & H3 & H).
  apply bind_ok in H. destruct H as (truthy & _ & H).
  apply bind_ok in H. destruct H as (st & H4 & H).
  apply bind_ok in H. destruct H as (p1 & H5 & H).
  apply bind_ok in H. destruct H as (p2 & H6 & H).
  apply bind_ok in H. destruct H as (e1 & H7 & H).
  apply bind_ok in H. destruct H as (e2 & H8 & H).
  apply bind_ok in H. destruct H as (g & H9 & H).
  apply bind_ok in H. destruct H as (ax & H10 & H).
  apply bind_ok in H. destruct H as (tbl0 & H11 & H).
  apply bind_ok in H. destruct H as (ph1 & H12 & H).
  apply bind_ok in H. destruct H as (ph2 & H13 & H).
  apply bind_ok in H. destruct H as (tbl & H14 & H).
  apply bind_ok in H. destruct H as (table & H15 & H).
  injection H as <-. injection H11 as <-.
  exists s1, s2, se, cols', y', st, p1, p2, e1, e2, g, ax, ph1, ph2, tbl, table.
  repeat (split; [assumption|]). reflexivity.
Qed.

Lemma event_loop_complete (se : DataFrame) (ev : events_arg) (st : loop_state) :
  event_loop se ev = Ok st ->
  events_complete ev /\ st = after_events se ev (event_ids ev) (mkLoop [] [] []).
Proof.
  intros H.
  assert (events_complete ev) as Hc.
  { unfold events_complete.
    destruct (Nat.le_gt_cases (List.length (ev_starts ev)) (List.length (ev_epochs ev)));
      destruct (Nat.le_gt_cases (List.length (ev_starts ev)) (List.length (ev_ends ev)));
      try (split; assumption); exfalso;
      unfold event_loop in H;
      rewrite for_each_index_error in H; try discriminate; try reflexivity;
      exists (Nat.min (List.length (ev_epochs ev)) (List.length (ev_ends ev)));
      (split; [lia|]); unfold in_range; lia. }
  split; [exact Hc|]. rewrite (event_loop_ok se ev Hc) in H. congruence.
Qed.

(** ** The pooled frames *)

Lemma frame_of_column (w : DataFrame) (c : string) :
  c <> "t_norm" -> column_or_nan c (frame_of w) = column_or_nan c w.
Proof.
  intros Hc. unfold column_or_nan, frame_of, assign. simpl.
  rewrite lookup_set_column_other by exact Hc. reflexivity.
Qed.

Lemma concat_column (W : nat -> DataFrame) (ns : list string) (l : list nat)
    (p : DataFrame) (c : string) :
  (forall i, names (W i) = ns) -> In c ns -> c <> "t_norm" ->
  concat (map (fun i => frame_of (W i)) l) = Ok p ->
  getitem p c = Ok (flat_map (fun i => column_or_nan c (W i)) l).
Proof.
  intros Hns Hc Hne. destruct l as [|i0 rest]; [discriminate|]. cbn [map].
  destruct (concat_cons (frame_of (W i0)) (map (fun i => frame_of (W i)) rest))
    as (p' & E & _ & _ & Hcol).
  rewrite E. intros [= <-]. unfold getitem.
  rewrite Hcol by (apply frame_of_names; right; rewrite Hns; exact Hc).
  f_equal. change (frame_of (W i0) :: map (fun i => frame_of (W i)) rest)
    with (map (fun i => frame_of (W i)) (i0 :: rest)).
  generalize (i0 :: rest). intros l. induction l as [|i l IH]; [reflexivity|].
  simpl. rewrite IH, (frame_of_column _ _ Hne). reflexivity.
Qed.

Lemma bind_map {A B : Type} (f : B -> B) (m : outcome A) (k1 k2 : A -> outcome B) :
  (forall a, k2 a = match k1 a with Ok r => Ok (f r) | Raise e => Raise e end) ->
  bind m k2 = match bind m k1 with Ok r => Ok (f r) | Raise e => Raise e end.
Proof. intros H. destruct m; simpl; [apply H | reflexivity]. Qed.

(** ** The columns of the result *)

Lemma setitem_inv (tbl : list column) (name : string) (v : list fval)
    (tbl' : list column) :
  setitem tbl name v = Ok tbl' -> tbl' = set_column name v tbl.
Proof.
  unfold setitem. destruct tbl as [|[n w] tbl]; [intros [= <-]; reflexivity|].
  destruct (List.length v =? List.length w)%nat; [|discriminate].
  intros [= <-]. reflexivity.
Qed.

Lemma fill_1d_inv (s_name : string) (rows : list (list fval * list fval * string)) :
  forall tbl tbl',
    fill_1d tbl s_name rows = Ok tbl' ->
    tbl' = write_all (map (entry_1d s_name) rows) tbl.
Proof.
  induction rows as [|[[a b] c] rows IH]; intros tbl tbl' H.
  - injection H as <-. reflexivity.
  - cbn [fill_1d] in H. apply bind_ok in H. destruct H as (t & Ht & H).
    apply setitem_inv in Ht. subst t. apply IH in H. exact H.
Qed.

Lemma binned_statistic_inv (x : list fval) (values : list (list fval))
    (edges : list Q) (s : statistic) (stat : list (list fval)) :
  binned_statistic x values edges s = Ok stat ->
  stat = map (fun v => map (fun b => reduce s (select (map (in_bin edges b) x) v))
                           (seq 0 (nbins edges)))
             values.
Proof.
  unfold binned_statistic. intros H. apply bind_ok in H.
  destruct H as (u & _ & H). injection H as <-. reflexivity.
Qed.

Lemma getitem_column (p : DataFrame) (c : string) (v : list fval) :
  getitem p c = Ok v -> column_or_nan c p = v.
Proof.
  unfold getitem, column_or_nan. destruct (lookup c (columns p)); [|discriminate].
  intros [= <-]. reflexivity.
Qed.

Lemma getitem_all_inv (p : DataFrame) (cs : list string) (l : list (list fval)) :
  mapM (getitem p) cs = Ok l -> l = map (fun c => column_or_nan c p) cs.
Proof.
  intros H. apply mapM_inv in H. induction H as [|c v cs l Hc _ IH]; [reflexivity|].
  simpl. rewrite (getitem_column _ _ _ Hc), IH. reflexivity.
Qed.

Lemma combine_map_same {A B C : Type} (f : A -> B) (g : A -> C) (l : list A) :
  combine (combine (map f l) (map g l)) l = map (fun a => (f a, g a, a)) l.
Proof. induction l as [|a l IH]; [reflexivity|]. simpl. rewrite IH. reflexivity. Qed.

Lemma stat_1d_inv (p1 p2 : DataFrame) (e1 e2 : list Q) (cs : list string)
    (tbl tbl' : list column) (s : string * statistic) :
  stat_1d p1 p2 (map (fun c => column_or_nan c p1) cs)
          (map (fun c => column_or_nan c p2) cs) e1 e2 cs tbl s = Ok tbl' ->
  tbl' = write_all (columns_1d p1 p2 e1 e2 cs [s]) tbl.
Proof.
  unfold stat_1d. intros H.
  apply bind_ok in H. destruct H as (t1 & Ht1 & H).
  apply bind_ok in H. destruct H as (p1stat & Hs1 & H).
  apply bind_ok in H. destruct H as (t2 & Ht2 & H).
  apply bind_ok in H. destruct H as (p2stat & Hs2 & H).
  apply getitem_column in Ht1, Ht2. subst t1 t2.
  apply binned_statistic_inv in Hs1, Hs2. subst p1stat p2stat.
  apply fill_1d_inv in H. subst tbl'. f_equal.
  rewrite !map_map, combine_map_same, map_map.
  unfold columns_1d. simpl. rewrite app_nil_r. reflexivity.
Qed.

Lemma fold_stats_1d_inv (p1 p2 : DataFrame) (e1 e2 : list Q) (cs : list string)
    (stat_vals : list (string * statistic)) :
  forall tbl tbl',
    fold_stats (stat_1d p1 p2 (map (fun c => column_or_nan c p1) cs)
                        (map (fun c => column_or_nan c p2) cs) e1 e2 cs)
               tbl stat_vals = Ok tbl' ->
    tbl' = write_all (columns_1d p1 p2 e1 e2 cs stat_vals) tbl.
Proof.
  induction stat_vals as [|s stat_vals IH]; intros tbl tbl' H.
  - injection H as <-. reflexivity.
  - cbn [fold_stats] in H. apply bind_ok in H. destruct H as (t & Ht & H).
    apply stat_1d_inv in Ht. apply IH in H. subst t tbl'.
    rewrite <- write_all_app. f_equal.
    unfold columns_1d. simpl. rewrite app_nil_r. reflexivity.
Qed.

Lemma set_column_fresh (name : string) (v : list fval) (cs : list column) :
  ~ In name (map fst cs) -> set_column name v cs = cs ++ [(name, v)].
Proof.
  induction cs as [|[n w] cs IH]; intros H; [reflexivity|]. simpl in *.
  destruct (String.eqb n name) eqn:E.
  - apply String.eqb_eq in E. tauto.
  - rewrite IH by tauto. reflexivity.
Qed.

Lemma write_all_fresh (entries : list column) :
  NoDup (map fst entries) ->
  forall tbl,
    (forall n, In n (map fst tbl) -> ~ In n (map fst entries)) ->
    write_all entries tbl = tbl ++ entries.
Proof.
  induction entries as [|[n v] entries IH]; intros Hnd tbl Hdis.
  - simpl. rewrite app_nil_r. reflexivity.
  - inversion Hnd as [|? ? Hn Hnd']; subst. simpl.
    rewrite set_column_fresh.
    + rewrite IH; [rewrite <- app_assoc; reflexivity | exact Hnd' |].
      intros m Hm. rewrite map_app in Hm. apply in_app_or in Hm.
      destruct Hm as [Hm | [<- | []]]; [|exact Hn].
      intros Hin. apply (Hdis m Hm). right. exact Hin.
    + intros Hin. apply (Hdis n Hin). left. reflexivity.
Qed.

Lemma columns_1d_labels (p1 p2 : DataFrame) (e1 e2 : list Q) (cs : list string)
    (stat_vals : list (string * statistic)) :
  map fst (columns_1d p1 p2 e1 e2 cs stat_vals)
  = flat_map (fun s : string * statistic => map (fun c => label_1d c (fst s)) cs) stat_vals.
Proof.
  unfold columns_1d. induction stat_vals as [|s l IH]; [reflexivity|].
  simpl. rewrite map_app, IH, map_map. reflexivity.
Qed.

Lemma set_index_head (name : string) (v : list fval) (rest : list column) :
  set_index ((name, v) :: rest) name = Ok (mkTable v rest).
Proof.
  unfold set_index. cbn [lookup remove_column]. rewrite String.eqb_refl. reflexivity.
Qed.

Lemma binned_statistic_2d_inv (x y : list fval) (values : list (list fval))
    (x_edges y_edges : list Q) (s : statistic) (stat : list (list (list fval))) :
  binned_statistic_2d x y values x_edges y_edges s = Ok stat ->
  stat = map (fun v =>
                map (fun i =>
                       map (fun j =>
                              reduce s
                                (select (map (fun xy => in_bin x_edges i (fst xy)
                                                        && in_bin y_edges j (snd xy))
                                             (combine x y)) v))
                           (seq 0 (nbins y_edges)))
                    (seq 0 (nbins x_edges)))
             values.
Proof.
  unfold binned_statistic_2d. intros H.
  apply bind_ok in H. destruct H as (u & _ & H).
  apply bind_ok in H. destruct H as (u' & _ & H). injection H as <-. reflexivity.
Qed.

Lemma column_of_rows (m : list (list fval)) (j : nat) :
  forall l, mapM (fun row => py_index row j) m = Ok l ->
            l = map (fun row => nth j row NaN) m.
Proof.
  induction m as [|row m IH]; intros l H.
  - injection H as <-. reflexivity.
  - cbn [mapM] in H. apply bind_ok in H. destruct H as (v & Hv & H).
    apply bind_ok in H. destruct H as (l' & Hl' & H). injection H as <-.
    rewrite (IH l' Hl'). cbn [map]. f_equal.
    unfold py_index in Hv. destruct (nth_error row j) eqn:E; [|discriminate].
    injection Hv as <-. symmetry. apply nth_error_nth. exact E.
Qed.

Lemma plane_inv (a : list (list (list fval))) (i j : nat) (l : list fval) :
  plane a i j = Ok l -> l = map (fun row => nth j row NaN) (nth i a []).
Proof.
  unfold plane. intros H. apply bind_ok in H. destruct H as (m & Hm & H).
  unfold py_index in Hm. destruct (nth_error a i) eqn:E; [|discriminate].
  injection Hm as <-. rewrite (nth_error_nth _ _ [] E).
  apply column_of_rows. exact H.
Qed.

Lemma fill_2d_inv (s_name : string) (cs : list string)
    (a b : list (list (list fval))) (ij : list (nat * nat)) :
  forall tbl tbl',
    fill_2d tbl s_name cs a b ij = Ok tbl' ->
    tbl' = write_all (map (entry_2d s_name cs a b) ij) tbl.
Proof.
  induction ij as [|[i j] ij IH]; intros tbl tbl' H.
  - injection H as <-. reflexivity.
  - cbn [fill_2d] in H.
    apply bind_ok in H. destruct H as (c & Hc & H).
    apply bind_ok in H. destruct H as (u & Hu & H).
    apply bind_ok in H. destruct H as (v & Hv & H).
    apply bind_ok in H. destruct H as (t & Ht & H).
    apply setitem_inv in Ht. apply plane_inv in Hu, Hv. apply IH in H.
    unfold py_index in Hc. destruct (nth_error cs i) eqn:E; [|discriminate].
    injection Hc as ->. subst. cbn [map]. unfold write_all. cbn [fold_left].
    unfold entry_2d at 2 3. cbn [fst snd]. rewrite (nth_error_nth _ _ "" E). reflexivity.
Qed.

Lemma nth_map_seq {A : Type} (g : nat -> A) (n j : nat) (d : A) :
  (j < n)%nat -> nth j (map g (seq 0 n)) d = g j.
Proof.
  intros H. rewrite (nth_indep _ d (g 0%nat)) by (rewrite length_map, length_seq; exact H).
  rewrite (map_nth g). rewrite seq_nth by exact H. reflexivity.
Qed.

Lemma nth_map_in {A B : Type} (f : A -> B) (l : list A) (i : nat) (d : A) (d' : B) :
  (i < List.length l)%nat -> nth i (map f l) d' = f (nth i l d).
Proof.
  intros H. rewrite (nth_indep _ d' (f d)) by (rewrite length_map; exact H).
  apply map_nth.
Qed.

Lemma flat_map_nth_seq {A B : Type} (G : A -> list B) (l : list A) (d : A) :
  flat_map (fun i => G (nth i l d)) (seq 0 (List.length l)) = flat_map G l.
Proof.
  induction l as [|a l IH]; [reflexivity|].
  cbn [List.length seq flat_map nth]. f_equal.
  rewrite <- seq_shift. rewrite <- IH.
  generalize (seq 0 (List.length l)). intros s.
  induction s as [|k s IHs]; [reflexivity|]. simpl. rewrite IHs. reflexivity.
Qed.

Lemma stat_2d_inv (p1 p2 : DataFrame) (e1 e2 ye : list Q) (y : string)
    (cs : list string) (tbl tbl' : list column) (s : string * statistic) :
  stat_2d p1 p2 (map (fun c => column_or_nan c p1) cs)
          (map (fun c => column_or_nan c p2) cs) e1 e2 cs y ye tbl s = Ok tbl' ->
  tbl' = write_all (columns_2d p1 p2 e1 e2 ye y cs [s]) tbl.
Proof.
  unfold stat_2d. intros H.
  apply bind_ok in H. destruct H as (t1 & Ht1 & H).
  apply bind_ok in H. destruct H as (y1 & Hy1 & H).
  apply bind_ok in H. destruct H as (p1stat & Hs1 & H).
  apply bind_ok in H. destruct H as (t2 & Ht2 & H).
  apply bind_ok in H. destruct H as (y2 & Hy2 & H).
  apply bind_ok in H. destruct H as (p2stat & Hs2 & H).
  apply getitem_column in Ht1, Ht2, Hy1, Hy2. subst t1 t2 y1 y2.
  apply binned_statistic_2d_inv in Hs1, Hs2. apply fill_2d_inv in H.
  subst tbl'. f_equal.
  unfold columns_2d. cbn [flat_map]. rewrite app_nil_r.
  rewrite length_map.
  rewrite <- (flat_map_nth_seq
                (fun c => map (fun j => (label_2d c (fst s) j,
                                         cell_stats p1 c y e1 ye (snd s) j
                                         ++ cell_stats p2 c y e2 ye (snd s) j))
                              (seq 0 (nbins ye))) cs "").
  assert (forall l, Forall (fun i => (i < List.length cs)%nat) l ->
            map (entry_2d (fst s) cs p1stat p2stat)
                (flat_map (fun i => map (fun j => (i, j)) (seq 0 (nbins ye))) l)
            = flat_map
                (fun i =>
                   map (fun j => (label_2d (nth i cs "") (fst s) j,
                                  cell_stats p1 (nth i cs "") y e1 ye (snd s) j
                                  ++ cell_stats p2 (nth i cs "") y e2 ye (snd s) j))
                       (seq 0 (nbins ye))) l) as Hgen.
  { induction 1 as [|i l Hi _ IH]; [reflexivity|].
    cbn [flat_map]. rewrite map_app, IH. f_equal.
    rewrite map_map. apply map_ext_in. intros j Hj. apply in_seq in Hj.
    unfold entry_2d. cbn [fst snd]. f_equal. subst p1stat p2stat.
    rewrite !map_map.
    rewrite !(nth_map_in _ cs _ "" []) by exact Hi.
    rewrite !map_map. unfold cell_stats. f_equal; apply map_ext_in; intros k Hk;
      rewrite nth_map_seq by lia; reflexivity. }
  apply Hgen. apply Forall_forall. intros i Hi. apply in_seq in Hi. lia.
Qed.

Lemma fold_stats_2d_inv (p1 p2 : DataFrame) (e1 e2 ye : list Q) (y : string)
    (cs : list string) (stat_vals : list (string * statistic)) :
  forall tbl tbl',
    fold_stats (stat_2d p1 p2 (map (fun c => column_or_nan c p1) cs)
                        (map (fun c => column_or_nan c p2) cs) e1 e2 cs y ye)
               tbl stat_vals = Ok tbl' ->
    tbl' = write_all (columns_2d p1 p2 e1 e2 ye y cs stat_vals) tbl.
Proof.
  induction stat_vals as [|s stat_vals IH]; intros tbl tbl' H.
  - injection H as <-. reflexivity.
  - cbn [fold_stats] in H. apply bind_ok in H. destruct H as (t & Ht & H).
    apply stat_2d_inv in Ht. apply IH in H. subst t tbl'.
    rewrite <- write_all_app. f_equal.
    unfold columns_2d. cbn [flat_map]. rewrite app_nil_r. reflexivity.
Qed.

Lemma columns_2d_labels (p1 p2 : DataFrame) (e1 e2 ye : list Q) (y : string)
    (cs : list string) (stat_vals : list (string * statistic)) :
  map fst (columns_2d p1 p2 e1 e2 ye y cs stat_vals)
  = labels_2d cs stat_vals (nbins ye).
Proof.
  unfold columns_2d, labels_2d. induction stat_vals as [|s l IH]; [reflexivity|].
  cbn [flat_map]. rewrite map_app, IH. f_equal. clear IH.
  induction cs as [|c cs IHc]; [reflexivity|].
  cbn [flat_map]. rewrite map_app, IHc, map_map. reflexivity.
Qed.

(** ** The normalized time of a row *)

Lemma sorted_map {A B : Type} (R : A -> A -> Prop) (R' : B -> B -> Prop) (g : A -> B)
    (l : list A) :
  (forall a b, In a l -> In b l -> R a b -> R' (g a) (g b)) ->
  StronglySorted R l -> StronglySorted R' (map g l).
Proof.
  intros Hg Hs. induction Hs as [|a l Hs IH Ha]; simpl; constructor.
  - apply IH. intros x y Hx Hy. apply Hg; right; assumption.
  - apply Forall_forall. intros y Hy. apply in_map_iff in Hy.
    destruct Hy as (b & <- & Hb). rewrite Forall_forall in Ha.
    apply Hg; [left; reflexivity | right; exact Hb | apply Ha; exact Hb].
Qed.

Lemma t_norm_value (first last_ t : Z) :
  (first < last_)%Z ->
  exists q,
    qdiv (elapsed first t - elapsed first first)
         (elapsed first last_ - elapsed first first) = Fin q
    /\ q == elapsed_share first last_ t.
Proof.
  intros Hlt. pose proof (elapsed_lt first first last_ Hlt) as Hpos.
  unfold qdiv. rewrite Qpos_not_zero by lra. eexists. split; [reflexivity|].
  unfold elapsed_share, elapsed, total_seconds. rewrite Z.sub_diag.
  assert (~ inject_Z (last_ - first) == 0) as Hne.
  { intros H. assert (0 < inject_Z (last_ - first)) as Hp.
    { change 0 with (inject_Z 0). rewrite <- Zlt_Qlt. lia. }
    rewrite H in Hp. apply (Qlt_irrefl 0 Hp). }
  field. exact Hne.
Qed.

(** ** The positions of the time axis *)

Lemma Forall2_map_seq {A B : Type} (R : A -> B -> Prop) (f : nat -> A) (g : nat -> B)
    (l : list nat) :
  (forall k, In k l -> R (f k) (g k)) -> Forall2 R (map f l) (map g l).
Proof.
  induction l as [|k l IH]; intros H; simpl; constructor.
  - apply H. left. reflexivity.
  - apply IH. intros j Hj. apply H. right. exact Hj.
Qed.

Lemma inject_Z_nonzero (z : Z) : z <> 0%Z -> ~ inject_Z z == 0.
Proof.
  intros Hz H. unfold Qeq in H. simpl in H. lia.
Qed.

Lemma inject_Z_sub (a b : Z) : inject_Z (a - b) = inject_Z a - inject_Z b.
Proof.
  unfold Z.sub, Qminus. rewrite inject_Z_plus, inject_Z_opp. reflexivity.
Qed.

Lemma top_is_last_bin (n : Z) (top : Q) :
  (2 <= n)%Z -> In top (bin_starts n) -> Forall (fun b => b <= top) (bin_starts n) ->
  top == inject_Z (n - 2) / inject_Z (n - 1).
Proof.
  intros Hn Hin Hall.
  pose proof (bin_start_step n Hn) as Hstep.
  set (L := 0 + inject_Z (Z.of_nat (Z.to_nat n - 2)) * ((1 - 0) / inject_Z (n - 1))).
  assert (In L (bin_starts n)) as HL.
  { unfold bin_starts. apply in_map_iff. exists (Z.to_nat n - 2)%nat.
    split; [reflexivity|]. apply in_seq. lia. }
  assert (top == L) as ->.
  { apply Qle_antisym.
    - unfold bin_starts in Hin. apply in_map_iff in Hin.
      destruct Hin as (k & <- & Hk). apply in_seq in Hk. unfold L.
      assert (inject_Z (Z.of_nat k) <= inject_Z (Z.of_nat (Z.to_nat n - 2))) as Hle.
      { rewrite <- Zle_Qle. lia. }
      pose proof (Qmult_le_compat_r _ _ _ Hle (Qlt_le_weak _ _ Hstep)) as Hm.
      lra.
    - rewrite Forall_forall in Hall. apply Hall. exact HL. }
  unfold L. replace (Z.of_nat (Z.to_nat n - 2)) with (n - 2)%Z by lia.
  field. apply inject_Z_nonzero. lia.
Qed.

Lemma integer_ratio (n z : Z) :
  (3 <= n)%Z -> ~ inject_Z n / inject_Z (n - 1) == inject_Z z.
Proof.
  intros Hn H.
  assert (inject_Z n == inject_Z z * inject_Z (n - 1)) as H'.
  { rewrite <- H. field. apply inject_Z_nonzero. lia. }
  rewrite <- inject_Z_mult in H'. apply (proj1 (inject_Z_injective _ _)) in H'.
  assert (z <= 0 \/ z = 1 \/ 2 <= z)%Z as [Hz | [Hz | Hz]] by lia.
  - assert (z * (n - 1) <= 0)%Z by (apply Z.mul_nonpos_nonneg; lia). lia.
  - subst z. lia.
  - assert (2 * (n - 1) <= z * (n - 1))%Z by (apply Z.mul_le_mono_nonneg_r; lia). lia.
Qed.

(** ** A column label given as a string *)

(** ** Columns that are not selected *)

Lemma mapM_ext_in {A B : Type} (f g : A -> outcome B) (l : list A) :
  (forall a, In a l -> f a = g a) -> mapM f l = mapM g l.
Proof.
  induction l as [|a l IH]; intros H; [reflexivity|].
  cbn [mapM]. rewrite (H a) by (left; reflexivity).
  rewrite IH; [reflexivity|]. intros b Hb. apply H. right. exact Hb.
Qed.

(** ** Every sample in one bin *)

Lemma list_sum_zero {A : Type} (l : list A) : list_sum (map (fun _ => 0%nat) l) = 0%nat.
Proof. induction l as [|a l IH]; [reflexivity | exact IH]. Qed.

Lemma list_sum_add {A : Type} (f g : A -> nat) (l : list A) :
  list_sum (map (fun a => (f a + g a)%nat) l)
  = (list_sum (map f l) + list_sum (map g l))%nat.
Proof. induction l as [|a l IH]; [reflexivity|]. simpl. rewrite IH. lia. Qed.

Lemma list_sum_indicator {A : Type} (p : A -> bool) (l : list A) :
  list_sum (map (fun a => if p a then 1%nat else 0%nat) l) = List.length (filter p l).
Proof.
  induction l as [|a l IH]; [reflexivity|]. simpl. rewrite IH.
  destruct (p a); reflexivity.
Qed.

Lemma list_sum_ones {A : Type} (f : A -> nat) (l : list A) :
  Forall (fun a => f a = 1%nat) l -> list_sum (map f l) = List.length l.
Proof. induction 1 as [|a l Ha _ IH]; [reflexivity|]. simpl. rewrite Ha, IH. reflexivity. Qed.

(** Counting bin by bin is counting sample by sample. *)
Lemma bin_sizes_hits (edges : list Q) (x v : list fval) :
  List.length x = List.length v ->
  list_sum (map (fun b => List.length (select (map (in_bin edges b) x) v))
                (seq 0 (nbins edges)))
  = list_sum (map (hits edges) x).
Proof.
  revert v. induction x as [|a x IH]; intros [|w v] Hlen; try discriminate.
  - simpl. apply list_sum_zero.
  - simpl in Hlen. injection Hlen as Hlen.
    change (list_sum (map (hits edges) (a :: x)))
      with (hits edges a + list_sum (map (hits edges) x))%nat.
    rewrite <- (IH v Hlen). unfold hits at 1. rewrite <- list_sum_indicator.
    rewrite <- list_sum_add. f_equal. apply map_ext. intros b.
    unfold select. cbn [map combine filter].
    destruct (in_bin edges b a); reflexivity.
Qed.

Lemma in_bin_cons (e : Q) (edges : list Q) (b : nat) (x : fval) :
  in_bin (e :: edges) (S b) x = in_bin edges b x.
Proof. reflexivity. Qed.

Lemma hits_cons (e0 e1 : Q) (rest : list Q) (x : fval) :
  hits (e0 :: e1 :: rest) x
  = ((if in_bin (e0 :: e1 :: rest) 0 x then 1 else 0) + hits (e1 :: rest) x)%nat.
Proof.
  unfold hits, nbins. cbn [List.length].
  replace (S (S (List.length rest)) - 1)%nat with (S (List.length rest)) by lia.
  replace (S (List.length rest) - 1)%nat with (List.length rest) by lia.
  cbn [seq filter]. rewrite <- seq_shift.
  assert (forall l, List.length (filter (fun b => in_bin (e0 :: e1 :: rest) b x) (map S l))
                    = List.length (filter (fun b => in_bin (e1 :: rest) b x) l)) as Hshift.
  { induction l as [|b l IH]; [reflexivity|]. cbn [map filter].
    rewrite in_bin_cons. destruct (in_bin (e1 :: rest) b x); simpl; rewrite IH; reflexivity. }
  destruct (in_bin (e0 :: e1 :: rest) 0 x); simpl; rewrite Hshift; reflexivity.
Qed.

(** A value below every edge is in no bin. *)
Lemma hits_below (edges : list Q) (q : Q) :
  Forall (fun e => q < e) edges -> hits edges (Fin q) = 0%nat.
Proof.
  intros Hlow. unfold hits.
  assert (forall b, in_bin edges b (Fin q) = false) as Hnone.
  { intros b. unfold in_bin. destruct (nth_error edges b) as [lo|] eqn:E; [|reflexivity].
    destruct (nth_error edges (S b)) as [hi|]; [|reflexivity].
    apply nth_error_In in E. rewrite Forall_forall in Hlow. specialize (Hlow lo E).
    assert (Qle_bool lo q = false) as ->; [|reflexivity].
    destruct (Qle_bool lo q) eqn:Hle; [|reflexivity].
    apply Qle_bool_iff in Hle. exfalso. apply (Qlt_irrefl q).
    apply Qlt_le_trans with lo; assumption. }
  induction (seq 0 (nbins edges)) as [|b l IH]; [reflexivity|].
  cbn [filter]. rewrite Hnone. exact IH.
Qed.

(** On increasing edges a value between the first and the last edge is in
    exactly one bin. *)
Lemma hits_one (edges : list Q) (q : Q) :
  StronglySorted Qlt edges ->
  (2 <= List.length edges)%nat ->
  hd 0 edges <= q -> q <= last edges 0 ->
  hits edges (Fin q) = 1%nat.
Proof.
  induction edges as [|e0 tail IH]; intros Hs Hlen Hlo Hhi; [simpl in Hlen; lia|].
  destruct tail as [|e1 rest]; [simpl in Hlen; lia|].
  rewrite hits_cons. inversion Hs as [|? ? Hs' Hall]; subst.
  destruct rest as [|e2 rest'].
  - unfold hits at 1, nbins, in_bin. cbn [nth_error List.length Nat.eqb].
    simpl in Hlo, Hhi.
    assert (Qle_bool e0 q = true) as -> by (apply Qle_bool_iff; exact Hlo).
    assert (Qle_bool q e1 = true) as -> by (apply Qle_bool_iff; exact Hhi).
    reflexivity.
  - unfold in_bin. cbn [nth_error List.length Nat.eqb].
    simpl hd in Hlo.
    assert (Qle_bool e0 q = true) as -> by (apply Qle_bool_iff; exact Hlo).
    cbn [andb].
    destruct (Qle_bool e1 q) eqn:Hle.
    + cbn [negb]. rewrite Nat.add_0_l. apply IH.
      * exact Hs'.
      * simpl. lia.
      * apply Qle_bool_iff in Hle. exact Hle.
      * exact Hhi.
    + cbn [negb]. rewrite hits_below; [reflexivity|].
      assert (q < e1) as Hlt.
      { apply Qnot_le_lt. intros H. apply Qle_bool_iff in H. congruence. }
      constructor; [exact Hlt|].
      inversion Hs' as [|? ? _ Hall']; subst.
      rewrite Forall_forall in *. intros e He.
      apply Qlt_trans with e1; [exact Hlt | apply Hall'; exact He].
Qed.

(** The edges of a phase: increasing from 0 to 1. *)
Lemma linspace_unit (n : Z) (edges : list Q) :
  (2 <= n)%Z -> Np.linspace 0 1 n = Ok edges ->
  StronglySorted Qlt edges /\ (2 <= List.length edges)%nat
  /\ hd 0 edges <= 0 /\ 1 <= last edges 0.
Proof.
  intros Hn He. unfold Np.linspace in He.
  destruct (n <? 0)%Z eqn:E1; [apply Z.ltb_lt in E1; lia|].
  destruct (n =? 1)%Z eqn:E2; [apply Z.eqb_eq in E2; lia|].
  injection He as <-. split; [|split; [|split]].
  - apply sorted_seq_map. intros i j Hij. apply bin_start_mono; assumption.
  - rewrite length_map, length_seq. lia.
  - replace (Z.to_nat n) with (S (Z.to_nat n - 1)) by lia. cbn [seq map hd].
    change (inject_Z (Z.of_nat 0)) with 0. lra.
  - rewrite (last_map _ _ 0%nat 0).
    + replace (Z.to_nat n) with (S (Z.to_nat n - 1)) by lia.
      rewrite seq_S, last_last. cbn [Nat.add].
      replace (Z.of_nat (Z.to_nat n - 1)) with (n - 1)%Z by lia.
      assert (~ inject_Z (n - 1) == 0) as Hne by (apply inject_Z_nonzero; lia).
      apply Qle_lteq. right. symmetry. field. exact Hne.
    + replace (Z.to_nat n) with (S (Z.to_nat n - 1)) by lia. discriminate.
Qed.

Lemma rect_column (df : DataFrame) (c : string) :
  rect df -> List.length (column_or_nan c df) = List.length (index df).
Proof.
  intros Hr. unfold column_or_nan. destruct (lookup c (columns df)) as [v|] eqn:E.
  - apply lookup_some_in in E. unfold rect in Hr. rewrite Forall_forall in Hr.
    exact (Hr _ E).
  - apply length_map.
Qed.

Lemma rect_loc (df : DataFrame) (lo hi : Z) : rect df -> rect (loc df lo hi).
Proof.
  unfold rect, loc. cbn [index columns]. intros Hr.
  apply Forall_map. apply Forall_impl with (2 := Hr). intros [n v] Hv.
  cbn [fst snd] in *. unfold py_slice. rewrite !length_firstn, !length_skipn, Hv.
  reflexivity.
Qed.

Lemma rect_frame_of (w : DataFrame) : rect w -> rect (frame_of w).
Proof.
  unfold rect, frame_of, assign. cbn [index columns]. intros Hr.
  apply set_column_forall; [exact Hr|]. apply t_norm_values_length.
Qed.

Lemma rect_selected (df : DataFrame) (cols : cols_arg) (y_col : option string)
    (yd : option (list Q)) (se : DataFrame) (cols' : cols_arg) (y' : option string) :
  rect df -> select_data (DataTable df) cols y_col yd = Ok (se, cols', y') -> rect se.
Proof.
  intros Hr. unfold select_data. destruct (cols_truthy cols).
  - intros H. apply bind_ok in H. destruct H as (x & Hx & H). injection H as <- _ _.
    apply getitems_inv in Hx. destruct Hx as (cs & Hcs & ->).
    unfold rect. cbn [index columns].
    apply mapM_inv in Hcs. unfold rect in Hr. rewrite Forall_forall in Hr.
    induction Hcs as [|n c ns cs Hn _ IH]; constructor; [|exact IH].
    apply bind_ok in Hn. destruct Hn as (v & Hv & Hn). injection Hn as <-.
    unfold getitem in Hv. destruct (lookup n (columns df)) as [w|] eqn:E; [|discriminate].
    injection Hv as <-. apply lookup_some_in in E. exact (Hr _ E).
  - intros [= <- _ _]. exact Hr.
Qed.

Lemma length_flat_map_eq {A B C : Type} (f : A -> list B) (g : A -> list C) (l : list A) :
  (forall a, In a l -> List.length (f a) = List.length (g a)) ->
  List.length (flat_map f l) = List.length (flat_map g l).
Proof.
  induction l as [|a l IH]; intros H; [reflexivity|].
  cbn [flat_map]. rewrite !length_app, (H a) by (left; reflexivity).
  rewrite IH; [reflexivity|]. intros b Hb. apply H. right. exact Hb.
Qed.

(** Every column of a pooled frame is as long as its index. *)
Lemma pooled_column_length (W : nat -> DataFrame) (l : list nat) (p : DataFrame)
    (c : string) (v : list fval) :
  (forall i, rect (W i)) ->
  concat (map (fun i => frame_of (W i)) l) = Ok p ->
  getitem p c = Ok v ->
  List.length v = List.length (index p).
Proof.
  intros Hr Hp Hv. destruct l as [|i0 rest]; [discriminate|]. cbn [map] in Hp.
  destruct (concat_cons (frame_of (W i0)) (map (fun i => frame_of (W i)) rest))
    as (p' & E & Hn & Hidx & Hcol).
  rewrite E in Hp. injection Hp as <-.
  unfold getitem in Hv. destruct (lookup c (columns p')) as [w|] eqn:El; [|discriminate].
  injection Hv as <-.
  assert (In c (names (frame_of (W i0)))) as Hc.
  { rewrite <- Hn. apply lookup_some_in in El. unfold names.
    apply in_map_iff. exists (c, w). split; [reflexivity | exact El]. }
  assert (w = flat_map (column_or_nan c)
                       (frame_of (W i0) :: map (fun i => frame_of (W i)) rest)) as ->
    by (rewrite (Hcol c Hc) in El; congruence).
  rewrite Hidx.
  apply length_flat_map_eq. intros f Hf.
  change (frame_of (W i0) :: map (fun i => frame_of (W i)) rest)
    with (map (fun i => frame_of (W i)) (i0 :: rest)) in Hf.
  apply in_map_iff in Hf. destruct Hf as (i & <- & _).
  apply rect_column, rect_frame_of, Hr.
Qed.

Lemma survives_has_data (se : DataFrame) (ev : events_arg) (i : nat) :
  survives se ev i = true -> has_data (index se) ev i = true.
Proof.
  unfold survives, skipped, skip_event, empty, has_data, window1, window2,
    phase1_of, phase2_of.
  rewrite !loc_index.
  destruct (labels_between (index se) (start_of ev i) (epoch_of ev i));
    [discriminate|].
  destruct (columns (loc se (start_of ev i) (epoch_of ev i))); [discriminate|].
  destruct (labels_between (index se) (epoch_of ev i) (end_of ev i));
    [discriminate | reflexivity].
Qed.

(** Samples with a normalized time in [[0, 1]] fill the bins of a phase
    without loss or repetition. *)
Lemma bin_sizes_total (n : Z) (edges : list Q) (p : DataFrame) (c : string) :
  (2 <= n)%Z -> Np.linspace 0 1 n = Ok edges ->
  Forall in_unit_interval (column_or_nan "t_norm" p) ->
  List.length (column_or_nan "t_norm" p) = List.length (column_or_nan c p) ->
  list_sum (bin_sizes p c edges) = List.length (column_or_nan c p).
Proof.
  intros Hn He Hunit Hlen. unfold bin_sizes.
  rewrite (bin_sizes_hits edges _ _ Hlen), <- Hlen.
  apply list_sum_ones.
  destruct (linspace_unit n edges Hn He) as (Hs & H2 & Hhd & Hlast).
  apply Forall_impl with (2 := Hunit). intros [q| | |] Hq; try contradiction.
  simpl in Hq. apply hits_one; [exact Hs | exact H2 | |].
  - apply Qle_trans with 0; [exact Hhd | apply Hq].
  - apply Qle_trans with 1; [apply Hq | exact Hlast].
Qed.

Lemma pooled_unit (se : DataFrame) (ev : events_arg) (W : nat -> DataFrame)
    (lo hi : nat -> Z) (l : list nat) (p : DataFrame) :
  StronglySorted Z.le (index se) ->
  (forall i, W i = loc se (lo i) (hi i)) ->
  (forall i, In i l -> positive_duration (labels_between (index se) (lo i) (hi i))) ->
  concat (map (fun i => frame_of (W i)) l) = Ok p ->
  Forall in_unit_interval (column_or_nan "t_norm" p).
Proof.
  intros Hs HW Hpos Hp. destruct (concat_frames _ _ _ Hp) as (Ht & _).
  rewrite (getitem_column _ _ _ Ht). clear Hp Ht.
  induction l as [|i l IH]; [constructor|].
  cbn [flat_map]. apply Forall_app. split.
  - rewrite HW. apply normalize_unit.
    + apply window_sorted. exact Hs.
    + rewrite loc_index. apply Hpos. left. reflexivity.
  - apply IH. intros j Hj. apply Hpos. right. exact Hj.
Qed.

(** ** The text of the diagnostic *)

Lemma str_nat_inj (i j : nat) : str_nat i = str_nat j -> i = j.
Proof.
  unfold str_nat. intros H.
  apply (f_equal NilEmpty.uint_of_string) in H. rewrite !NilEmpty.usu in H.
  injection H as H. apply (f_equal Nat.of_uint) in H.
  rewrite !DecimalNat.Unsigned.of_to in H. exact H.
Qed.

Lemma no_data_message_inj (i j : nat) : no_data_message i = no_data_message j -> i = j.
Proof.
  unfold no_data_message. intros H. apply str_nat_inj. cbn [append] in H.
  repeat (injection H as H). exact H.
Qed.

(** ** The table of a call that returns *)

Lemma printed_of_return (data : data_arg) (ev : events_arg) (xd : Z * Z)
    (cols : cols_arg) (seastats : seastats_arg) (y_col : option string)
    (yd : option (list Q)) (return_data : bool) (r : sea_return) :
  sean data ev xd cols seastats y_col yd return_data = Ok r ->
  printed r = map no_data_message
                  (filter (fun i => negb (has_data (data_index data) ev i))
                          (event_ids ev)).
Proof.
  intros H. apply sean_steps in H.
  destruct H as (s1 & s2 & se & cols' & y' & st & p1 & p2 & e1 & e2 & g & ax & ph1
                 & ph2 & tbl & table & _ & _ & Hsel & Hloop & Hp1 & _ & _ & _ & _
                 & _ & _ & _ & _ & _ & ->).
  apply event_loop_complete in Hloop. destruct Hloop as (_ & ->).
  cbn [printed]. unfold after_events. cbn [stdout app]. f_equal.
  unfold after_events in Hp1. cbn [phase1_dfs app] in Hp1.
  assert (columns se <> []) as Hcols.
  { intros Hnil.
    assert (forall l, filter (survives se ev) l = []) as Hnone.
    { intros l. induction l as [|i l IH]; [reflexivity|]. simpl.
      assert (survives se ev i = false) as ->; [|exact IH].
      unfold survives, skipped, skip_event, window1, phase1_of, empty, loc.
      cbn [columns]. rewrite Hnil. cbn [map].
      destruct (index _); reflexivity. }
    rewrite Hnone in Hp1. discriminate. }
  apply filter_ext. intros i. rewrite skipped_has_data by exact Hcols.
  rewrite (select_data_index _ _ _ _ _ _ _ Hsel). reflexivity.
Qed.

Lemma selected_cols (df : DataFrame) (cols : cols_arg) (y_col : option string)
    (yd : option (list Q)) (se : DataFrame) (cols' : cols_arg) (y' : option string) :
  select_data (DataTable df) cols y_col yd = Ok (se, cols', y') ->
  cols_items cols' = analysed_cols df cols.
Proof.
  unfold select_data, analysed_cols. destruct (cols_truthy cols).
  - intros H. apply bind_ok in H. destruct H as (x & _ & H).
    injection H as _ <- _. reflexivity.
  - intros [= _ <- _]. reflexivity.
Qed.

Lemma length_but_last {A : Type} (l : list A) :
  List.length (but_last l) = (List.length l - 1)%nat.
Proof.
  unfold but_last. induction l as [|a [|b l] IH]; [reflexivity..|].
  change (removelast (a :: b :: l)) with (a :: removelast (b :: l)).
  cbn [List.length] in *. rewrite IH. lia.
Qed.

Lemma linspace_length (n : Z) (e : list Q) :
  Np.linspace 0 1 n = Ok e -> List.length e = Z.to_nat n.
Proof.
  unfold Np.linspace. destruct (n <? 0)%Z; [discriminate|].
  destruct (n =? 1)%Z eqn:E.
  - apply Z.eqb_eq in E. subst n. intros [= <-]. reflexivity.
  - intros [= <-]. rewrite length_map, length_seq. reflexivity.
Qed.

(** The table a call returns is what the assignments of the statistics
    leave, [t_norm] set as its index. *)
Lemma returned_table (data : data_arg) (ev : events_arg) (xd : Z * Z)
    (cols : cols_arg) (seastats : seastats_arg) (y_col : option string)
    (yd : option (list Q)) (return_data : bool) (r : sea_return) :
  sean data ev xd cols seastats y_col yd return_data = Ok r ->
  exists se cols' y' p1 p2 e1 e2 g ax,
    select_data data cols y_col yd = Ok (se, cols', y')
    /\ Np.linspace 0 1 (fst xd) = Ok e1 /\ Np.linspace 0 1 (snd xd) = Ok e2
    /\ y_grid y' yd = Ok g
    /\ y_meta (sea_meta r) = option_map snd g
    /\ time_axis xd = Ok ax
    /\ List.length ax = (nbins e1 + nbins e2)%nat
    /\ set_index (write_all (written_columns g p1 p2 e1 e2 (cols_items cols')
                                             (resolve_stats seastats))
                            [("t_norm", map Fin ax)]) "t_norm"
       = Ok (SEAdat r).
Proof.
  intros H. apply sean_steps in H.
  destruct H as (s1 & s2 & se & cols' & y' & st & p1 & p2 & e1 & e2 & g & ax & ph1
                 & ph2 & tbl & table & Hs1 & Hs2 & Hsel & _ & _ & _ & He1 & He2 & Hg
                 & Hax & Hph1 & Hph2 & Hfold & Hidx & ->).
  apply getitem_all_inv in Hph1, Hph2. subst ph1 ph2.
  exists se, cols', y', p1, p2, e1, e2, g, ax.
  split; [exact Hsel|]. split; [exact He1|]. split; [exact He2|].
  split; [exact Hg|]. split; [reflexivity|].
  split; [unfold time_axis; rewrite Hs1, Hs2; cbn [bind]; rewrite He1, He2; exact Hax|].
  split.
  - unfold t_norm_axis in Hax. apply bind_ok in Hax. destruct Hax as (top & _ & Hax).
    injection Hax as <-. rewrite length_app, !length_map, !length_but_last.
    reflexivity.
  - cbn [SEAdat]. rewrite <- Hidx. f_equal. unfold written_columns.
    destruct g as [[y yr]|].
    + apply fold_stats_2d_inv in Hfold. exact (eq_sym Hfold).
    + apply fold_stats_1d_inv in Hfold. exact (eq_sym Hfold).
Qed.

Lemma bin_stats_length (p : DataFrame) (c : string) (edges : list Q) (s : statistic) :
  List.length (bin_stats p c edges s) = nbins edges.
Proof. unfold bin_stats. rewrite length_map, length_seq. reflexivity. Qed.

Lemma cell_stats_length (p : DataFrame) (c y : string) (xe ye : list Q) (s : statistic)
    (j : nat) :
  List.length (cell_stats p c y xe ye s j) = nbins xe.
Proof. unfold cell_stats. rewrite length_map, length_seq. reflexivity. Qed.

Lemma written_columns_length (g : option (string * y_rtn)) (p1 p2 : DataFrame)
    (e1 e2 : list Q) (cs : list string) (stat_vals : list (string * statistic)) :
  Forall (fun c : column => List.length (snd c) = (nbins e1 + nbins e2)%nat)
         (written_columns g p1 p2 e1 e2 cs stat_vals).
Proof.
  apply Forall_forall. intros [l v] Hin. cbn [snd]. unfold written_columns in Hin.
  destruct g as [[y yr]|].
  - unfold columns_2d in Hin. apply in_flat_map in Hin. destruct Hin as (s & _ & Hin).
    apply in_flat_map in Hin. destruct Hin as (c & _ & Hin).
    apply in_map_iff in Hin. destruct Hin as (j & [= _ <-] & _).
    rewrite length_app, !cell_stats_length. reflexivity.
  - unfold columns_1d in Hin. apply in_flat_map in Hin. destruct Hin as (s & _ & Hin).
    apply in_map_iff in Hin. destruct Hin as (c & [= _ <-] & _).
    rewrite length_app, !bin_stats_length. reflexivity.
Qed.

Lemma written_columns_labels (g : option (string * y_rtn)) (p1 p2 : DataFrame)
    (e1 e2 : list Q) (cs : list string) (stat_vals : list (string * statistic))
    (l : string) :
  In l (map fst (written_columns g p1 p2 e1 e2 cs stat_vals)) ->
  stat_label cs (map fst stat_vals) l.
Proof.
  unfold written_columns, stat_label. destruct g as [[y yr]|].
  - rewrite columns_2d_labels. unfold labels_2d. intros Hin.
    apply in_flat_map in Hin. destruct Hin as (s & Hs & Hin).
    apply in_flat_map in Hin. destruct Hin as (c & Hc & Hin).
    apply in_map_iff in Hin. destruct Hin as (j & <- & _).
    exists c, (fst s). split; [exact Hc|]. split; [apply in_map; exact Hs|].
    right. exists j. reflexivity.
  - rewrite columns_1d_labels. intros Hin.
    apply in_flat_map in Hin. destruct Hin as (s & Hs & Hin).
    apply in_map_iff in Hin. destruct Hin as (c & <- & Hc).
    exists c, (fst s). split; [exact Hc|]. split; [apply in_map; exact Hs|].
    left. reflexivity.
Qed.

(** The index of a returned table is the time axis, unless a statistic
    column took the label [t_norm]. *)
Lemma returned_index (df : DataFrame) (ev : events_arg) (xd : Z * Z)
    (cols : cols_arg) (seastats : seastats_arg) (y_col : option string)
    (yd : option (list Q)) (return_data : bool) (r : sea_return) :
  sean (DataTable df) ev xd cols seastats y_col yd return_data = Ok r ->
  (forall l, stat_label (analysed_cols df cols) (map fst (resolve_stats seastats)) l ->
             l <> "t_norm") ->
  exists ax, time_axis xd = Ok ax /\ t_index (SEAdat r) = map Fin ax.
Proof.
  intros H Hfree. apply returned_table in H.
  destruct H as (se & cols' & y' & p1 & p2 & e1 & e2 & g & ax & Hsel & _ & _ & _ & _
                 & Hax & _ & Hidx).
  exists ax. split; [exact Hax|].
  unfold set_index in Hidx. rewrite write_all_lookup in Hidx.
  - simpl in Hidx. injection Hidx as <-. reflexivity.
  - intros Hin. apply written_columns_labels in Hin.
    rewrite (selected_cols _ _ _ _ _ _ _ Hsel) in Hin. exact (Hfree _ Hin eq_refl).
Qed.

(** Index and columns of a returned table have one entry per bin of the two
    phases. *)
Lemma returned_shape (data : data_arg) (ev : events_arg) (xd : Z * Z)
    (cols : cols_arg) (seastats : seastats_arg) (y_col : option string)
    (yd : option (list Q)) (return_data : bool) (r : sea_return) :
  sean data ev xd cols seastats y_col yd return_data = Ok r ->
  List.length (t_index (SEAdat r))
  = (Z.to_nat (fst xd) - 1 + (Z.to_nat (snd xd) - 1))%nat
  /\ Forall (fun c : column =>
               List.length (snd c) = (Z.to_nat (fst xd) - 1 + (Z.to_nat (snd xd) - 1))%nat)
            (t_columns (SEAdat r)).
Proof.
  intros H. apply returned_table in H.
  destruct H as (se & cols' & y' & p1 & p2 & e1 & e2 & g & ax & _ & He1 & He2 & _ & _
                 & _ & Hlen & Hidx).
  apply linspace_length in He1, He2. unfold nbins in *. rewrite <- He1, <- He2.
  set (N := (List.length e1 - 1 + (List.length e2 - 1))%nat) in *.
  destruct (set_index_ok N (write_all (written_columns g p1 p2 e1 e2 (cols_items cols')
                                                       (resolve_stats seastats))
                                      [("t_norm", map Fin ax)]))
    as (v & _ & E & Hv & Hcols).
  - apply write_all_inv; [apply written_columns_length|].
    split; [|left; reflexivity]. constructor; [|constructor].
    cbn [snd]. rewrite length_map. exact Hlen.
  - rewrite E in Hidx. injection Hidx as <-. cbn [t_index t_columns].
    split; assumption.
Qed.

Lemma stats_false_plain (a b : statistic) (rest : list statistic) :
  StatsFalse <> StatsArray a b rest.
Proof. discriminate. Qed.

(** ** Labels reported as missing *)

Lemma unique_in (l : list string) (c : string) : In c (unique l) <-> In c l.
Proof.
  induction l as [|x l IH]; [reflexivity|]. cbn [unique]. simpl In.
  rewrite filter_In, IH, negb_true_iff. split.
  - intros [H | (H & _)]; auto.
  - intros [H | H]; [left; exact H|].
    destruct (String.eqb x c) eqn:E; [left; apply String.eqb_eq; exact E | right; auto].
Qed.

Lemma unique_nodup (l : list string) : NoDup (unique l).
Proof.
  induction l as [|x l IH]; [constructor|]. cbn [unique]. constructor.
  - rewrite filter_In. intros (_ & H). rewrite String.eqb_refl in H. discriminate.
  - apply NoDup_filter. exact IH.
Qed.

Lemma filter_length_all {A : Type} (f : A -> bool) (l : list A) :
  List.length (filter f l) = List.length l <-> Forall (fun a => f a = true) l.
Proof.
  induction l as [|a l IH]; simpl; [split; [constructor | reflexivity]|].
  pose proof (filter_length_le f l) as Hle.
  destruct (f a) eqn:E; simpl.
  - split.
    + intros H. constructor; [exact E | apply IH; lia].
    + intros H. inversion H; subst. f_equal. apply IH. assumption.
  - split; [lia|]. intros H. inversion H; subst. congruence.
Qed.

(** The report of [missing_report]: no requested label is a column, or the
    labels that are not, each once. *)
Lemma missing_report_cases (df : DataFrame) (ns : list string) :
  (Forall (fun c => ~ In c (names df)) ns -> missing_report df ns = KeyNoneOf ns)
  /\ (~ Forall (fun c => ~ In c (names df)) ns ->
      missing_report df ns = KeyNotInIndex (unique (missing_labels df ns))).
Proof.
  unfold missing_report, missing_labels.
  assert (Forall (fun c => ~ In c (names df)) ns
          <-> Forall (fun a => negb (has_column df a) = true) ns) as Hiff.
  { rewrite !Forall_forall. split; intros H c Hc; specialize (H c Hc).
    - apply negb_true_iff. destruct (has_column df c) eqn:E; [|reflexivity].
      apply has_column_spec in E. tauto.
    - apply negb_true_iff in H. intros Hin. apply has_column_spec in Hin. congruence. }
  rewrite Hiff, <- filter_length_all. split; intros H.
  - apply Nat.eqb_eq in H. rewrite H. reflexivity.
  - apply Nat.eqb_neq in H. rewrite H. reflexivity.
Qed.

Lemma has_column_lookup (df df' : DataFrame) (c : string) :
  lookup c (columns df) = lookup c (columns df') -> has_column df c = has_column df' c.
Proof.
  intros H.
  assert (forall d, has_column d c = match lookup c (columns d) with
                                     | Some _ => true | None => false end) as Hl.
  { intros d. destruct (has_column d c) eqn:E.
    - apply has_column_spec in E. destruct (lookup_in c (columns d) E) as (v & ->).
      reflexivity.
    - destruct (lookup c (columns d)) as [v|] eqn:L; [|reflexivity].
      apply lookup_some_in in L. rewrite <- E.
      apply (proj2 (has_column_spec d c)).
      unfold names. apply in_map_iff. exists (c, v). auto. }
  rewrite !Hl, H. reflexivity.
Qed.

(** * Specified behaviour *)

Lemma demo_well_formed : well_formed demo_table.
Proof.
  unfold well_formed. simpl. split; [discriminate|]. split.
  - constructor; [simpl; intros [H | []]; discriminate|].
    constructor; [simpl; tauto | constructor].
  - repeat constructor.
Defined.

Lemma demo_sorted : StronglySorted Z.le (index demo_table).
Proof.
  simpl. repeat (constructor; [|repeat (constructor; [lia|]); constructor]).
  constructor.
Defined.

Lemma demo_valid_1d :
  valid_input demo_table demo_events (3, 3)%Z (ColsList ["v"]) None None.
Proof.
  unfold valid_input. cbn [fst snd].
  split; [lia|]. split; [lia|]. split; [unfold events_complete; simpl; lia|].
  split; [exact demo_well_formed|].
  split; [exists 0%nat; split; [simpl; lia | reflexivity]|].
  split; [|split; [discriminate | exact demo_sorted]].
  intros _. split; [repeat constructor; simpl; tauto|].
  constructor; [left; reflexivity | constructor].
Defined.

Lemma demo_labels_free (l : string) :
  stat_label (analysed_cols demo_table (ColsList ["v"]))
             (map fst (resolve_stats StatsFalse)) l ->
  l <> "t_norm".
Proof.
  intros (c & s & Hc & Hs & Hl). simpl in Hc, Hs.
  destruct Hc as [<- | []].
  destruct Hl as [-> | (j & ->)];
    repeat (destruct Hs as [<- | Hs]; [discriminate|]); destruct Hs.
Defined.

(** C1. The time axis is meant to hold integer positions.  With
    [x_dimensions = [3, 3]] the index of the returned table is
    [-5/2, -1, 0, 3/2]: the bins of [linspace(0, 1, 3)] are 1/2 apart while the
    spacing that rescales them is 1/3; binary64 arithmetic gives these very
    values.  On the bins of the lines kept as
    comments, [np.arange(0, 1., x1_spacing)], the same formula gives
    [-3, -2, -1, 0, 1, 2]. *)
Theorem sean_axis_not_integer :
  exists r axis,
    sean (DataTable demo_table) demo_events (3, 3)%Z (ColsList ["v"]) StatsFalse
         None None false = Ok r
    /\ time_axis (3, 3)%Z = Ok axis
    /\ t_index (SEAdat r) = map Fin axis
    /\ map Qred axis = [-5 # 2; -1; 0; 3 # 2]
    /\ ~ Forall is_integer axis
    /\ Binary64.time_axis 3 3 = Some [-2.5; -1; 0; 1.5]%float
    /\ (exists bins axis',
          Np.arange 0 1 (1 / 3) = Ok bins
          /\ t_norm_axis bins bins (1 / 3) (1 / 3) = Ok axis'
          /\ map Qred axis' = [-3; -2; -1; 0; 1; 2]).
Proof.
  destruct (sean_ok demo_table demo_events (3, 3)%Z (ColsList ["v"]) StatsFalse
              None None false demo_valid_1d stats_false_plain)
    as (r & axis & Hr & Hax & _ & _ & Hidx & _).
  exists r, axis. split; [exact Hr|]. split; [exact Hax|].
  split; [exact (Hidx demo_labels_free)|].
  vm_compute in Hax. injection Hax as <-.
  split; [reflexivity|]. split; [|split; [vm_compute; reflexivity|]].
  - intros H. inversion H as [|? ? (z & Hz) _]; subst.
    unfold Qeq in Hz. simpl in Hz. lia.
  - eexists. eexists. split; [vm_compute; reflexivity|].
    split; [vm_compute; reflexivity|]. reflexivity.
Qed.

(** C2, as the code has it.  A call that returns made a 2D analysis exactly
    when [y_col] and [y_dimensions] are both truthy and the columns were
    chosen by [cols] (or [data] is a series); with [cols] omitted the whole
    table is analysed in 1D.  A call with at most one of [y_col] and
    [y_dimensions] is the 1D call with neither. *)
Theorem two_d_iff_y_and_cols (data : data_arg) (ev : events_arg) (xd : Z * Z)
    (cols : cols_arg) (seastats : seastats_arg) (y_col : option string)
    (yd : option (list Q)) (return_data : bool) :
  (forall r,
     sean data ev xd cols seastats y_col yd return_data = Ok r ->
     (y_meta (sea_meta r) <> None <->
      (y_col_truthy y_col && y_dimensions_truthy yd)
      && (is_series data || cols_truthy cols) = true))
  /\ (y_col_truthy y_col && y_dimensions_truthy yd = false ->
      sean data ev xd cols seastats y_col yd return_data
      = sean data ev xd cols seastats None None return_data).
Proof.
  split; [|apply sean_one_y].
  intros r H. apply sean_inv in H.
  destruct H as (se & cols' & y' & g & Hsel & Hg & ->). cbn [sea_meta y_meta].
  apply select_data_y in Hsel. apply y_grid_some in Hg.
  assert (option_map snd g <> None <-> g <> None) as ->.
  { destruct g; simpl; split; congruence. }
  rewrite Hg, Hsel.
  destruct (is_series data || cols_truthy cols).
  - rewrite andb_true_r. reflexivity.
  - rewrite andb_false_r. simpl. reflexivity.
Qed.

Lemma two_d_iff_y_and_cols_witness :
  exists r,
    sean (DataTable demo_table) demo_events (3, 3)%Z (ColsList ["v"])
         (StatsDict count_only) (Some "L") (Some [0; 10; 5]) false = Ok r
    /\ y_meta (sea_meta r) <> None.
Proof.
  eexists. split; [vm_compute; reflexivity|].
  apply (proj1 (two_d_iff_y_and_cols (DataTable demo_table) demo_events (3, 3)%Z
                  (ColsList ["v"]) (StatsDict count_only) (Some "L")
                  (Some [0; 10; 5]) false)).
  - vm_compute. reflexivity.
  - reflexivity.
Defined.

(** C2, as stated, fails: with [cols] omitted, [y_col] and [y_dimensions]
    both supplied give a 1D analysis. *)
Lemma two_d_off_without_cols :
  exists r,
    sean (DataTable demo_table) demo_events (3, 3)%Z ColsFalse
         (StatsDict count_only) (Some "L") (Some [0; 10; 5]) false = Ok r
    /\ y_col_truthy (Some "L") = true
    /\ y_dimensions_truthy (Some [0; 10; 5]) = true
    /\ y_meta (sea_meta r) = None
    /\ map fst (t_columns (SEAdat r)) = ["v_cnt"; "L_cnt"].
Proof.
  eexists. split; [vm_compute; reflexivity|]. repeat split.
Qed.

Lemma demo_valid_series_table :
  valid_input (to_frame demo_series "data") demo_events (3, 3)%Z (ColsList ["data"])
              None None.
Proof.
  unfold valid_input. cbn [fst snd].
  split; [lia|]. split; [lia|]. split; [unfold events_complete; simpl; lia|].
  split.
  { unfold well_formed. simpl. split; [discriminate|]. split.
    - constructor; [simpl; tauto | constructor].
    - repeat constructor. }
  split; [exists 0%nat; split; [simpl; lia | reflexivity]|].
  split; [|split; [discriminate | exact demo_sorted]].
  intros _. split; [repeat constructor; simpl; tauto|].
  constructor; [left; reflexivity | constructor].
Defined.

(** C3. A series is accepted as [data] and converted to the table with the
    single column ["data"] (lines 146-148); but [cols] becomes the string
    ["data"], and the loops of lines 273-274 take its characters for column
    labels: the call raises [KeyError] for ["d"] and returns no table.  The
    table the series is converted to, analysed with [cols = ["data"]], gives
    the [(3 - 1) + (3 - 1)] rows of the specification. *)
Theorem series_gives_no_table :
  sean (DataSeries demo_series) demo_events (3, 3)%Z ColsFalse StatsFalse None None false
  = Raise (KeyError (KeyLabel "d"))
  /\ exists r,
       sean (DataTable (to_frame demo_series "data")) demo_events (3, 3)%Z
            (ColsList ["data"]) StatsFalse None None false = Ok r
       /\ List.length (t_index (SEAdat r)) = 4%nat
       /\ Forall (fun c : column => List.length (snd c) = 4%nat) (t_columns (SEAdat r)).
Proof.
  split; [vm_compute; reflexivity|].
  destruct (sean_ok (to_frame demo_series "data") demo_events (3, 3)%Z
              (ColsList ["data"]) StatsFalse None None false
              demo_valid_series_table stats_false_plain) as (r & _ & Hr & _).
  exists r. split; [exact Hr|]. exact (returned_shape _ _ _ _ _ _ _ _ r Hr).
Qed.

Lemma demo_valid_gap :
  valid_input demo_table gap_events (3, 3)%Z ColsFalse None None.
Proof.
  unfold valid_input. cbn [fst snd].
  split; [lia|]. split; [lia|]. split; [unfold events_complete; simpl; lia|].
  split; [exact demo_well_formed|].
  split; [exists 0%nat; split; [simpl; lia | reflexivity]|].
  split; [discriminate|]. split; [discriminate | exact demo_sorted].
Defined.

(** C4. On an ordered index, an event with a window that holds no row is
    skipped.  The loop does not raise; the frames it collects for either
    phase are those of the loop that never visits the event, so the other
    events are processed as without it; and the line
    [There is no data for event <i>], which no other event prints, is
    printed.  A call on the table that returns has printed that line. *)
Theorem empty_phase_skips_event (se : DataFrame) (ev : events_arg) (i : nat) :
  StronglySorted Z.le (index se) ->
  events_complete ev ->
  (i < List.length (ev_starts ev))%nat ->
  index (window1 se ev i) = [] \/ index (window2 se ev i) = [] ->
  (exists st st',
     event_loop se ev = Ok st
     /\ for_each (loop_body se ev)
                 (seq 0 i ++ seq (S i) (List.length (ev_starts ev) - S i))
                 (mkLoop [] [] []) = Ok st'
     /\ phase1_dfs st = phase1_dfs st'
     /\ phase2_dfs st = phase2_dfs st'
     /\ In ("There is no data for event " ++ str_nat i)%string (stdout st))
  /\ (forall j,
        ("There is no data for event " ++ str_nat j)%string
        = ("There is no data for event " ++ str_nat i)%string -> j = i)
  /\ (forall xd cols seastats y_col yd return_data r,
        sean (DataTable se) ev xd cols seastats y_col yd return_data = Ok r ->
        In ("There is no data for event " ++ str_nat i)%string (printed r)).
Proof.
  intros _ Hev Hi Hempty.
  assert (has_data (index se) ev i = false) as Hd.
  { unfold has_data. unfold window1, window2, phase1_of, phase2_of in Hempty.
    rewrite !loc_index in Hempty. destruct Hempty as [-> | ->]; [reflexivity|].
    destruct (labels_between _ _ _); reflexivity. }
  assert (event_ids ev = seq 0 i ++ i :: seq (S i) (List.length (ev_starts ev) - S i))
    as Hids.
  { unfold event_ids.
    replace (List.length (ev_starts ev))
      with (i + S (List.length (ev_starts ev) - S i))%nat at 1 by lia.
    rewrite seq_app. reflexivity. }
  split; [|split].
  - pose proof (no_data_skipped se ev i Hd) as Hskip.
    pose proof (event_ids_in_range ev Hev) as Hrange. rewrite Hids in Hrange.
    apply Forall_app in Hrange. destruct Hrange as (Hr1 & Hr2).
    inversion Hr2 as [|? ? _ Hr3]; subst.
    exists (after_events se ev (event_ids ev) (mkLoop [] [] [])).
    eexists. split; [apply event_loop_ok; exact Hev|].
    split; [apply for_each_events; apply Forall_app; split; assumption|].
    rewrite Hids. unfold after_events. cbn [phase1_dfs phase2_dfs stdout app].
    assert (survives se ev i = false) as Hsurv
      by (unfold survives; rewrite Hskip; reflexivity).
    rewrite !filter_app. cbn [filter]. rewrite Hsurv, Hskip.
    split; [reflexivity|]. split; [reflexivity|].
    rewrite map_app. apply in_or_app. right. left. reflexivity.
  - intros j Hj. exact (no_data_message_inj j i Hj).
  - intros xd cols seastats y_col yd return_data r Hr.
    rewrite (printed_of_return _ _ _ _ _ _ _ _ r Hr). cbn [data_index].
    change ("There is no data for event " ++ str_nat i)%string with (no_data_message i).
    apply in_map. apply filter_In. split; [|rewrite Hd; reflexivity].
    rewrite Hids. apply in_or_app. right. left. reflexivity.
Qed.

Lemma empty_phase_skips_event_witness :
  index (window1 demo_table gap_events 1) = []
  /\ (exists st st',
        event_loop demo_table gap_events = Ok st
        /\ for_each (loop_body demo_table gap_events) (seq 0 1 ++ seq 2 0)
                    (mkLoop [] [] []) = Ok st'
        /\ phase1_dfs st = phase1_dfs st'
        /\ phase2_dfs st = phase2_dfs st'
        /\ In "There is no data for event 1" (stdout st))
  /\ (exists r,
        sean (DataTable demo_table) gap_events (3, 3)%Z ColsFalse StatsFalse
             None None false = Ok r
        /\ In "There is no data for event 1" (printed r)).
Proof.
  assert (events_complete gap_events) as H1 by (unfold events_complete; simpl; lia).
  assert (1 < List.length (ev_starts gap_events))%nat as H2 by (simpl; lia).
  assert (index (window1 demo_table gap_events 1) = []) as H3 by reflexivity.
  destruct (empty_phase_skips_event demo_table gap_events 1 demo_sorted H1 H2
              (or_introl H3)) as (Hloop & _ & Hcall).
  split; [exact H3|]. split; [exact Hloop|].
  destruct (sean_ok demo_table gap_events (3, 3)%Z ColsFalse StatsFalse None None false
              demo_valid_gap stats_false_plain) as (r & _ & Hr & _).
  exists r. split; [exact Hr|].
  exact (Hcall (3, 3)%Z ColsFalse StatsFalse None None false r Hr).
Defined.



(** C6. On an ordered index, the normalized times of an event that is not
    skipped form a segment of the pooled [t_norm] column of each phase; they
    are the elapsed seconds rescaled by their minimum and maximum, and for a
    phase of positive duration each of them lies in [[0, 1]]. *)
Theorem pooled_t_norm_in_unit_interval (se : DataFrame) (ev : events_arg) (i : nat) :
  StronglySorted Z.le (index se) ->
  events_complete ev ->
  (i < List.length (ev_starts ev))%nat ->
  skipped se ev i = false ->
  exists st p1 p2 v1 v2,
    event_loop se ev = Ok st
    /\ concat (phase1_dfs st) = Ok p1 /\ concat (phase2_dfs st) = Ok p2
    /\ getitem p1 "t_norm" = Ok v1 /\ getitem p2 "t_norm" = Ok v2
    /\ (exists a b, v1 = a ++ t_norm_values (index (window1 se ev i)) ++ b)
    /\ (exists a b, v2 = a ++ t_norm_values (index (window2 se ev i)) ++ b)
    /\ normalize_spec (index (window1 se ev i))
       = Ok (t_norm_values (index (window1 se ev i)))
    /\ normalize_spec (index (window2 se ev i))
       = Ok (t_norm_values (index (window2 se ev i)))
    /\ (positive_duration (index (window1 se ev i)) ->
        Forall in_unit_interval (t_norm_values (index (window1 se ev i))))
    /\ (positive_duration (index (window2 se ev i)) ->
        Forall in_unit_interval (t_norm_values (index (window2 se ev i)))).
Proof.
  intros Hs Hev Hi Hskip.
  assert (In i (filter (survives se ev) (event_ids ev))) as Hin.
  { apply filter_In. split.
    - unfold event_ids. apply in_seq. lia.
    - unfold survives. rewrite Hskip. reflexivity. }
  pose proof (event_loop_ok se ev Hev) as Hloop.
  set (l := filter (survives se ev) (event_ids ev)) in *.
  assert (exists p1, concat (map (fun j => frame_of (window1 se ev j)) l) = Ok p1)
    as (p1 & E1).
  { destruct l as [|i0 rest]; [destruct Hin|]. cbn [map].
    destruct (concat_cons (frame_of (window1 se ev i0))
                (map (fun j => frame_of (window1 se ev j)) rest)) as (p & E & _).
    eauto. }
  assert (exists p2, concat (map (fun j => frame_of (window2 se ev j)) l) = Ok p2)
    as (p2 & E2).
  { destruct l as [|i0 rest]; [destruct Hin|]. cbn [map].
    destruct (concat_cons (frame_of (window2 se ev i0))
                (map (fun j => frame_of (window2 se ev j)) rest)) as (p & E & _).
    eauto. }
  destruct (concat_frames _ _ _ E1) as (G1 & _).
  destruct (concat_frames _ _ _ E2) as (G2 & _).
  unfold skipped, skip_event in Hskip. apply orb_false_iff in Hskip.
  destruct Hskip as (Hw1 & Hw2).
  pose proof (window_sorted se (start_of ev i) (epoch_of ev i) Hs) as Hs1.
  pose proof (window_sorted se (epoch_of ev i) (end_of ev i) Hs) as Hs2.
  eexists. exists p1, p2. eexists. eexists.
  split; [exact Hloop|]. unfold after_events. cbn [phase1_dfs phase2_dfs app].
  split; [exact E1|]. split; [exact E2|]. split; [exact G1|]. split; [exact G2|].
  split; [apply (flat_map_segment (fun j => t_norm_values (index (window1 se ev j))));
          exact Hin|].
  split; [apply (flat_map_segment (fun j => t_norm_values (index (window2 se ev j))));
          exact Hin|].
  split; [apply normalize_spec_window; assumption|].
  split; [apply normalize_spec_window; assumption|].
  split; intros Hpos; apply normalize_unit; assumption.
Qed.

Lemma pooled_t_norm_in_unit_interval_witness :
  StronglySorted Z.le (index demo_table)
  /\ events_complete demo_events
  /\ skipped demo_table demo_events 0 = false
  /\ positive_duration (index (window1 demo_table demo_events 0))
  /\ Forall in_unit_interval (t_norm_values (index (window1 demo_table demo_events 0))).
Proof.
  assert (events_complete demo_events) as Hev by (unfold events_complete; simpl; lia).
  assert (0 < List.length (ev_starts demo_events))%nat as Hi by (simpl; lia).
  assert (skipped demo_table demo_events 0 = false) as Hskip by reflexivity.
  assert (positive_duration (index (window1 demo_table demo_events 0))) as Hpos
    by (unfold positive_duration; simpl; lia).
  destruct (pooled_t_norm_in_unit_interval demo_table demo_events 0
              demo_sorted Hev Hi Hskip)
    as (st & p1 & p2 & v1 & v2 & _ & _ & _ & _ & _ & _ & _ & _ & _ & H & _).
  split; [exact demo_sorted|]. split; [exact Hev|]. split; [exact Hskip|].
  split; [exact Hpos|]. exact (H Hpos).
Defined.



(** C8. The table is built with the time axis in a column labelled [t_norm]
    (line 267), which line 325 makes the index; the statistic columns are
    written into the same table in between.  For a column [t] and a statistic
    [norm] the label [t_norm] of line 322 overwrites the axis: the index of
    the returned table is the count column [2, 4, 2, 3], not the axis
    [-5/2, -1, 0, 3/2], and the table has no column left.  With the column
    labelled [v] the same call has the axis as its index and the counts in
    the column [v_norm]. *)
Theorem label_t_norm_replaces_axis :
  exists r r' axis,
    sean (DataTable demo_table_t) demo_events (3, 3)%Z (ColsList ["t"])
         (StatsDict norm_count) None None false = Ok r
    /\ t_index (SEAdat r) = [Fin 2; Fin 4; Fin 2; Fin 3]
    /\ t_columns (SEAdat r) = []
    /\ time_axis (3, 3)%Z = Ok axis
    /\ map Qred axis = [-5 # 2; -1; 0; 3 # 2]
    /\ sean (DataTable demo_table) demo_events (3, 3)%Z (ColsList ["v"])
            (StatsDict norm_count) None None false = Ok r'
    /\ t_index (SEAdat r') = map Fin axis
    /\ t_columns (SEAdat r') = [("v_norm", [Fin 2; Fin 4; Fin 2; Fin 3])].
Proof.
  eexists. eexists. eexists.
  split; [vm_compute; reflexivity|]. split; [reflexivity|]. split; [reflexivity|].
  split; [vm_compute; reflexivity|]. split; [reflexivity|].
  split; [vm_compute; reflexivity|]. split; reflexivity.
Qed.

(** C9. On an ordered index, when no event has data in both of its windows
    (in particular when there is no event), the call raises: nothing was
    collected, and [pd.concat] of no frame is an error.  No table is
    returned. *)
Theorem no_surviving_event_raises (data : data_arg) (ev : events_arg) (xd : Z * Z)
    (cols : cols_arg) (seastats : seastats_arg) (y_col : option string)
    (yd : option (list Q)) (return_data : bool) :
  StronglySorted Z.le (data_index data) ->
  Forall (fun i => has_data (data_index data) ev i = false) (event_ids ev) ->
  raises (sean data ev xd cols seastats y_col yd return_data)
  /\ forall se cols' y' st,
       select_data data cols y_col yd = Ok (se, cols', y') ->
       event_loop se ev = Ok st ->
       concat (phase1_dfs st) = Raise (ValueError "No objects to concatenate").
Proof.
  intros _ Hnone.
  assert (forall se cols' y' st,
            select_data data cols y_col yd = Ok (se, cols', y') ->
            event_loop se ev = Ok st -> phase1_dfs st = []) as Hempty.
  { intros se cols' y' st Hsel Hloop.
    apply select_data_index in Hsel. rewrite <- Hsel in Hnone.
    apply (for_each_no_frames se ev _ Hnone (mkLoop [] [] []) st); [reflexivity|].
    exact Hloop. }
  split.
  - unfold sean.
    apply bind_raises_after; intros x1_spacing _.
    apply bind_raises_after; intros x2_spacing _.
    apply bind_raises_after; intros x1_bin _.
    apply bind_raises_after; intros x2_bin _.
    apply bind_raises_after; intros [[se cols'] y'] Hsel.
    apply bind_raises_after; intros truthy _.
    apply bind_raises_after; intros st Hloop.
    rewrite (Hempty se cols' y' st Hsel Hloop).
    eexists. reflexivity.
  - intros se cols' y' st Hsel Hloop.
    rewrite (Hempty se cols' y' st Hsel Hloop). reflexivity.
Qed.

Lemma no_surviving_event_raises_witness :
  StronglySorted Z.le (data_index (DataTable demo_table))
  /\ Forall (fun i => has_data (data_index (DataTable demo_table))
                               (mkEvents [10] [12] [14])%Z i = false)
            (event_ids (mkEvents [10] [12] [14])%Z)
  /\ raises (sean (DataTable demo_table) (mkEvents [10] [12] [14])%Z (3, 3)%Z
                  ColsFalse StatsFalse None None false).
Proof.
  assert (Forall (fun i => has_data (data_index (DataTable demo_table))
                                    (mkEvents [10] [12] [14])%Z i = false)
                 (event_ids (mkEvents [10] [12] [14])%Z)) as H.
  { constructor; [reflexivity | constructor]. }
  split; [exact demo_sorted|]. split; [exact H|].
  exact (proj1 (no_surviving_event_raises (DataTable demo_table)
                  (mkEvents [10] [12] [14])%Z (3, 3)%Z ColsFalse StatsFalse
                  None None false demo_sorted H)).
Defined.

(** C10, as the code has it.  A [seastats] that is a list or a tuple is
    ignored: the statistics in use are the five defaults, [mean] computed by
    [np.nanmean], [median] by [np.nanmedian], [lowq] and [upq] by the 25th
    and the 75th [np.nanpercentile], and [cnt] the count; the call is the
    call with [seastats=False], and the metadata of its result reports that
    set. *)
Theorem non_dict_seastats_ignored (data : data_arg) (ev : events_arg) (xd : Z * Z)
    (cols : cols_arg) (l : list statistic) (y_col : option string)
    (yd : option (list Q)) (return_data : bool) :
  resolve_stats (StatsOther l) = default_stats
  /\ map fst default_stats = ["mean"; "median"; "lowq"; "upq"; "cnt"]
  /\ (forall v,
        map (fun s : string * statistic => reduce (snd s) v) default_stats
        = [Np.nanmean v; Np.nanmedian v; Np.nanpercentile v 25; Np.nanpercentile v 75;
           Fin (Np.count v)])
  /\ sean data ev xd cols (StatsOther l) y_col yd return_data
     = sean data ev xd cols StatsFalse y_col yd return_data
  /\ forall r,
       sean data ev xd cols (StatsOther l) y_col yd return_data = Ok r ->
       map fst (stats (sea_meta r)) = ["mean"; "median"; "lowq"; "upq"; "cnt"]
       /\ forall v,
            map (fun s : string * statistic => reduce (snd s) v) (stats (sea_meta r))
            = [Np.nanmean v; Np.nanmedian v; Np.nanpercentile v 25;
               Np.nanpercentile v 75; Fin (Np.count v)].
Proof.
  split; [reflexivity|]. split; [reflexivity|]. split; [reflexivity|]. split.
  - unfold sean. do 5 (apply bind_ext; intros ?). destruct l; reflexivity.
  - intros r H. apply sean_inv in H.
    destruct H as (se & cols' & y' & g & _ & _ & ->). split; reflexivity.
Qed.

Lemma non_dict_seastats_ignored_witness :
  exists r,
    sean (DataTable demo_table) demo_events (3, 3)%Z (ColsList ["v"])
         (StatsOther [StatCallable Np.nanmean; StatCount]) None None false = Ok r
    /\ map fst (stats (sea_meta r)) = ["mean"; "median"; "lowq"; "upq"; "cnt"].
Proof.
  destruct (sean_ok demo_table demo_events (3, 3)%Z (ColsList ["v"])
              (StatsOther [StatCallable Np.nanmean; StatCount]) None None false
              demo_valid_1d) as (r & _ & Hr & _).
  { intros a b rest. discriminate. }
  exists r. split; [exact Hr|].
  destruct (non_dict_seastats_ignored (DataTable demo_table) demo_events
              (3, 3)%Z (ColsList ["v"])
              [StatCallable Np.nanmean; StatCount] None None false)
    as (_ & _ & _ & _ & H).
  exact (proj1 (H r Hr)).
Defined.

(** C10, as stated, fails: line 176 takes the truth value of [seastats]
    before it tests for a dict, and a NumPy array of two reducers has none.
    The call raises where the call with [seastats=False] returns. *)
Lemma array_seastats_raises :
  sean (DataTable demo_table) demo_events (3, 3)%Z (ColsList ["v"])
       (StatsArray (StatCallable Np.nanmean) StatCount []) None None false
  = Raise (ValueError "The truth value of an array with more than one element is ambiguous. Use a.any() or a.all()")
  /\ exists r,
       sean (DataTable demo_table) demo_events (3, 3)%Z (ColsList ["v"])
            StatsFalse None None false = Ok r.
Proof.
  split; [vm_compute; reflexivity|].
  destruct (sean_ok demo_table demo_events (3, 3)%Z (ColsList ["v"]) StatsFalse
              None None false demo_valid_1d stats_false_plain) as (r & _ & Hr & _).
  exists r. exact Hr.
Qed.

(** * Further properties *)

(** X1. A call on a series raises: [cols] is the string ["data"], and the
    loops over [cols] run over its characters, none of which is a column. *)
Lemma series_call_raises (s : Series) (ev : events_arg) (xd : Z * Z) (cols : cols_arg)
    (seastats : seastats_arg) (y_col : option string) (yd : option (list Q))
    (return_data : bool) :
  raises (sean (DataSeries s) ev xd cols seastats y_col yd return_data).
Proof.
  unfold sean.
  apply bind_raises_after; intros x1_spacing _.
  apply bind_raises_after; intros x2_spacing _.
  apply bind_raises_after; intros x1_bin _.
  apply bind_raises_after; intros x2_bin _.
  cbn [select_data bind].
  apply bind_raises_after; intros truthy _.
  apply bind_raises_after; intros st Hloop.
  apply bind_raises_after; intros p1 Hp1.
  apply bind_raises_after; intros p2 _.
  apply bind_raises_after; intros x1_edges _.
  apply bind_raises_after; intros x2_edges _.
  apply bind_raises_after; intros sea2d _.
  apply bind_raises_after; intros t_norm _.
  apply bind_raises_after; intros tbl _.
  apply bind_raise.
  apply (series_frames s ev _ (mkLoop [] [] []) st) in Hloop; [|constructor].
  destruct (phase1_dfs st) as [|f frames]; [discriminate|].
  inversion Hloop as [|? ? Hf _]; subst.
  destruct (concat_cons f frames) as (p & E & Hn & _).
  rewrite E in Hp1. injection Hp1 as <-.
  exists (KeyError (KeyLabel "d")). cbn [cols_items chars mapM].
  unfold getitem at 1. rewrite lookup_none; [reflexivity|].
  fold (names p). rewrite Hn, Hf. simpl. intros [H | [H | []]]; discriminate.
Qed.

(** X2. An edge count below 2 never gives a table.  For the first phase: 0
    cannot be divided by, a negative count is refused by [np.linspace], and
    with 1 there is no bin whose maximum [x1bins.max()] could be taken.  For
    the second phase: 0 and a negative count fail in the same way, and with 1
    the single edge is refused when the first statistic is binned. *)
Theorem edge_count_below_two_raises (data : data_arg) (ev : events_arg)
    (xd : Z * Z) (cols : cols_arg) (seastats : seastats_arg) (y_col : option string)
    (yd : option (list Q)) (return_data : bool) :
  (fst xd < 2 \/ snd xd < 2)%Z ->
  raises (sean data ev xd cols seastats y_col yd return_data).
Proof.
  destruct xd as [n1 n2]. simpl fst; simpl snd. intros Hn. unfold sean.
  simpl fst; simpl snd.
  apply bind_raises_after; intros x1_spacing _.
  apply bind_raises_after; intros x2_spacing _.
  apply bind_raises_after; intros x1_bin Hb1.
  apply bind_raises_after; intros x2_bin Hb2.
  apply np_int64_inv in Hb1, Hb2. destruct Hb1 as (-> & _). destruct Hb2 as (-> & _).
  apply bind_raises_after; intros [[se cols'] y'] _.
  apply bind_raises_after; intros truthy _.
  apply bind_raises_after; intros st _.
  apply bind_raises_after; intros p1 _.
  apply bind_raises_after; intros p2 _.
  apply bind_raises_after; intros x1_edges He1.
  apply bind_raises_after; intros x2_edges He2.
  apply bind_raises_after; intros sea2d _.
  destruct Hn as [Hn | Hn].
  - apply bind_raise.
    unfold Np.linspace in He1.
    destruct (n1 <? 0)%Z eqn:E1; [discriminate|]. apply Z.ltb_ge in E1.
    destruct (n1 =? 1)%Z eqn:E2.
    + injection He1 as <-. eexists. reflexivity.
    + apply Z.eqb_neq in E2. assert (n1 = 0%Z) as -> by lia.
      injection He1 as <-. eexists. reflexivity.
  - assert (need_two_edges x2_edges
            = Raise (ValueError "zero-size array to reduction operation minimum which has no identity"))
      as Hfew.
    { unfold Np.linspace in He2.
      destruct (n2 <? 0)%Z eqn:E1; [discriminate|]. apply Z.ltb_ge in E1.
      destruct (n2 =? 1)%Z eqn:E2.
      - injection He2 as <-. reflexivity.
      - apply Z.eqb_neq in E2. assert (n2 = 0%Z) as -> by lia.
        injection He2 as <-. reflexivity. }
    apply bind_raises_after; intros t_norm _.
    apply bind_raises_after; intros tbl _.
    apply bind_raises_after; intros ph1list _.
    apply bind_raises_after; intros ph2list _.
    apply bind_raise.
    assert (exists s l, resolve_stats seastats = s :: l) as (s & l & ->).
    { destruct seastats as [|[|kv d]|o|a b rest]; cbn [resolve_stats]; unfold default_stats;
        do 2 eexists; reflexivity. }
    cbn [fold_stats]. apply bind_raise.
    destruct sea2d as [[y yr]|].
    + unfold stat_2d.
      apply bind_raises_after; intros t1 _.
      apply bind_raises_after; intros y1 _.
      apply bind_raises_after; intros p1stat _.
      apply bind_raises_after; intros t2 _.
      apply bind_raises_after; intros y2 _.
      apply bind_raise. unfold binned_statistic_2d. rewrite Hfew.
      eexists. reflexivity.
    + unfold stat_1d.
      apply bind_raises_after; intros t1 _.
      apply bind_raises_after; intros p1stat _.
      apply bind_raises_after; intros t2 _.
      apply bind_raise. unfold binned_statistic. rewrite Hfew.
      eexists. reflexivity.
Qed.

Lemma edge_count_below_two_raises_witness :
  raises (sean (DataTable demo_table) demo_events (1, 3)%Z (ColsList ["v"])
               StatsFalse None None false)
  /\ raises (sean (DataTable demo_table) demo_events (3, 1)%Z (ColsList ["v"])
                  StatsFalse None None false).
Proof.
  split.
  - apply (edge_count_below_two_raises (DataTable demo_table) demo_events (1, 3)%Z
             (ColsList ["v"]) StatsFalse None None false).
    left. simpl. lia.
  - apply (edge_count_below_two_raises (DataTable demo_table) demo_events (3, 1)%Z
             (ColsList ["v"]) StatsFalse None None false).
    right. simpl. lia.
Defined.

(** X3. When [cols] (with [y_col], for a 2D analysis) names a label that is
    not a column of the table, [data[col_dat]] raises [KeyError] before any
    event is read.  When none of the requested labels is a column the error
    reports the whole request; otherwise it reports the labels that are not
    columns, each once, in the order of their first place in the request. *)
Theorem missing_column_raises (df : DataFrame) (ev : events_arg) (xd : Z * Z)
    (cols : cols_arg) (seastats : seastats_arg) (y_col : option string)
    (yd : option (list Q)) (return_data : bool) :
  (fst xd <> 0 /\ - 2 ^ 63 <= fst xd < 2 ^ 63)%Z ->
  (snd xd <> 0 /\ - 2 ^ 63 <= snd xd < 2 ^ 63)%Z ->
  cols_truthy cols = true ->
  ~ Forall (fun c => In c (names df)) (col_dat cols y_col yd) ->
  (Forall (fun c => ~ In c (names df)) (col_dat cols y_col yd) ->
   sean (DataTable df) ev xd cols seastats y_col yd return_data
   = Raise (KeyError (KeyNoneOf (col_dat cols y_col yd))))
  /\ (~ Forall (fun c => ~ In c (names df)) (col_dat cols y_col yd) ->
      exists not_found,
        sean (DataTable df) ev xd cols seastats y_col yd return_data
        = Raise (KeyError (KeyNotInIndex not_found))
        /\ not_found
           = unique (filter (fun c => negb (has_column df c)) (col_dat cols y_col yd))
        /\ NoDup not_found
        /\ forall c, In c not_found <-> In c (col_dat cols y_col yd) /\ ~ In c (names df)).
Proof.
  intros (H1 & R1) (H2 & R2) Hc Hmiss.
  assert (sean (DataTable df) ev xd cols seastats y_col yd return_data
          = Raise (KeyError (missing_report df (col_dat cols y_col yd)))) as Hcall.
  { unfold sean. rewrite (py_inv_nonzero _ H1), (py_inv_nonzero _ H2). cbn [bind].
    rewrite (np_int64_ok _ R1), (np_int64_ok _ R2). cbn [bind].
    unfold select_data. rewrite Hc. fold (col_dat cols y_col yd).
    rewrite (getitems_missing df _ (missing_labels_some df _ Hmiss)). reflexivity. }
  destruct (missing_report_cases df (col_dat cols y_col yd)) as (Hnone & Hsome).
  split.
  - intros Hall. rewrite Hcall, (Hnone Hall). reflexivity.
  - intros Hnot. exists (unique (missing_labels df (col_dat cols y_col yd))).
    split; [rewrite Hcall, (Hsome Hnot); reflexivity|].
    split; [reflexivity|]. split; [apply unique_nodup|].
    intros c. rewrite unique_in. apply missing_labels_spec.
Qed.

Lemma missing_column_raises_witness :
  sean (DataTable demo_table) demo_events (3, 3)%Z (ColsList ["w"; "z"])
       StatsFalse None None false
  = Raise (KeyError (KeyNoneOf ["w"; "z"]))
  /\ sean (DataTable demo_table) demo_events (3, 3)%Z (ColsList ["w"; "v"; "z"; "w"])
          StatsFalse None None false
     = Raise (KeyError (KeyNotInIndex ["w"; "z"])).
Proof.
  assert (3 <> 0 /\ - 2 ^ 63 <= 3 < 2 ^ 63)%Z as Hn by (split; [discriminate | lia]).
  split.
  - apply (missing_column_raises demo_table demo_events (3, 3)%Z (ColsList ["w"; "z"])
             StatsFalse None None false Hn Hn eq_refl).
    + intros H. inversion H as [|? ? Hw _]; subst.
      simpl in Hw. destruct Hw as [Hw | [Hw | []]]; discriminate.
    + repeat constructor; simpl; intros [H | [H | []]]; discriminate.
  - destruct (proj2 (missing_column_raises demo_table demo_events (3, 3)%Z
                       (ColsList ["w"; "v"; "z"; "w"]) StatsFalse None None false
                       Hn Hn eq_refl
                       ltac:(intros H; inversion H as [|? ? Hw _]; subst; simpl in Hw;
                             destruct Hw as [Hw | [Hw | []]]; discriminate)))
      as (not_found & Hcall & -> & _).
    + intros H. inversion H as [|? ? _ H']; subst. inversion H' as [|? ? Hv _]; subst.
      apply Hv. simpl. left. reflexivity.
    + exact Hcall.
Defined.

(** X4. On an ordered index, when [epochs] or [ends] is shorter than
    [starts], the loop over the events raises [IndexError] at the first event
    that lacks an entry; so does the call, when its edge counts are not 0 and
    fit in 64 bits, the selection of the columns succeeds and [seastats] has a
    truth value. *)
Theorem incomplete_events_raise (data : data_arg) (ev : events_arg) (xd : Z * Z)
    (cols : cols_arg) (seastats : seastats_arg) (y_col : option string)
    (yd : option (list Q)) (return_data : bool) :
  ~ events_complete ev ->
  (forall se, StronglySorted Z.le (index se) -> event_loop se ev = Raise IndexError)
  /\ ((fst xd <> 0 /\ - 2 ^ 63 <= fst xd < 2 ^ 63)%Z ->
      (snd xd <> 0 /\ - 2 ^ 63 <= snd xd < 2 ^ 63)%Z ->
      StronglySorted Z.le (data_index data) ->
      (forall a b rest, seastats <> StatsArray a b rest) ->
      forall sel, select_data data cols y_col yd = Ok sel ->
        sean data ev xd cols seastats y_col yd return_data = Raise IndexError).
Proof.
  intros Hinc.
  assert (forall se, event_loop se ev = Raise IndexError) as Hloop.
  { intros se. unfold event_loop. apply for_each_index_error; [reflexivity|].
    unfold events_complete in Hinc.
    exists (Nat.min (List.length (ev_epochs ev)) (List.length (ev_ends ev))).
    split; [lia|]. unfold in_range. lia. }
  split; [intros se _; apply Hloop|].
  intros (H1 & R1) (H2 & R2) _ Hplain [[se cols'] y'] Hsel. unfold sean.
  rewrite (py_inv_nonzero _ H1), (py_inv_nonzero _ H2). cbn [bind].
  rewrite (np_int64_ok _ R1), (np_int64_ok _ R2). cbn [bind].
  rewrite Hsel. cbn [bind].
  destruct (stats_truth_ok seastats Hplain) as (t & ->). cbn [bind].
  rewrite Hloop. reflexivity.
Qed.

Lemma incomplete_events_raise_witness :
  ~ events_complete (mkEvents [0; 3] [2] [4; 6])%Z
  /\ event_loop demo_table (mkEvents [0; 3] [2] [4; 6])%Z = Raise IndexError
  /\ sean (DataTable demo_table) (mkEvents [0; 3] [2] [4; 6])%Z (3, 3)%Z
          (ColsList ["v"]) StatsFalse None None false = Raise IndexError.
Proof.
  assert (~ events_complete (mkEvents [0; 3] [2] [4; 6])%Z) as H
    by (unfold events_complete; simpl; lia).
  assert (3 <> 0 /\ - 2 ^ 63 <= 3 < 2 ^ 63)%Z as Hn by (split; [discriminate | lia]).
  destruct (incomplete_events_raise (DataTable demo_table)
              (mkEvents [0; 3] [2] [4; 6])%Z (3, 3)%Z (ColsList ["v"])
              StatsFalse None None false H) as (Hloop & Hcall).
  split; [exact H|]. split; [exact (Hloop demo_table demo_sorted)|].
  eapply (Hcall Hn Hn demo_sorted stats_false_plain). reflexivity.
Defined.

(** X5. A 2D analysis whose [y_dimensions] does not hold exactly three
    values, or whose spacing is 0, raises. *)
Theorem malformed_y_dimensions_raise (data : data_arg) (ev : events_arg) (xd : Z * Z)
    (cols : cols_arg) (seastats : seastats_arg) (y_col : option string)
    (l : list Q) (return_data : bool) :
  is_series data || cols_truthy cols = true ->
  y_col_truthy y_col = true ->
  l <> [] ->
  List.length l <> 3%nat
  \/ (exists ymin ymax y_spacing, l = [ymin; ymax; y_spacing] /\ y_spacing == 0) ->
  raises (sean data ev xd cols seastats y_col (Some l) return_data).
Proof.
  intros Hmode Hy Hl Hbad. unfold sean.
  apply bind_raises_after; intros x1_spacing _.
  apply bind_raises_after; intros x2_spacing _.
  apply bind_raises_after; intros x1_bin _.
  apply bind_raises_after; intros x2_bin _.
  apply bind_raises_after; intros [[se cols'] y'] Hsel.
  apply bind_raises_after; intros truthy _.
  apply bind_raises_after; intros st _.
  apply bind_raises_after; intros p1 _.
  apply bind_raises_after; intros p2 _.
  apply bind_raises_after; intros x1_edges _.
  apply bind_raises_after; intros x2_edges _.
  apply bind_raise.
  apply select_data_y in Hsel. rewrite Hmode in Hsel. subst y'.
  unfold y_grid. rewrite Hy.
  assert (y_dimensions_truthy (Some l) = true) as -> by (destruct l; [congruence | reflexivity]).
  cbn [andb]. destruct y_col as [y|]; [|discriminate].
  destruct Hbad as [Hlen | (ymin & ymax & sp & -> & Hsp)].
  - destruct l as [|a [|b [|c [|d l]]]]; simpl in Hlen; try congruence;
      eexists; reflexivity.
  - unfold Np.arange.
    assert (Qis_zero sp = true) as ->.
    { unfold Qis_zero. apply Z.eqb_eq. unfold Qeq in Hsp. simpl in Hsp. lia. }
    eexists. reflexivity.
Qed.

Lemma malformed_y_dimensions_raise_witness :
  raises (sean (DataTable demo_table) demo_events (3, 3)%Z (ColsList ["v"])
               StatsFalse (Some "L") (Some [0; 10]) false)
  /\ raises (sean (DataTable demo_table) demo_events (3, 3)%Z (ColsList ["v"])
                  StatsFalse (Some "L") (Some [0; 10; 0]) false).
Proof.
  split.
  - apply (malformed_y_dimensions_raise (DataTable demo_table) demo_events (3, 3)%Z
             (ColsList ["v"]) StatsFalse (Some "L") [0; 10] false);
      [reflexivity | reflexivity | discriminate | left; simpl; lia].
  - apply (malformed_y_dimensions_raise (DataTable demo_table) demo_events (3, 3)%Z
             (ColsList ["v"]) StatsFalse (Some "L") [0; 10; 0] false);
      [reflexivity | reflexivity | discriminate |].
    right. exists 0, 10, 0. split; reflexivity.
Defined.

(** X6. On an ordered index an event whose epochs are out of order, the
    start after the epoch or the epoch after the end, has an empty window: the
    loop body skips it, prints the line [There is no data for event <i>] and
    leaves the frames collected so far as they are, without raising. *)
Theorem reversed_event_skipped (se : DataFrame) (ev : events_arg) (i : nat)
    (st : loop_state) :
  StronglySorted Z.le (index se) ->
  in_range ev i ->
  (epoch_of ev i < start_of ev i \/ end_of ev i < epoch_of ev i)%Z ->
  skipped se ev i = true
  /\ loop_body se ev i st
     = Ok (mkLoop (phase1_dfs st) (phase2_dfs st)
                  (stdout st ++ [("There is no data for event " ++ str_nat i)%string])).
Proof.
  intros Hs Hi Hrev.
  assert (forall lo hi, (hi < lo)%Z -> labels_between (index se) lo hi = []) as Hnone.
  { intros lo hi Hlt. rewrite labels_between_filter by exact Hs.
    generalize (index se). intros idx0.
    induction idx0 as [|t idx IH]; [reflexivity|]. simpl.
    assert (between lo hi t = false) as ->; [|exact IH].
    unfold between. apply andb_false_iff.
    destruct (Z.le_gt_cases lo t); [right | left]; apply Z.leb_gt; lia. }
  assert (skipped se ev i = true) as Hskip.
  { apply no_data_skipped. unfold has_data.
    destruct Hrev as [H | H]; rewrite (Hnone _ _ H); [reflexivity|].
    destruct (labels_between _ _ _); reflexivity. }
  split; [exact Hskip|].
  change ("There is no data for event " ++ str_nat i)%string with (no_data_message i).
  apply loop_body_skipped; assumption.
Qed.

Lemma reversed_event_skipped_witness :
  StronglySorted Z.le (index demo_table)
  /\ in_range reversed_events 1
  /\ skipped demo_table reversed_events 1 = true
  /\ loop_body demo_table reversed_events 1 (mkLoop [] [] [])
     = Ok (mkLoop [] [] ["There is no data for event 1"]).
Proof.
  assert (in_range reversed_events 1) as Hi by (unfold in_range; simpl; lia).
  split; [exact demo_sorted|]. split; [exact Hi|].
  apply (reversed_event_skipped demo_table reversed_events 1 (mkLoop [] [] [])
           demo_sorted Hi).
  left. unfold epoch_of, start_of. simpl. lia.
Defined.

(** X7. The metadata of a call on a table: [sea_cols] is [cols] as a list,
    or all columns of the table when [cols] is omitted; [stats] is the
    statistic set in use; [y_meta] is [False] for a 1D analysis and holds the
    three values of [y_dimensions] for a 2D one. *)
Theorem returned_metadata (df : DataFrame) (ev : events_arg) (xd : Z * Z)
    (cols : cols_arg) (seastats : seastats_arg) (y_col : option string)
    (yd : option (list Q)) (return_data : bool) (r : sea_return) :
  sean (DataTable df) ev xd cols seastats y_col yd return_data = Ok r ->
  sea_cols (sea_meta r) = (if cols_truthy cols then cols_as_list cols else names df)
  /\ stats (sea_meta r) = resolve_stats seastats
  /\ (two_d cols y_col yd = false -> y_meta (sea_meta r) = None)
  /\ (two_d cols y_col yd = true ->
      exists ymin ymax y_spacing edges,
        yd = Some [ymin; ymax; y_spacing]
        /\ y_meta (sea_meta r) = Some (mkY ymin ymax y_spacing edges)).
Proof.
  intros H. apply sean_steps in H.
  destruct H as (s1 & s2 & se & cols' & y' & st & p1 & p2 & e1 & e2 & g & ax & ph1
                 & ph2 & tbl & table & _ & _ & Hsel & _ & _ & _ & _ & _ & Hg & _ & _
                 & _ & _ & _ & ->).
  cbn [sea_meta sea_cols stats y_meta].
  pose proof (select_data_y _ _ _ _ _ _ _ Hsel) as Hy. simpl is_series in Hy.
  cbn [orb] in Hy.
  assert (cols_as_list cols'
          = if cols_truthy cols then cols_as_list cols else names df) as Hc.
  { unfold select_data in Hsel. destruct (cols_truthy cols).
    - apply bind_ok in Hsel. destruct Hsel as (x & _ & Hsel).
      injection Hsel as _ <- _. reflexivity.
    - injection Hsel as _ <- _. reflexivity. }
  split; [exact Hc|]. split; [reflexivity|].
  unfold two_d. unfold y_grid in Hg. subst y'.
  destruct (cols_truthy cols); cbn [andb].
  - destruct (y_col_truthy y_col && y_dimensions_truthy yd).
    + split; [discriminate|]. intros _.
      destruct y_col as [y|]; [|discriminate].
      destruct yd as [[|ymin [|ymax [|sp [|]]]]|]; try discriminate.
      apply bind_ok in Hg. destruct Hg as (edges & He & Hg). injection Hg as <-.
      exists ymin, ymax, sp, edges. split; reflexivity.
    + injection Hg as <-. split; [reflexivity | discriminate].
  - simpl in Hg. injection Hg as <-. split; [reflexivity | discriminate].
Qed.

Lemma returned_metadata_witness :
  exists r,
    sean (DataTable demo_table) demo_events (3, 3)%Z ColsFalse (StatsDict count_only)
         None None false = Ok r
    /\ sea_cols (sea_meta r) = ["v"; "L"]
    /\ stats (sea_meta r) = count_only
    /\ y_meta (sea_meta r) = None.
Proof.
  eexists. split; [vm_compute; reflexivity|].
  destruct (returned_metadata demo_table demo_events (3, 3)%Z ColsFalse
              (StatsDict count_only) None None false _ eq_refl) as (H1 & H2 & H3 & _).
  split; [exact H1|]. split; [exact H2 | exact (H3 eq_refl)].
Defined.

(** X8. What [return_data] hands back on an ordered index.  The pooled frame
    of a phase holds,
    in event order, the rows of that phase's windows of the events
    that are not skipped: its index is the concatenation of their labels, each data
    column the concatenation of that column over the windows, and [t_norm]
    the concatenation of their normalized times. *)
Theorem pooled_frames_content (data : data_arg) (ev : events_arg) (xd : Z * Z)
    (cols : cols_arg) (seastats : seastats_arg) (y_col : option string)
    (yd : option (list Q)) (r : sea_return) :
  StronglySorted Z.le (data_index data) ->
  sean data ev xd cols seastats y_col yd true = Ok r ->
  exists se cols' y' p1 p2,
    select_data data cols y_col yd = Ok (se, cols', y')
    /\ pooled r = Some (p1, p2)
    /\ index p1 = flat_map (fun i => index (window1 se ev i)) (survivors se ev)
    /\ index p2 = flat_map (fun i => index (window2 se ev i)) (survivors se ev)
    /\ getitem p1 "t_norm"
       = Ok (flat_map (fun i => t_norm_values (index (window1 se ev i))) (survivors se ev))
    /\ getitem p2 "t_norm"
       = Ok (flat_map (fun i => t_norm_values (index (window2 se ev i))) (survivors se ev))
    /\ (forall c, In c (names se) -> c <> "t_norm" ->
          getitem p1 c
          = Ok (flat_map (fun i => column_or_nan c (window1 se ev i)) (survivors se ev))
          /\ getitem p2 c
             = Ok (flat_map (fun i => column_or_nan c (window2 se ev i)) (survivors se ev))).
Proof.
  intros _ H. apply sean_steps in H.
  destruct H as (s1 & s2 & se & cols' & y' & st & p1 & p2 & e1 & e2 & g & ax & ph1
                 & ph2 & tbl & table & _ & _ & Hsel & Hloop & Hp1 & Hp2 & _ & _ & _
                 & _ & _ & _ & _ & _ & ->).
  apply event_loop_complete in Hloop. destruct Hloop as (_ & ->).
  unfold after_events in Hp1, Hp2. cbn [phase1_dfs phase2_dfs app] in Hp1, Hp2.
  fold (survivors se ev) in Hp1, Hp2.
  exists se, cols', y', p1, p2. split; [exact Hsel|]. split; [reflexivity|].
  destruct (concat_frames _ _ _ Hp1) as (T1 & I1).
  destruct (concat_frames _ _ _ Hp2) as (T2 & I2).
  split; [exact I1|]. split; [exact I2|]. split; [exact T1|]. split; [exact T2|].
  intros c Hc Hne. split.
  - apply (concat_column (window1 se ev) (names se)); auto.
    intros i. unfold window1, phase1_of. apply loc_names.
  - apply (concat_column (window2 se ev) (names se)); auto.
    intros i. unfold window2, phase2_of. apply loc_names.
Qed.

Lemma pooled_frames_content_witness :
  exists r p1 p2,
    sean (DataTable demo_table) demo_events (3, 3)%Z (ColsList ["v"])
         (StatsDict count_only) None None true = Ok r
    /\ pooled r = Some (p1, p2)
    /\ index p1 = [0; 1; 2; 3; 4; 5]%Z
    /\ index p2 = [2; 3; 4; 5; 6]%Z
    /\ getitem p1 "v" = Ok [Fin 10; Fin 11; Fin 12; Fin 13; Fin 14; Fin 15].
Proof.
  destruct (sean (DataTable demo_table) demo_events (3, 3)%Z (ColsList ["v"])
              (StatsDict count_only) None None true) as [r|e] eqn:E;
    [|vm_compute in E; discriminate].
  destruct (pooled_frames_content (DataTable demo_table) _ _ _ _ _ _ r demo_sorted E)
    as (se & cols' & y' & p1 & p2 & Hsel & Hp & I1 & I2 & _ & _ & Hc).
  vm_compute in Hsel. injection Hsel as <- _ _.
  exists r, p1, p2. split; [reflexivity|]. split; [exact Hp|].
  split; [rewrite I1; reflexivity|]. split; [rewrite I2; reflexivity|].
  destruct (Hc "v") as (H1 & _); [left; reflexivity | discriminate|].
  rewrite H1. reflexivity.
Defined.

(** X9. On an ordered index, a call that returns has printed the line
    [There is no data for event <i>] once for each event [i] that lacks rows
    in one of its windows, in event order, and nothing else. *)
Theorem printed_messages (data : data_arg) (ev : events_arg) (xd : Z * Z)
    (cols : cols_arg) (seastats : seastats_arg) (y_col : option string)
    (yd : option (list Q)) (return_data : bool) (r : sea_return) :
  StronglySorted Z.le (data_index data) ->
  sean data ev xd cols seastats y_col yd return_data = Ok r ->
  printed r
  = map (fun i => ("There is no data for event " ++ str_nat i)%string)
        (filter (fun i =>
                   match labels_between (data_index data) (start_of ev i) (epoch_of ev i),
                         labels_between (data_index data) (epoch_of ev i) (end_of ev i)
                   with
                   | _ :: _, _ :: _ => false
                   | _, _ => true
                   end)
                (seq 0 (List.length (ev_starts ev)))).
Proof.
  intros _ H. rewrite (printed_of_return _ _ _ _ _ _ _ _ r H).
  unfold event_ids. apply f_equal2; [reflexivity|]. apply filter_ext. intros i.
  unfold has_data.
  destruct (labels_between _ (start_of ev i) _); [reflexivity|].
  destruct (labels_between _ (epoch_of ev i) _); reflexivity.
Qed.

Lemma printed_messages_witness :
  exists r,
    sean (DataTable demo_table) gap_events (3, 3)%Z ColsFalse (StatsDict count_only)
         None None false = Ok r
    /\ printed r = ["There is no data for event 1"].
Proof.
  destruct (sean (DataTable demo_table) gap_events (3, 3)%Z ColsFalse
              (StatsDict count_only) None None false) as [r|e] eqn:E;
    [|vm_compute in E; discriminate].
  exists r. split; [reflexivity|].
  rewrite (printed_messages (DataTable demo_table) _ _ _ _ _ _ _ r demo_sorted E).
  reflexivity.
Defined.

(** X10. [return_data] changes nothing but the pooled frames: the call
    without it raises when the call with it does, and else returns the same
    table, metadata and messages. *)
Theorem return_data_only_adds_pooled (data : data_arg) (ev : events_arg) (xd : Z * Z)
    (cols : cols_arg) (seastats : seastats_arg) (y_col : option string)
    (yd : option (list Q)) :
  sean data ev xd cols seastats y_col yd false
  = match sean data ev xd cols seastats y_col yd true with
    | Ok r => Ok (without_pooled r)
    | Raise e => Raise e
    end
  /\ forall r, sean data ev xd cols seastats y_col yd true = Ok r ->
               pooled r <> None.
Proof.
  split.
  - unfold sean. do 4 (apply bind_map; intros ?).
    apply bind_map; intros [[se cols'] y'].
    do 13 (apply bind_map; intros ?). reflexivity.
  - intros r H. apply sean_steps in H.
    destruct H as (s1 & s2 & se & cols' & y' & st & p1 & p2 & e1 & e2 & g & ax & ph1
                   & ph2 & tbl & table & _ & _ & _ & _ & _ & _ & _ & _ & _
                   & _ & _ & _ & _ & _ & ->).
    discriminate.
Qed.

Lemma return_data_only_adds_pooled_witness :
  sean (DataTable demo_table) demo_events (3, 3)%Z (ColsList ["v"])
       (StatsDict count_only) None None false
  = Ok (without_pooled demo_return_1d)
  /\ pooled demo_return_1d <> None.
Proof.
  assert (sean (DataTable demo_table) demo_events (3, 3)%Z (ColsList ["v"])
               (StatsDict count_only) None None true = Ok demo_return_1d) as E
    by (vm_compute; reflexivity).
  destruct (return_data_only_adds_pooled (DataTable demo_table) demo_events
              (3, 3)%Z (ColsList ["v"]) (StatsDict count_only) None None)
    as [H1 H2].
  split.
  - rewrite H1, E. reflexivity.
  - exact (H2 demo_return_1d E).
Defined.

(** X11. The columns of a 1D analysis.  When the labels
    [<column>_<statistic>] are distinct and none is [t_norm], the returned
    table has exactly one column for each of them, statistic by statistic
    and within a statistic in the order of the analysed columns. *)
Theorem table_of_1d_analysis (df : DataFrame) (ev : events_arg) (xd : Z * Z)
    (cols : cols_arg) (seastats : seastats_arg) (y_col : option string)
    (yd : option (list Q)) (return_data : bool) (r : sea_return) :
  sean (DataTable df) ev xd cols seastats y_col yd return_data = Ok r ->
  y_meta (sea_meta r) = None ->
  NoDup (labels_1d (analysed_cols df cols) (resolve_stats seastats)) ->
  ~ In "t_norm" (labels_1d (analysed_cols df cols) (resolve_stats seastats)) ->
  map fst (t_columns (SEAdat r))
  = flat_map (fun s : string * statistic =>
                map (fun c => (c ++ "_" ++ fst s)%string)
                    (if cols_truthy cols then cols_items cols else names df))
             (resolve_stats seastats).
Proof.
  intros H Hy Hnd Hfree. apply sean_steps in H.
  destruct H as (s1 & s2 & se & cols' & y' & st & p1 & p2 & e1 & e2 & g & ax & ph1
                 & ph2 & tbl & table & Hs1 & Hs2 & Hsel & _ & _ & _ & He1 & He2 & _
                 & Hax & Hph1 & Hph2 & Hfold & Hidx & ->).
  cbn [sea_meta y_meta] in Hy. destruct g as [[y yr]|]; [discriminate|].
  assert (cols_items cols' = analysed_cols df cols) as Hcs.
  { unfold select_data in Hsel. unfold analysed_cols. destruct (cols_truthy cols).
    - apply bind_ok in Hsel. destruct Hsel as (x & _ & Hsel).
      injection Hsel as _ <- _. reflexivity.
    - injection Hsel as _ <- _. reflexivity. }
  rewrite Hcs in *.
  apply getitem_all_inv in Hph1, Hph2. subst ph1 ph2.
  apply fold_stats_1d_inv in Hfold.
  rewrite write_all_fresh in Hfold.
  - subst tbl. cbn [app] in Hidx. rewrite set_index_head in Hidx.
    injection Hidx as <-. cbn [SEAdat t_columns].
    rewrite columns_1d_labels. reflexivity.
  - rewrite columns_1d_labels. exact Hnd.
  - intros n [<- | []]. rewrite columns_1d_labels. exact Hfree.
Qed.

Lemma table_of_1d_analysis_witness :
  exists r,
    sean (DataTable demo_table) demo_events (3, 3)%Z ColsFalse
         (StatsDict [("cnt", StatCount); ("n", StatCount)]) None None false = Ok r
    /\ map fst (t_columns (SEAdat r)) = ["v_cnt"; "L_cnt"; "v_n"; "L_n"].
Proof.
  destruct (sean (DataTable demo_table) demo_events (3, 3)%Z ColsFalse
              (StatsDict [("cnt", StatCount); ("n", StatCount)]) None None false)
    as [r|e] eqn:E; [|vm_compute in E; discriminate].
  exists r. split; [reflexivity|].
  rewrite (table_of_1d_analysis demo_table demo_events (3, 3)%Z ColsFalse
             (StatsDict [("cnt", StatCount); ("n", StatCount)]) None None false r E).
  - reflexivity.
  - apply sean_inv in E. destruct E as (se & cols' & y' & g & Hsel & Hg & ->).
    vm_compute in Hsel. injection Hsel as <- <- <-. vm_compute in Hg.
    injection Hg as <-. reflexivity.
  - vm_compute. repeat (constructor; [simpl; intuition discriminate|]). constructor.
  - vm_compute. intuition discriminate.
Defined.

(** X12. The columns of a 2D analysis on a grid of integers.  When the
    labels [<column>_<statistic>_<bin>], the bin of the second dimension
    written on three digits, are distinct and none is [t_norm], the returned
    table has exactly one column for each of them: statistic by statistic,
    within a statistic in the order of the analysed columns, within a column
    in the order of the bins of the returned [y_edges]. *)
Theorem table_of_2d_analysis (df : DataFrame) (ev : events_arg) (xd : Z * Z)
    (cols : cols_arg) (seastats : seastats_arg) (y_col : option string)
    (yd : option (list Q)) (return_data : bool) (r : sea_return) (yr : y_rtn) :
  sean (DataTable df) ev xd cols seastats y_col yd return_data = Ok r ->
  y_meta (sea_meta r) = Some yr ->
  integer_grid yd ->
  NoDup (labels_2d (cols_items cols) (resolve_stats seastats) (nbins (y_edges yr))) ->
  ~ In "t_norm"
       (labels_2d (cols_items cols) (resolve_stats seastats) (nbins (y_edges yr))) ->
  map fst (t_columns (SEAdat r))
  = flat_map (fun s : string * statistic =>
                flat_map (fun c =>
                            map (fun j => (c ++ "_" ++ fst s ++ "_" ++ fmt_03d j)%string)
                                (seq 0 (List.length (y_edges yr) - 1)))
                         (cols_items cols))
             (resolve_stats seastats).
Proof.
  intros H Hy _ Hnd Hfree. apply sean_steps in H.
  destruct H as (s1 & s2 & se & cols' & y' & st & p1 & p2 & e1 & e2 & g & ax & ph1
                 & ph2 & tbl & table & Hs1 & Hs2 & Hsel & _ & _ & _ & He1 & He2 & Hg
                 & Hax & Hph1 & Hph2 & Hfold & Hidx & ->).
  cbn [sea_meta y_meta] in Hy. destruct g as [[y yr']|]; [|discriminate].
  injection Hy as ->.
  pose proof (select_data_y _ _ _ _ _ _ _ Hsel) as Hy'. cbn [is_series orb] in Hy'.
  pose proof (proj1 (y_grid_some _ _ _ Hg)) as Htruthy.
  assert (y' = Some y) as Hyy.
  { unfold y_grid in Hg. rewrite Htruthy in Hg by discriminate.
    destruct y' as [y0|]; [|discriminate].
    destruct yd as [[|ymin [|ymax [|sp [|]]]]|]; try discriminate.
    apply bind_ok in Hg. destruct Hg as (edges & _ & Hg). injection Hg as <- _.
    reflexivity. }
  assert (cols_truthy cols = true) as Hct.
  { destruct (cols_truthy cols); [reflexivity|]. congruence. }
  rewrite Hct in Hy'.
  assert (cols' = cols) as ->.
  { unfold select_data in Hsel. rewrite Hct in Hsel.
    apply bind_ok in Hsel. destruct Hsel as (x & _ & Hsel).
    injection Hsel as _ <- _. reflexivity. }
  apply getitem_all_inv in Hph1, Hph2. subst ph1 ph2.
  apply fold_stats_2d_inv in Hfold.
  rewrite write_all_fresh in Hfold.
  - subst tbl. cbn [app] in Hidx. rewrite set_index_head in Hidx.
    injection Hidx as <-. cbn [SEAdat t_columns].
    rewrite columns_2d_labels. reflexivity.
  - rewrite columns_2d_labels. exact Hnd.
  - intros n [<- | []]. rewrite columns_2d_labels. exact Hfree.
Qed.

Lemma table_of_2d_analysis_witness :
  sean (DataTable demo_table) demo_events (3, 3)%Z (ColsList ["v"])
       (StatsDict count_only) (Some "L") (Some [0; 10; 5]) true = Ok demo_return_2d
  /\ y_meta (sea_meta demo_return_2d) = Some (mkY 0 10 5 [0; 5; 10])
  /\ map fst (t_columns (SEAdat demo_return_2d)) = ["v_cnt_000"; "v_cnt_001"].
Proof.
  assert (sean (DataTable demo_table) demo_events (3, 3)%Z (ColsList ["v"])
               (StatsDict count_only) (Some "L") (Some [0; 10; 5]) true
          = Ok demo_return_2d) as E by (vm_compute; reflexivity).
  assert (y_meta (sea_meta demo_return_2d) = Some (mkY 0 10 5 [0; 5; 10])) as Hy
    by reflexivity.
  split; [exact E|]. split; [exact Hy|].
  rewrite (table_of_2d_analysis demo_table demo_events (3, 3)%Z (ColsList ["v"])
             (StatsDict count_only) (Some "L") (Some [0; 10; 5]) true demo_return_2d
             (mkY 0 10 5 [0; 5; 10]) E Hy).
  - reflexivity.
  - repeat constructor; [exists 0%Z | exists 10%Z | exists 5%Z];
      (split; [reflexivity | simpl; lia]).
  - simpl. constructor; [simpl; intros [H | []]; discriminate|].
    constructor; [simpl; tauto | constructor].
  - simpl. intros [H | [H | []]]; discriminate.
Defined.

(** X13. Within a phase of positive duration on an ordered index, the
    normalized time of a row is the share of the span between the first and
    the last row of the window that has elapsed at the row; the epochs of the
    event do not enter.  It is 0 at the first row, 1 at the last, and does
    not decrease along the phase. *)
Theorem normalized_time_is_elapsed_share (idx : list Z) :
  StronglySorted Z.le idx ->
  positive_duration idx ->
  exists v,
    normalize idx = Ok v
    /\ Forall2 (fun t x => exists q, x = Fin q
                                     /\ q == elapsed_share (hd 0%Z idx) (last idx 0%Z) t)
               idx v
    /\ (exists q, hd NaN v = Fin q /\ q == 0)
    /\ (exists q, last v NaN = Fin q /\ q == 1)
    /\ StronglySorted fval_le v.
Proof.
  intros Hs Hpos. unfold positive_duration in Hpos.
  destruct idx as [|first rest]; [simpl in Hpos; lia|].
  rewrite (last_default (first :: rest) 0%Z first) in * by discriminate.
  simpl hd in *. set (lst := last (first :: rest) first) in *.
  rewrite normalize_cons. fold lst. eexists. split; [reflexivity|].
  assert (~ inject_Z (lst - first) == 0) as Hne.
  { intros H. assert (0 < inject_Z (lst - first)) as Hp.
    { change 0 with (inject_Z 0). rewrite <- Zlt_Qlt. lia. }
    rewrite H in Hp. apply (Qlt_irrefl 0 Hp). }
  split; [|split; [|split]].
  - generalize (first :: rest). intros l. induction l as [|t l IH]; constructor.
    + apply t_norm_value. exact Hpos.
    + exact IH.
  - cbn [map hd]. destruct (t_norm_value first lst first Hpos) as (q & -> & Hq).
    exists q. split; [reflexivity|]. rewrite Hq. unfold elapsed_share.
    rewrite Z.sub_diag. field. exact Hne.
  - rewrite (last_map _ (first :: rest) first NaN) by discriminate. fold lst.
    destruct (t_norm_value first lst lst Hpos) as (q & -> & Hq).
    exists q. split; [reflexivity|]. rewrite Hq. unfold elapsed_share.
    field. exact Hne.
  - apply (sorted_map Z.le); [|exact Hs].
    intros a b _ _ Hab. unfold fval_le.
    destruct (t_norm_value first lst a Hpos) as (qa & -> & Ha).
    destruct (t_norm_value first lst b Hpos) as (qb & -> & Hb).
    simpl. apply Qle_bool_iff. rewrite Ha, Hb. unfold elapsed_share, Qdiv.
    apply Qmult_le_compat_r.
    + rewrite <- Zle_Qle. lia.
    + apply Qlt_le_weak, Qinv_lt_0_compat.
      change 0 with (inject_Z 0). rewrite <- Zlt_Qlt. lia.
Qed.

Lemma normalized_time_is_elapsed_share_witness :
  StronglySorted Z.le [10; 20; 50]%Z
  /\ positive_duration [10; 20; 50]%Z
  /\ exists v,
       normalize [10; 20; 50]%Z = Ok v
       /\ Forall2 (fun t x => exists q, x = Fin q /\ q == elapsed_share 10 50 t)
                  [10; 20; 50]%Z v
       /\ (exists q, hd NaN v = Fin q /\ q == 0)
       /\ (exists q, last v NaN = Fin q /\ q == 1)
       /\ StronglySorted fval_le v.
Proof.
  assert (StronglySorted Z.le [10; 20; 50]%Z) as Hs.
  { repeat (constructor; [|repeat (constructor; [lia|]); constructor]). constructor. }
  assert (positive_duration [10; 20; 50]%Z) as Hp
    by (unfold positive_duration; simpl; lia).
  split; [exact Hs|]. split; [exact Hp|].
  exact (normalized_time_is_elapsed_share [10; 20; 50]%Z Hs Hp).
Defined.

(** X14. The normalized times depend on the differences of the labels
    only: shifting every label of a phase by the same amount leaves them
    unchanged. *)
Theorem normalize_shift (idx : list Z) (c : Z) :
  normalize (map (fun t => (t + c)%Z) idx) = normalize idx.
Proof.
  destruct idx as [|first rest]; [reflexivity|].
  cbn [map]. rewrite !normalize_cons. f_equal.
  change ((first + c)%Z :: map (fun t => (t + c)%Z) rest)
    with (map (fun t => (t + c)%Z) (first :: rest)).
  rewrite (last_map (fun t => (t + c)%Z) (first :: rest) first (first + c)%Z)
    by discriminate.
  rewrite map_map. apply map_ext. intros t.
  unfold elapsed.
  replace (t + c - (first + c))%Z with (t - first)%Z by lia.
  replace (first + c - (first + c))%Z with (first - first)%Z by lia.
  replace (last (first :: rest) first + c - (first + c))%Z
    with (last (first :: rest) first - first)%Z by lia.
  reflexivity.
Qed.

(** X15. For edge counts of at least 2 that fit in 64 bits the time axis is
    defined, and its positions are all integers exactly when both edge
    counts are 2. *)
Theorem time_axis_positions (n1 n2 : Z) :
  (2 <= n1 < 2 ^ 63)%Z -> (2 <= n2 < 2 ^ 63)%Z ->
  exists axis,
    time_axis (n1, n2) = Ok axis
    /\ (Forall is_integer axis <-> n1 = 2%Z /\ n2 = 2%Z).
Proof.
  intros (H1 & _) (H2 & _).
  destruct (time_axis_ok n1 n2 H1 H2) as (top & Hin & Htop & ->).
  pose proof (top_is_last_bin n1 top H1 Hin Htop) as Ht.
  eexists. split; [reflexivity|].
  assert (Forall2 Qeq
            (map (fun b => (b - top - 1 / inject_Z n1) / (1 / inject_Z n1)) (bin_starts n1)
             ++ map (fun b => b / (1 / inject_Z n2)) (bin_starts n2))
            (axis_positions n1 n2)) as Hpos.
  { unfold axis_positions, bin_starts. rewrite !map_map. apply Forall2_app.
    - apply Forall2_map_seq. intros k Hk. rewrite Ht.
      rewrite (inject_Z_sub (n1 - 2) (Z.of_nat k)).
      field. split; apply inject_Z_nonzero; lia.
    - apply Forall2_map_seq. intros k Hk.
      field. split; apply inject_Z_nonzero; lia. }
  assert (forall l l', Forall2 Qeq l l' -> (Forall is_integer l <-> Forall is_integer l'))
    as Hcompat.
  { induction 1 as [|a b l l' Hab _ IH]; [split; constructor|].
    split; intros Hf; inversion Hf as [|? ? (z & Hz) Hr]; subst;
      (constructor; [exists z | apply IH; exact Hr]).
    - rewrite <- Hab. exact Hz.
    - rewrite Hab. exact Hz. }
  rewrite (Hcompat _ _ Hpos). unfold axis_positions. split.
  - intros Hint. apply Forall_app in Hint. destruct Hint as (Hi1 & Hi2).
    rewrite Forall_forall in Hi1, Hi2. split.
    + destruct (Z.eq_dec n1 2) as [|Hne]; [assumption|]. exfalso.
      destruct (Hi1 (- (1) - inject_Z (n1 - 2 - Z.of_nat (Z.to_nat n1 - 3))
                               * (inject_Z n1 / inject_Z (n1 - 1)))) as (z & Hz).
      { apply in_map_iff. exists (Z.to_nat n1 - 3)%nat. split; [reflexivity|].
        apply in_seq. lia. }
      replace (n1 - 2 - Z.of_nat (Z.to_nat n1 - 3))%Z with 1%Z in Hz by lia.
      apply (integer_ratio n1 (- 1 - z)); [lia|].
      rewrite (inject_Z_sub (-1) z). change (inject_Z (-1)) with (- (1)).
      change (inject_Z 1) with 1 in Hz.
      set (R := inject_Z n1 / inject_Z (n1 - 1)) in *.
      set (zq := inject_Z z) in *. lra.
    + destruct (Z.eq_dec n2 2) as [|Hne]; [assumption|]. exfalso.
      destruct (Hi2 (inject_Z (Z.of_nat 1) * (inject_Z n2 / inject_Z (n2 - 1))))
        as (z & Hz).
      { apply in_map_iff. exists 1%nat. split; [reflexivity|]. apply in_seq. lia. }
      apply (integer_ratio n2 z); [lia|].
      change (inject_Z (Z.of_nat 1)) with 1 in Hz.
      set (R := inject_Z n2 / inject_Z (n2 - 1)) in *.
      set (zq := inject_Z z) in *. lra.
  - intros (-> & ->). simpl. repeat constructor.
    + exists (-1)%Z. reflexivity.
    + exists 0%Z. reflexivity.
Qed.

Lemma time_axis_positions_witness :
  (exists axis,
     time_axis (2, 2)%Z = Ok axis /\ Forall is_integer axis)
  /\ (exists axis,
        time_axis (4, 3)%Z = Ok axis /\ ~ Forall is_integer axis).
Proof.
  split.
  - destruct (time_axis_positions 2 2) as (axis & Hax & Hint); [lia | lia|].
    exists axis. split; [exact Hax|]. apply Hint. split; reflexivity.
  - destruct (time_axis_positions 4 3) as (axis & Hax & Hint); [lia | lia|].
    exists axis. split; [exact Hax|]. intros H. apply Hint in H. destruct H; lia.
Defined.

(** X16. A non-empty string as [cols] on a table is read character by
    character: the call does what it does for the list of the characters of
    the string, and only [sea_cols] in the metadata holds the whole string. *)
Theorem string_cols_read_by_character (df : DataFrame) (ev : events_arg) (xd : Z * Z)
    (s : string) (seastats : seastats_arg) (y_col : option string)
    (yd : option (list Q)) (return_data : bool) :
  s <> "" ->
  sean (DataTable df) ev xd (ColsStr s) seastats y_col yd return_data
  = match sean (DataTable df) ev xd (ColsList (chars s)) seastats y_col yd return_data with
    | Ok r => Ok (with_sea_cols [s] r)
    | Raise e => Raise e
    end.
Proof.
  intros Hs. unfold sean. do 4 (apply bind_map; intros ?).
  assert (cols_truthy (ColsStr s) = true) as H1 by (destruct s; [congruence | reflexivity]).
  assert (cols_truthy (ColsList (chars s)) = true) as H2
    by (destruct s; [congruence | reflexivity]).
  unfold select_data. rewrite H1, H2. cbn [cols_items].
  destruct (getitems df _) as [se|e]; [|reflexivity]. cbn [bind cols_items].
  do 13 (apply bind_map; intros ?). reflexivity.
Qed.

Lemma string_cols_read_by_character_witness :
  sean (DataTable demo_table) demo_events (3, 3)%Z (ColsStr "v") (StatsDict count_only)
       None None true
  = Ok (with_sea_cols ["v"] demo_return_1d)
  /\ sean (DataTable demo_table) demo_events (3, 3)%Z (ColsStr "vL")
          (StatsDict count_only) None None true
     = match sean (DataTable demo_table) demo_events (3, 3)%Z (ColsList ["v"; "L"])
                  (StatsDict count_only) None None true with
       | Ok r => Ok (with_sea_cols ["vL"] r)
       | Raise e => Raise e
       end.
Proof.
  split.
  - rewrite (string_cols_read_by_character demo_table demo_events (3, 3)%Z "v"
               (StatsDict count_only) None None true) by discriminate.
    cbn [chars].
    assert (sean (DataTable demo_table) demo_events (3, 3)%Z (ColsList ["v"])
                 (StatsDict count_only) None None true = Ok demo_return_1d) as ->
      by (vm_compute; reflexivity).
    reflexivity.
  - apply (string_cols_read_by_character demo_table demo_events (3, 3)%Z "vL"
             (StatsDict count_only) None None true).
    discriminate.
Defined.

(** X17. With [cols] given, the columns of the table that are neither in
    [cols] nor the [y_col] of a 2D analysis do not enter: two tables with the
    same index that agree on the selected columns give the same outcome. *)
Theorem unselected_columns_ignored (df df' : DataFrame) (ev : events_arg) (xd : Z * Z)
    (cols : cols_arg) (seastats : seastats_arg) (y_col : option string)
    (yd : option (list Q)) (return_data : bool) :
  cols_truthy cols = true ->
  index df = index df' ->
  (forall c, In c (col_dat cols y_col yd) ->
             lookup c (columns df) = lookup c (columns df')) ->
  sean (DataTable df) ev xd cols seastats y_col yd return_data
  = sean (DataTable df') ev xd cols seastats y_col yd return_data.
Proof.
  intros Hc Hidx Hsame. unfold sean.
  assert (select_data (DataTable df) cols y_col yd
          = select_data (DataTable df') cols y_col yd) as ->; [|reflexivity].
  unfold select_data. rewrite Hc. fold (col_dat cols y_col yd).
  unfold getitems. rewrite Hidx.
  rewrite (filter_ext_in (fun n => negb (has_column df n))
             (fun n => negb (has_column df' n)) (col_dat cols y_col yd)).
  - rewrite (mapM_ext_in _ (fun n => let* v := getitem df' n in Ok (n, v))
               (col_dat cols y_col yd)); [reflexivity|].
    intros c Hin. unfold getitem. rewrite (Hsame c Hin). reflexivity.
  - intros c Hin. rewrite (has_column_lookup df df' c (Hsame c Hin)). reflexivity.
Qed.

Lemma unselected_columns_ignored_witness :
  sean (DataTable demo_table) demo_events (3, 3)%Z (ColsList ["v"]) StatsFalse
       (Some "L") None false
  = sean (DataTable (assign demo_table "L" [NaN; NaN; NaN; NaN; NaN; NaN; NaN]))
         demo_events (3, 3)%Z (ColsList ["v"]) StatsFalse (Some "L") None false.
Proof.
  apply (unselected_columns_ignored demo_table
           (assign demo_table "L" [NaN; NaN; NaN; NaN; NaN; NaN; NaN])
           demo_events (3, 3)%Z (ColsList ["v"]) StatsFalse (Some "L") None false).
  - reflexivity.
  - reflexivity.
  - intros c [<- | []]. reflexivity.
Defined.

(** X18. Every pooled row is counted once.  On a table with an ordered index,
    when each event that has data spans a positive duration in both phases,
    the counts of the samples of an analysed column over the bins of a phase
    add up to the number of pooled rows of that phase: no row falls outside
    the bins and none is counted twice. *)
Theorem every_row_in_one_bin (df : DataFrame) (ev : events_arg) (xd : Z * Z)
    (cols : cols_arg) (seastats : seastats_arg) (y_col : option string)
    (yd : option (list Q)) (r : sea_return) :
  sean (DataTable df) ev xd cols seastats y_col yd true = Ok r ->
  well_formed df ->
  StronglySorted Z.le (index df) ->
  (2 <= fst xd)%Z -> (2 <= snd xd)%Z ->
  (forall i, In i (event_ids ev) -> has_data (index df) ev i = true ->
     positive_duration (labels_between (index df) (start_of ev i) (epoch_of ev i))
     /\ positive_duration (labels_between (index df) (epoch_of ev i) (end_of ev i))) ->
  exists p1 p2 e1 e2,
    pooled r = Some (p1, p2)
    /\ Np.linspace 0 1 (fst xd) = Ok e1 /\ Np.linspace 0 1 (snd xd) = Ok e2
    /\ forall c, In c (analysed_cols df cols) ->
         bin_stats p1 c e1 StatCount
         = map (fun k => Fin (inject_Z (Z.of_nat k))) (bin_sizes p1 c e1)
         /\ list_sum (bin_sizes p1 c e1) = List.length (index p1)
         /\ bin_stats p2 c e2 StatCount
            = map (fun k => Fin (inject_Z (Z.of_nat k))) (bin_sizes p2 c e2)
         /\ list_sum (bin_sizes p2 c e2) = List.length (index p2).
Proof.
  intros H (_ & _ & Hrect) Hs Hn1 Hn2 Hpos. apply sean_steps in H.
  destruct H as (s1 & s2 & se & cols' & y' & st & p1 & p2 & e1 & e2 & g & ax & ph1
                 & ph2 & tbl & table & _ & _ & Hsel & Hloop & Hp1 & Hp2 & He1 & He2 & _
                 & _ & Hph1 & Hph2 & _ & _ & ->).
  apply event_loop_complete in Hloop. destruct Hloop as (_ & ->).
  unfold after_events in Hp1, Hp2. cbn [phase1_dfs phase2_dfs app] in Hp1, Hp2.
  fold (survivors se ev) in Hp1, Hp2.
  assert (cols_items cols' = analysed_cols df cols) as Hcs.
  { unfold select_data in Hsel. unfold analysed_cols. destruct (cols_truthy cols).
    - apply bind_ok in Hsel. destruct Hsel as (x & _ & Hsel).
      injection Hsel as _ <- _. reflexivity.
    - injection Hsel as _ <- _. reflexivity. }
  rewrite Hcs in *.
  pose proof (rect_selected _ _ _ _ _ _ _ Hrect Hsel) as Hse.
  pose proof (select_data_index _ _ _ _ _ _ _ Hsel) as Hidx. cbn [data_index] in Hidx.
  rewrite <- Hidx in Hs, Hpos.
  assert (forall i, In i (survivors se ev) ->
            positive_duration (labels_between (index se) (start_of ev i) (epoch_of ev i))
            /\ positive_duration (labels_between (index se) (epoch_of ev i) (end_of ev i)))
    as Hsurv.
  { intros i Hi. unfold survivors in Hi. apply filter_In in Hi. destruct Hi as (Hi & Hv).
    apply Hpos; [exact Hi | apply survives_has_data; exact Hv]. }
  assert (Forall in_unit_interval (column_or_nan "t_norm" p1)) as Hu1.
  { apply (pooled_unit se ev (window1 se ev) (start_of ev) (epoch_of ev)
             (survivors se ev) p1 Hs); [reflexivity | | exact Hp1].
    intros i Hi. apply (Hsurv i Hi). }
  assert (Forall in_unit_interval (column_or_nan "t_norm" p2)) as Hu2.
  { apply (pooled_unit se ev (window2 se ev) (epoch_of ev) (end_of ev)
             (survivors se ev) p2 Hs); [reflexivity | | exact Hp2].
    intros i Hi. apply (Hsurv i Hi). }
  assert (forall (W : nat -> DataFrame) p cs ph c,
            (forall i, rect (W i)) ->
            concat (map (fun i => frame_of (W i)) (survivors se ev)) = Ok p ->
            mapM (getitem p) cs = Ok ph -> In c cs ->
            List.length (column_or_nan c p) = List.length (index p)
            /\ List.length (column_or_nan "t_norm" p) = List.length (index p)) as Hlen.
  { intros W p cs ph c HW Hp Hph Hc. split.
    - apply mapM_inv in Hph.
      assert (exists v, getitem p c = Ok v) as (v & Hv).
      { clear - Hph Hc. induction Hph as [|a b l bs Hab _ IH]; [destruct Hc|].
        destruct Hc as [<- | Hc]; [eauto | apply IH; exact Hc]. }
      rewrite (getitem_column _ _ _ Hv).
      apply (pooled_column_length W (survivors se ev) p c v HW Hp Hv).
    - destruct (concat_frames _ _ _ Hp) as (Ht & _).
      rewrite (getitem_column _ _ _ Ht).
      apply (pooled_column_length W (survivors se ev) p "t_norm" _ HW Hp Ht). }
  exists p1, p2, e1, e2. split; [reflexivity|]. split; [exact He1|]. split; [exact He2|].
  intros c Hc.
  destruct (Hlen (window1 se ev) p1 _ ph1 c (fun i => rect_loc se _ _ Hse) Hp1 Hph1 Hc)
    as (L1 & T1).
  destruct (Hlen (window2 se ev) p2 _ ph2 c (fun i => rect_loc se _ _ Hse) Hp2 Hph2 Hc)
    as (L2 & T2).
  split; [unfold bin_stats, bin_sizes; rewrite map_map; reflexivity|].
  split; [rewrite <- L1; apply (bin_sizes_total (fst xd)); [assumption.. | congruence]|].
  split; [unfold bin_stats, bin_sizes; rewrite map_map; reflexivity|].
  rewrite <- L2. apply (bin_sizes_total (snd xd)); [assumption.. | congruence].
Qed.

Lemma every_row_in_one_bin_witness :
  exists p1 p2 e1 e2,
    pooled demo_return_1d = Some (p1, p2)
    /\ Np.linspace 0 1 (fst (3, 3)%Z) = Ok e1 /\ Np.linspace 0 1 (snd (3, 3)%Z) = Ok e2
    /\ forall c, In c (analysed_cols demo_table (ColsList ["v"])) ->
         bin_stats p1 c e1 StatCount
         = map (fun k => Fin (inject_Z (Z.of_nat k))) (bin_sizes p1 c e1)
         /\ list_sum (bin_sizes p1 c e1) = List.length (index p1)
         /\ bin_stats p2 c e2 StatCount
            = map (fun k => Fin (inject_Z (Z.of_nat k))) (bin_sizes p2 c e2)
         /\ list_sum (bin_sizes p2 c e2) = List.length (index p2).
Proof.
  assert (sean (DataTable demo_table) demo_events (3, 3)%Z (ColsList ["v"])
               (StatsDict count_only) None None true = Ok demo_return_1d) as E
    by (vm_compute; reflexivity).
  apply (every_row_in_one_bin demo_table demo_events (3, 3)%Z (ColsList ["v"])
           (StatsDict count_only) None None demo_return_1d E).
  - exact demo_well_formed.
  - exact demo_sorted.
  - simpl. lia.
  - simpl. lia.
  - intros i Hi _. simpl in Hi. destruct Hi as [<- | [<- | []]];
      split; vm_compute; reflexivity.
Defined.

(** X20. A call that returns gives a table with one row for each bin of
    the two phases, [(x1_edge_count - 1) + (x2_edge_count - 1)] rows: that
    is the length of its index and of each of its columns. *)
Theorem returned_table_row_count (data : data_arg) (ev : events_arg) (xd : Z * Z)
    (cols : cols_arg) (seastats : seastats_arg) (y_col : option string)
    (yd : option (list Q)) (return_data : bool) (r : sea_return) :
  sean data ev xd cols seastats y_col yd return_data = Ok r ->
  List.length (t_index (SEAdat r))
  = (Z.to_nat (fst xd) - 1 + (Z.to_nat (snd xd) - 1))%nat
  /\ Forall (fun c : column =>
               List.length (snd c)
               = (Z.to_nat (fst xd) - 1 + (Z.to_nat (snd xd) - 1))%nat)
            (t_columns (SEAdat r)).
Proof.
  intros H. exact (returned_shape _ _ _ _ _ _ _ _ r H).
Qed.

Lemma returned_table_row_count_witness :
  exists r,
    sean (DataTable demo_table) demo_events (4, 3)%Z ColsFalse (StatsDict count_only)
         None None false = Ok r
    /\ List.length (t_index (SEAdat r)) = 5%nat
    /\ Forall (fun c : column => List.length (snd c) = 5%nat) (t_columns (SEAdat r)).
Proof.
  destruct (sean (DataTable demo_table) demo_events (4, 3)%Z ColsFalse
              (StatsDict count_only) None None false) as [r|e] eqn:E;
    [|vm_compute in E; discriminate].
  exists r. split; [reflexivity|].
  exact (returned_table_row_count _ _ _ _ _ _ _ _ r E).
Defined.

(** X21. When a call on a table returns and no statistic column takes the
    label [t_norm], the index of the returned table is the time axis: it is
    strictly increasing, its first [x1_edge_count - 1] values, the phase-1
    part, are negative, the others are not, and the first of these is 0. *)
Theorem returned_index_ordered (df : DataFrame) (ev : events_arg) (x1 x2 : Z)
    (cols : cols_arg) (seastats : seastats_arg) (y_col : option string)
    (yd : option (list Q)) (return_data : bool) (r : sea_return) :
  sean (DataTable df) ev (x1, x2) cols seastats y_col yd return_data = Ok r ->
  (2 <= x1)%Z -> (2 <= x2)%Z ->
  (forall l, stat_label (analysed_cols df cols) (map fst (resolve_stats seastats)) l ->
             l <> "t_norm") ->
  exists phase1 phase2,
    t_index (SEAdat r) = map Fin (phase1 ++ phase2)
    /\ Z.of_nat (List.length phase1) = (x1 - 1)%Z
    /\ Z.of_nat (List.length phase2) = (x2 - 1)%Z
    /\ StronglySorted Qlt (phase1 ++ phase2)
    /\ Forall (fun q => q < 0) phase1
    /\ Forall (fun q => 0 <= q) phase2
    /\ (exists q rest, phase2 = q :: rest /\ q == 0).
Proof.
  intros H H1 H2 Hfree.
  destruct (returned_index _ _ _ _ _ _ _ _ r H Hfree) as (ax & Hax & Hidx).
  destruct (time_axis_ordered x1 x2 H1 H2)
    as (a1 & a2 & Hax' & L1 & L2 & Hs & Hneg & Hpos & Hzero).
  rewrite Hax in Hax'. injection Hax' as ->.
  exists a1, a2. split; [exact Hidx|]. split; [lia|]. split; [lia|]. auto.
Qed.

Lemma returned_index_ordered_witness :
  exists r phase1 phase2,
    sean (DataTable demo_table) demo_events (3, 3)%Z (ColsList ["v"]) StatsFalse
         None None false = Ok r
    /\ t_index (SEAdat r) = map Fin (phase1 ++ phase2)
    /\ Z.of_nat (List.length phase1) = (3 - 1)%Z
    /\ Z.of_nat (List.length phase2) = (3 - 1)%Z
    /\ StronglySorted Qlt (phase1 ++ phase2)
    /\ Forall (fun q => q < 0) phase1
    /\ Forall (fun q => 0 <= q) phase2
    /\ (exists q rest, phase2 = q :: rest /\ q == 0).
Proof.
  destruct (sean_ok demo_table demo_events (3, 3)%Z (ColsList ["v"]) StatsFalse
              None None false demo_valid_1d stats_false_plain) as (r & _ & Hr & _).
  destruct (returned_index_ordered demo_table demo_events 3 3 (ColsList ["v"])
              StatsFalse None None false r Hr ltac:(lia) ltac:(lia) demo_labels_free)
    as (phase1 & phase2 & H).
  exists r, phase1, phase2. split; [exact Hr | exact H].
Defined.
